(** * Payment and fulfilment pipeline of the Telegram Premium bot

    A shallow embedding of the balance ledger (database.py), the deposit
    matcher (usdtpay.py), the fulfilment client (premium_service.py) and the
    queue drain (bot.py), and the properties of them that the specification
    states.

    Conventions of the embedding.
    - Money.  Python [Decimal] values and the floats that carry stored
      amounts are decimals of at most six places, counted here in millionths
      of a unit (the unit of the chain indexer's [event['amount']]).  A
      [DECIMAL(10, s)] column keeps [s] places: the server rounds what a
      statement writes to it, and refuses or clips what is beyond ten digits.
      The refusal is written out where the program writes a balance or the
      amount of a deposit order; the other stored amounts (prices, provider
      costs, matched transfers) are taken to be within the range.
      The sum of the requested amount and the random offset of a deposit
      order is a binary float, rounded as IEEE 754 doubles are.
    - Storage.  The MySQL tables are lists of rows in insertion order.  A
      connection buffers its writes until [commit]; a read on a connection
      sees the committed tables with that connection's buffered writes on
      top.  Row locks, foreign keys and the interleaving of coroutines are
      not part of the model: every function runs to its end before the next
      one starts.
    - Outside world.  The fulfilment provider, the Telegram API, the uuid
      generator, the random generator and the clock are scripts held in the
      environment; the world counts how far each script has been read. *)

From Stdlib Require Import ZArith List String Ascii Bool Lia QArith Lqa DecimalString.
Import ListNotations.
Local Open Scope string_scope.
Local Open Scope list_scope.
Local Open Scope Z_scope.

(** ** Exceptions and the state-and-exception monad *)

Inductive exn : Type :=
| ValueError (msg : string)
| TypeError (msg : string)
| IndexError (msg : string)
| KeyError (msg : string)
| IntegrityError (msg : string)
| DataError (msg : string)
| TelegramError (msg : string) (status_code : option Z)
| Exception (msg : string).

(** [str(e)] *)
Definition str (e : exn) : string :=
  match e with
  | ValueError m | TypeError m | IndexError m | KeyError m
  | IntegrityError m | DataError m | Exception m => m
  | TelegramError m _ => m
  end.

Inductive res (A : Type) : Type :=
| Ok (a : A)
| Raise (e : exn).
Arguments Ok {A} a.
Arguments Raise {A} e.

(** ** Decimals and text *)

Definition Decimal := Z.

(** [units] thousandths of a unit, the scale of the [balance] column. *)
Definition milli (units : Z) : Decimal := units * 1000.

Notation "a +++ b" := (String.append a b) (at level 60, right associativity).

Definition show_Z (z : Z) : string := NilZero.string_of_int (Z.to_int z).

(** [n / d] rounded to the nearest integer, ties to the even one ([d > 0]). *)
Definition round_half_even (n d : Z) : Z :=
  let q := n / d in
  match (2 * (n mod d) ?= d) with
  | Lt => q
  | Gt => q + 1
  | Eq => if Z.even q then q else q + 1
  end.

(** ** Column types

    A [DECIMAL(10, s)] column holds ten digits, [s] of them after the point.
    [place] is its last place in millionths: 1000 for [DECIMAL(10,3)], 100
    for [DECIMAL(10,4)]. *)

(** The nearest multiple of [place], a half going away from zero: how the
    server rounds a value to the scale of the column it is stored in. *)
Definition round_half_up (place : Z) (x : Decimal) : Decimal :=
  Z.sgn x * ((2 * Z.abs x + place) / (2 * place)) * place.

(** The largest value of the column: 9999999.999 for [DECIMAL(10,3)],
    999999.9999 for [DECIMAL(10,4)]. *)
Definition column_max (place : Z) : Decimal := (10 ^ 10 - 1) * place.

(** Outside strict SQL mode a value beyond the range is stored as the nearest
    bound of the column. *)
Definition clip (place : Z) (x : Decimal) : Decimal :=
  Z.max (- column_max place) (Z.min (column_max place) x).

(** What the column holds after a statement has written [x] to it. *)
Definition to_column (place : Z) (x : Decimal) : Decimal :=
  clip place (round_half_up place x).

(** [balance + %s] with a float parameter.  The driver sends the float as a
    decimal literal or, in its later versions, as a DOUBLE literal; with a
    DOUBLE the server adds in binary floating point.  [x] is the exact sum.
    The float sum lies within 2e-9 of it, so it rounds as [x] does unless [x]
    is halfway between two multiples of [place]; there the float may lie on
    either side, and [halfway_up x] says on which. *)
Definition round_float_sum (place : Z) (halfway_up : Decimal -> bool) (x : Decimal) : Decimal :=
  if 2 * (x mod place) =? place
  then (if halfway_up x then x / place + 1 else x / place) * place
  else round_half_up place x.

(** ** Binary floating point *)

(** The double nearest to a rational, ties to the even mantissa, for a value
    within the normal range of the format.  [k] brackets the binary exponent:
    [2^(k-1) < |x| < 2^(k+1)]; [p / q] is [|x|] scaled into the range of a
    53-bit mantissa. *)
Definition to_float (x : Q) : Q :=
  let n := Z.abs (Qnum x) in
  let d := Zpos (Qden x) in
  if n =? 0 then 0%Q
  else
    let k := Z.log2 n - Z.log2 d in
    let p := if k <=? 52 then n * 2 ^ (52 - k) else n in
    let q := if k <=? 52 then d else d * 2 ^ (k - 52) in
    let low := p <? 2 ^ 52 * q in
    let mantissa := round_half_even (if low then 2 * p else p) q in
    let e := if low then k - 53 else k - 52 in
    let m := Z.sgn (Qnum x) * mantissa in
    if 0 <=? e then inject_Z (m * 2 ^ e) else Qmake m (Z.to_pos (2 ^ (- e))).

(** The relative error of rounding to a double: [2^-53]. *)
Definition float_error : Q := 1 # 9007199254740992.

Definition pad3 (s : string) : string :=
  match String.length s with
  | 1%nat => "00" +++ s
  | 2%nat => "0" +++ s
  | _ => s
  end.

(** [f"{x:.3f}"] *)
Definition fmt3 (x : Decimal) : string :=
  let m := round_half_even (Z.abs x) 1000 in
  (if x <? 0 then "-" else EmptyString) +++ show_Z (m / 1000) +++ "." +++ pad3 (show_Z (m mod 1000)).

Definition LF : string := String (ascii_of_nat 10) EmptyString.

(** The double quote. *)
Definition DQ : string := String (ascii_of_nat 34) EmptyString.

(** [s.split(sep)] for a non-empty [sep]: [skip] characters of a separator
    just found are still to be passed over, [cur] is the piece being read. *)
Fixpoint split_from (sep s : string) (skip : nat) (cur : string) : list string :=
  match s with
  | EmptyString => [cur]
  | String c rest =>
      match skip with
      | S k => split_from sep rest k cur
      | O =>
          if prefix sep s
          then cur :: split_from sep rest (String.length sep - 1) EmptyString
          else split_from sep rest 0 (cur +++ String c EmptyString)
      end
  end.

Definition split (sep s : string) : list string := split_from sep s 0 EmptyString.

(** [needle in s] *)
Fixpoint contains (needle s : string) : bool :=
  match s with
  | EmptyString => prefix needle EmptyString
  | String _ rest => prefix needle s || contains needle rest
  end.

Definition lower_ascii (c : ascii) : ascii :=
  let n := nat_of_ascii c in
  if (65 <=? n)%nat && (n <=? 90)%nat then ascii_of_nat (n + 32) else c.

(** [s.lower()] on the ASCII letters. *)
Fixpoint lower (s : string) : string :=
  match s with
  | EmptyString => EmptyString
  | String c rest => String (lower_ascii c) (lower rest)
  end.

(** ** The tables (database.py, [init_db]) *)

Record user_balance_row : Type := {
  ub_telegram_id : Z;
  ub_username : string;
  ub_balance : Decimal;
  ub_updated_at : Z
}.

(** [usdtpay]: status 0 is open, 1 matched, 2 cancelled. *)
Record usdtpay_row : Type := {
  up_out_trade_no : string;
  up_telegram_id : Z;
  up_created_at : Z;
  up_expires_at : option Z;
  up_status : Z;
  up_amount : Decimal
}.

Record okusdt_row : Type := {
  ok_out_trade_no : string;
  ok_telegram_id : Z;
  ok_created_at : Z;
  ok_amount : Decimal
}.

(** [purchase_orders.status]: ENUM('成功', '失败', '重复'). *)
Inductive purchase_status : Type := Succeeded | Failed | Duplicate.

Record purchase_order_row : Type := {
  po_order_id : string;
  po_telegram_id : Z;
  po_username : string;
  po_duration : Z;
  po_amount : Decimal;
  po_status : purchase_status;
  po_created_at : Z
}.

Record completed_order_row : Type := {
  co_req_id : string;
  co_telegram_id : Z;
  co_username : string;
  co_duration : Z;
  co_amount : Decimal;
  co_created_at : Z;
  co_tx_hash : string
}.

(** [premium_queue.status]: ENUM('pending', 'processing', 'completed', 'failed'). *)
Inductive task_status : Type := pending | processing | completed | failed.

Definition task_status_eqb (a b : task_status) : bool :=
  match a, b with
  | pending, pending | processing, processing
  | completed, completed | failed, failed => true
  | _, _ => false
  end.

Record queue_row : Type := {
  q_id : Z;
  q_telegram_id : Z;
  q_username : string;
  q_duration : Z;
  q_status : task_status;
  q_retry_count : Z;
  q_created_at : Z;
  q_updated_at : Z;
  q_error_message : option string
}.

Record DB : Type := {
  user_balances : list user_balance_row;
  usdtpay : list usdtpay_row;
  okusdt : list okusdt_row;
  purchase_orders : list purchase_order_row;
  completed_orders : list completed_order_row;
  premium_queue : list queue_row
}.

(** ** Statements that change rows

    What a cursor's [execute] can ask for in this program; [at_time] is the
    server's CURRENT_TIMESTAMP when the statement runs. *)

Inductive write : Type :=
| UpsertBalance (telegram_id : Z) (username : string) (balance : Decimal) (at_time : Z)
| AddBalance (telegram_id : Z) (amount : Decimal) (halfway_up : Decimal -> bool) (at_time : Z)
| InsertUsdtpay (row : usdtpay_row)
| SetUsdtpayStatus (out_trade_no : string) (status : Z)
| DeleteUsdtpay (out_trade_no : string)
| InsertOkusdt (row : okusdt_row)
| InsertPurchaseOrder (row : purchase_order_row)
| InsertCompletedOrder (row : completed_order_row)
| InsertQueueTask (row : queue_row)
| SetQueueStatus (task_id : Z) (status : task_status) (at_time : Z)
| FailQueueTask (task_id : Z) (status : task_status) (error_message : option string) (at_time : Z).

Definition find_balance (telegram_id : Z) (rows : list user_balance_row) : option user_balance_row :=
  find (fun r => ub_telegram_id r =? telegram_id) rows.

(** INSERT ... ON DUPLICATE KEY UPDATE balance = b, updated_at = CURRENT_TIMESTAMP;
    [balance] is DECIMAL(10,3) and [b] a decimal literal. *)
Definition upsert_balance (telegram_id : Z) (username : string) (b : Decimal) (t : Z)
    (rows : list user_balance_row) : list user_balance_row :=
  match find_balance telegram_id rows with
  | Some _ =>
      map (fun r =>
             if ub_telegram_id r =? telegram_id
             then {| ub_telegram_id := ub_telegram_id r; ub_username := ub_username r;
                     ub_balance := to_column 1000 b; ub_updated_at := t |}
             else r) rows
  | None =>
      rows ++ [{| ub_telegram_id := telegram_id; ub_username := username;
                  ub_balance := to_column 1000 b; ub_updated_at := t |}]
  end.

(** The balance of a row after [balance = balance + a] with the float [a]. *)
Definition credited (halfway_up : Decimal -> bool) (balance a : Decimal) : Decimal :=
  round_float_sum 1000 halfway_up (balance + a).

(** UPDATE user_balances SET balance = balance + a WHERE telegram_id = id;
    [a] is a float parameter. *)
Definition add_balance (telegram_id : Z) (a : Decimal) (halfway_up : Decimal -> bool) (t : Z)
    (rows : list user_balance_row) : list user_balance_row :=
  map (fun r =>
         if ub_telegram_id r =? telegram_id
         then {| ub_telegram_id := ub_telegram_id r; ub_username := ub_username r;
                 ub_balance := clip 1000 (credited halfway_up (ub_balance r) a);
                 ub_updated_at := t |}
         else r) rows.

(** The rows as the tables keep them: [usdtpay.amount] is DECIMAL(10,4),
    the [amount] of [okusdt], [purchase_orders] and [completed_orders] is
    DECIMAL(10,3). *)
Definition stored_usdtpay (r : usdtpay_row) : usdtpay_row :=
  {| up_out_trade_no := up_out_trade_no r; up_telegram_id := up_telegram_id r;
     up_created_at := up_created_at r; up_expires_at := up_expires_at r;
     up_status := up_status r; up_amount := to_column 100 (up_amount r) |}.

Definition stored_okusdt (r : okusdt_row) : okusdt_row :=
  {| ok_out_trade_no := ok_out_trade_no r; ok_telegram_id := ok_telegram_id r;
     ok_created_at := ok_created_at r; ok_amount := to_column 1000 (ok_amount r) |}.

Definition stored_purchase_order (r : purchase_order_row) : purchase_order_row :=
  {| po_order_id := po_order_id r; po_telegram_id := po_telegram_id r;
     po_username := po_username r; po_duration := po_duration r;
     po_amount := to_column 1000 (po_amount r); po_status := po_status r;
     po_created_at := po_created_at r |}.

Definition stored_completed_order (r : completed_order_row) : completed_order_row :=
  {| co_req_id := co_req_id r; co_telegram_id := co_telegram_id r;
     co_username := co_username r; co_duration := co_duration r;
     co_amount := to_column 1000 (co_amount r); co_created_at := co_created_at r;
     co_tx_hash := co_tx_hash r |}.

(** UPDATE usdtpay SET status = s WHERE out_trade_no = no *)
Definition set_usdtpay_status (no : string) (s : Z) (rows : list usdtpay_row) : list usdtpay_row :=
  map (fun r =>
         if String.eqb (up_out_trade_no r) no
         then {| up_out_trade_no := up_out_trade_no r; up_telegram_id := up_telegram_id r;
                 up_created_at := up_created_at r; up_expires_at := up_expires_at r;
                 up_status := s; up_amount := up_amount r |}
         else r) rows.

(** DELETE FROM usdtpay WHERE out_trade_no = no *)
Definition delete_usdtpay (no : string) (rows : list usdtpay_row) : list usdtpay_row :=
  filter (fun r => negb (String.eqb (up_out_trade_no r) no)) rows.

(** UPDATE premium_queue SET status = s, updated_at = CURRENT_TIMESTAMP WHERE id = task_id *)
Definition set_queue_status (task_id : Z) (s : task_status) (t : Z)
    (rows : list queue_row) : list queue_row :=
  map (fun r =>
         if q_id r =? task_id
         then {| q_id := q_id r; q_telegram_id := q_telegram_id r; q_username := q_username r;
                 q_duration := q_duration r; q_status := s; q_retry_count := q_retry_count r;
                 q_created_at := q_created_at r; q_updated_at := t;
                 q_error_message := q_error_message r |}
         else r) rows.

(** UPDATE premium_queue SET status = s, error_message = m,
    retry_count = retry_count + 1, updated_at = CURRENT_TIMESTAMP WHERE id = task_id *)
Definition fail_queue_task (task_id : Z) (s : task_status) (m : option string) (t : Z)
    (rows : list queue_row) : list queue_row :=
  map (fun r =>
         if q_id r =? task_id
         then {| q_id := q_id r; q_telegram_id := q_telegram_id r; q_username := q_username r;
                 q_duration := q_duration r; q_status := s; q_retry_count := q_retry_count r + 1;
                 q_created_at := q_created_at r; q_updated_at := t;
                 q_error_message := m |}
         else r) rows.

Definition apply_write (wr : write) (d : DB) : DB :=
  match wr with
  | UpsertBalance id name b t =>
      {| user_balances := upsert_balance id name b t (user_balances d);
         usdtpay := usdtpay d; okusdt := okusdt d; purchase_orders := purchase_orders d;
         completed_orders := completed_orders d; premium_queue := premium_queue d |}
  | AddBalance id a halfway_up t =>
      {| user_balances := add_balance id a halfway_up t (user_balances d);
         usdtpay := usdtpay d; okusdt := okusdt d; purchase_orders := purchase_orders d;
         completed_orders := completed_orders d; premium_queue := premium_queue d |}
  | InsertUsdtpay row =>
      {| user_balances := user_balances d;
         usdtpay := usdtpay d ++ [stored_usdtpay row]; okusdt := okusdt d;
         purchase_orders := purchase_orders d;
         completed_orders := completed_orders d; premium_queue := premium_queue d |}
  | SetUsdtpayStatus no s =>
      {| user_balances := user_balances d;
         usdtpay := set_usdtpay_status no s (usdtpay d); okusdt := okusdt d;
         purchase_orders := purchase_orders d;
         completed_orders := completed_orders d; premium_queue := premium_queue d |}
  | DeleteUsdtpay no =>
      {| user_balances := user_balances d;
         usdtpay := delete_usdtpay no (usdtpay d); okusdt := okusdt d;
         purchase_orders := purchase_orders d;
         completed_orders := completed_orders d; premium_queue := premium_queue d |}
  | InsertOkusdt row =>
      {| user_balances := user_balances d;
         usdtpay := usdtpay d; okusdt := okusdt d ++ [stored_okusdt row];
         purchase_orders := purchase_orders d;
         completed_orders := completed_orders d; premium_queue := premium_queue d |}
  | InsertPurchaseOrder row =>
      {| user_balances := user_balances d;
         usdtpay := usdtpay d; okusdt := okusdt d;
         purchase_orders := purchase_orders d ++ [stored_purchase_order row];
         completed_orders := completed_orders d; premium_queue := premium_queue d |}
  | InsertCompletedOrder row =>
      {| user_balances := user_balances d;
         usdtpay := usdtpay d; okusdt := okusdt d; purchase_orders := purchase_orders d;
         completed_orders := completed_orders d ++ [stored_completed_order row];
         premium_queue := premium_queue d |}
  | InsertQueueTask row =>
      {| user_balances := user_balances d;
         usdtpay := usdtpay d; okusdt := okusdt d; purchase_orders := purchase_orders d;
         completed_orders := completed_orders d; premium_queue := premium_queue d ++ [row] |}
  | SetQueueStatus id s t =>
      {| user_balances := user_balances d;
         usdtpay := usdtpay d; okusdt := okusdt d; purchase_orders := purchase_orders d;
         completed_orders := completed_orders d;
         premium_queue := set_queue_status id s t (premium_queue d) |}
  | FailQueueTask id s m t =>
      {| user_balances := user_balances d;
         usdtpay := usdtpay d; okusdt := okusdt d; purchase_orders := purchase_orders d;
         completed_orders := completed_orders d;
         premium_queue := fail_queue_task id s m t (premium_queue d) |}
  end.

Definition apply_writes (ws : list write) (d : DB) : DB :=
  fold_left (fun acc wr => apply_write wr acc) ws d.

(** ** The outside world *)

(** What the provider, the wallet and the chain answer during one
    [activate_premium] session, request by request. *)
Record provider_reply : Type := {
  search_recipient : res string;            (* searchPremiumGiftRecipient: found.recipient *)
  price_check : res Decimal;                (* first initGiftPremiumRequest: amount *)
  wallet_balance : res Decimal;             (* check_wallet_balance *)
  init_request : res (string * Decimal);    (* second initGiftPremiumRequest: req_id, amount *)
  update_state : res unit;                  (* updatePremiumState *)
  confirm_link : res unit;                  (* getGiftPremiumLink *)
  raw_request : res (string * Decimal);     (* get_raw_request: Ref payload, pay_amount *)
  transfer : res string                     (* transfer_ton: tx_hash *)
}.

Record Env : Type := {
  PRICES : list (Z * Decimal);              (* config.PRICES *)
  ADMIN_IDS : list Z;
  credentials_set : bool;                   (* HASH, COOKIE, MNEMONIC and BOT_TOKEN are set *)
  conn_autocommit : bool;                   (* truth value of [conn.autocommit] in get_db *)
  strict_sql_mode : bool;                   (* the server's sql_mode is strict (its default) *)
  double_halfway_up : Decimal -> bool;      (* a float sum at an exact half: stored as the
                                               upper thousandth *)
  fragment : nat -> provider_reply;         (* the n-th provider session *)
  telegram : nat -> option (string * option Z);
                                            (* the n-th send_message: delivered, or the
                                               TelegramError text and status_code *)
  uuid4 : nat -> string;                    (* the n-th str(uuid.uuid4())[:8] *)
  uniform : nat -> Q                        (* the n-th random.uniform(0.001, 0.01) *)
}.

Record World : Type := {
  db : DB;                                  (* committed tables *)
  txn : list write;                         (* uncommitted writes of the connection in scope *)
  now : Z;                                  (* clock, in seconds *)
  sessions : nat;                           (* provider sessions opened so far *)
  sent : list (Z * bool);                   (* send_message attempts: chat_id, delivered *)
  uuids : nat;                              (* order ids drawn so far *)
  draws : nat;                              (* random offsets drawn so far *)
  alerts : list string                      (* send_to_admin messages *)
}.

Definition M (A : Type) : Type := World -> res A * World.

Definition ret {A} (a : A) : M A := fun w => (Ok a, w).

Definition raise {A} (e : exn) : M A := fun w => (Raise e, w).

Definition bind {A B} (m : M A) (k : A -> M B) : M B :=
  fun w =>
    match m w with
    | (Ok a, w') => k a w'
    | (Raise e, w') => (Raise e, w')
    end.

(** try: [m] except Exception as e: [handler e] *)
Definition try_except {A} (m : M A) (handler : exn -> M A) : M A :=
  fun w =>
    match m w with
    | (Ok a, w') => (Ok a, w')
    | (Raise e, w') => handler e w'
    end.

Notation "x <- m ;; k" := (bind m (fun x => k))
  (at level 61, m at next level, right associativity).
Notation "' pat <- m ;; k" := (bind m (fun x => match x with pat => k end))
  (at level 61, pat pattern, m at next level, right associativity).
Notation "m ;; k" := (bind m (fun _ => k))
  (at level 61, right associativity).

Definition set_db (d : DB) (w : World) : World :=
  {| db := d; txn := txn w; now := now w; sessions := sessions w;
     sent := sent w; uuids := uuids w; draws := draws w; alerts := alerts w |}.

Definition set_txn (p : list write) (w : World) : World :=
  {| db := db w; txn := p; now := now w; sessions := sessions w;
     sent := sent w; uuids := uuids w; draws := draws w; alerts := alerts w |}.

Definition set_now (t : Z) (w : World) : World :=
  {| db := db w; txn := txn w; now := t; sessions := sessions w;
     sent := sent w; uuids := uuids w; draws := draws w; alerts := alerts w |}.

Definition set_sessions (n : nat) (w : World) : World :=
  {| db := db w; txn := txn w; now := now w; sessions := n;
     sent := sent w; uuids := uuids w; draws := draws w; alerts := alerts w |}.

Definition set_sent (l : list (Z * bool)) (w : World) : World :=
  {| db := db w; txn := txn w; now := now w; sessions := sessions w;
     sent := l; uuids := uuids w; draws := draws w; alerts := alerts w |}.

Definition set_uuids (n : nat) (w : World) : World :=
  {| db := db w; txn := txn w; now := now w; sessions := sessions w;
     sent := sent w; uuids := n; draws := draws w; alerts := alerts w |}.

Definition set_draws (n : nat) (w : World) : World :=
  {| db := db w; txn := txn w; now := now w; sessions := sessions w;
     sent := sent w; uuids := uuids w; draws := n; alerts := alerts w |}.

Definition set_alerts (l : list string) (w : World) : World :=
  {| db := db w; txn := txn w; now := now w; sessions := sessions w;
     sent := sent w; uuids := uuids w; draws := draws w; alerts := l |}.

(** The tables as the connection in scope reads them. *)
Definition view (w : World) : DB := apply_writes (txn w) (db w).

(** A connection handed out by [get_db]; the world holds its state. *)
Inductive connection : Type := Conn.

(** [cursor.execute] of a statement that changes rows *)
Definition execute (c : connection) (wr : write) : M unit :=
  fun w => (Ok tt, set_txn (txn w ++ [wr]) w).

(** [cursor.execute] of a SELECT: the rows as this connection sees them *)
Definition select (c : connection) : M DB := fun w => (Ok (view w), w).

(** [conn.commit()] *)
Definition commit (c : connection) : M unit :=
  fun w => (Ok tt, set_txn [] (set_db (view w) w)).

(** [conn.rollback()] *)
Definition rollback (c : connection) : M unit :=
  fun w => (Ok tt, set_txn [] w).

(** [conn.begin()]: the server commits an open transaction before it starts
    the new one. *)
Definition begin (c : connection) : M unit := commit c.

Definition CURRENT_TIMESTAMP : M Z := fun w => (Ok (now w), w).

(** [asyncio.sleep(seconds)] *)
Definition sleep (seconds : Z) : M unit :=
  fun w => (Ok tt, set_now (now w + seconds) w).

(** [repr] of a float that carries an amount: the decimal without trailing
    zeros, with at least one digit after the point. *)
Fixpoint strip_zeros (digits : nat) (frac : Z) : string :=
  match digits with
  | O => EmptyString
  | S k =>
      let scale := 10 ^ Z.of_nat k in
      let d := frac / scale in
      let rest := frac mod scale in
      show_Z d +++ (if rest =? 0 then EmptyString else strip_zeros k rest)
  end.

Definition show_float (x : Decimal) : string :=
  let a := Z.abs x in
  (if x <? 0 then "-" else EmptyString) +++ show_Z (a / 1000000) +++ "." +++ strip_zeros 6 (a mod 1000000).

Section Program.

Variable env : Env.

(** ** database.py *)

(** [get_db] (lines 51-69): a pooled connection for the body.  When the body
    ends normally, [if conn.autocommit: await conn.commit()]; when it raises,
    [await conn.rollback()] and the exception goes on.  The connection then
    returns to the pool and what it had not committed is gone.  The caller's
    own connection, if it has one, is untouched. *)
Definition get_db {A} (body : connection -> M A) : M A :=
  fun w =>
    let outer := txn w in
    match body Conn (set_txn [] w) with
    | (Ok a, w1) =>
        let w2 := if conn_autocommit env then snd (commit Conn w1) else w1 in
        (Ok a, set_txn outer w2)
    | (Raise e, w1) => (Raise e, set_txn outer w1)
    end.

Definition balance_of (telegram_id : Z) (d : DB) : Decimal :=
  match find_balance telegram_id (user_balances d) with
  | Some r => ub_balance r
  | None => 0
  end.

(** [get_balance] (lines 170-175) *)
Definition get_balance (telegram_id : Z) : M Decimal :=
  get_db (fun c =>
    d <- select c ;;
    match find_balance telegram_id (user_balances d) with
    | Some r => ret (ub_balance r)
    | None => ret 0
    end).

(** A statement that writes a value to a [DECIMAL(10, s)] column which,
    rounded to the scale, is beyond the column's range: in strict SQL mode
    the server refuses the statement with error 1264, which the driver raises
    as DataError; otherwise the row gets the nearest bound. *)
Definition check_range (column : string) (place : Z) (rounded : Decimal) : M unit :=
  if strict_sql_mode env && (column_max place <? Z.abs rounded)
  then raise (DataError ("(1264, " +++ DQ +++ "Out of range value for column '" +++ column
                         +++ "' at row 1" +++ DQ +++ ")"))
  else ret tt.

(** [set_balance] (lines 177-197): the sum is a Python [Decimal], exact; the
    statement writes it to the [balance] column, and the function returns
    the sum itself. *)
Definition set_balance (telegram_id : Z) (amount : Decimal) (c : connection) : M Decimal :=
  d <- select c ;;
  let current_balance :=
    match find_balance telegram_id (user_balances d) with
    | Some r => ub_balance r
    | None => 0
    end in
  let new_balance := current_balance + amount in
  if new_balance <? 0
  then raise (ValueError ("余额不足: 当前 " +++ fmt3 current_balance
                          +++ ", 尝试扣款 " +++ fmt3 (Z.abs amount)))
  else
    t <- CURRENT_TIMESTAMP ;;
    check_range "balance" 1000 (round_half_up 1000 new_balance) ;;
    execute c (UpsertBalance telegram_id ("User" +++ show_Z telegram_id) new_balance t) ;;
    ret new_balance.

(** [generate_order_id] (lines 226-228) *)
Definition generate_order_id : M string :=
  fun w => (Ok (uuid4 env (uuids w)), set_uuids (S (uuids w)) w).

(** [record_purchase_order] (lines 230-241); [order_id] is the primary key. *)
Definition record_purchase_order (telegram_id : Z) (username : string) (duration : Z)
    (amount : Decimal) (status : purchase_status) (c : connection) : M string :=
  order_id <- generate_order_id ;;
  d <- select c ;;
  if existsb (fun r => String.eqb (po_order_id r) order_id) (purchase_orders d)
  then raise (IntegrityError "Duplicate entry for key 'PRIMARY'")
  else
    t <- CURRENT_TIMESTAMP ;;
    execute c (InsertPurchaseOrder
                 {| po_order_id := order_id; po_telegram_id := telegram_id;
                    po_username := username; po_duration := duration;
                    po_amount := amount; po_status := status; po_created_at := t |}) ;;
    ret order_id.

Definition has_completed (req_id : string) (d : DB) : bool :=
  existsb (fun r => String.eqb (co_req_id r) req_id) (completed_orders d).

(** [is_order_completed] (lines 275-282): without a connection it opens its own. *)
Definition is_order_completed (req_id : string) (conn : option connection) : M bool :=
  match conn with
  | None => get_db (fun c => d <- select c ;; ret (has_completed req_id d))
  | Some c => d <- select c ;; ret (has_completed req_id d)
  end.

(** [record_completed_order] (lines 284-298).  [conn] and [cursor] are
    required parameters: [None] stands for a call that passes neither, which
    Python refuses with a TypeError when it binds the arguments. *)
Definition record_completed_order (req_id : string) (telegram_id : Z) (username : string)
    (duration : Z) (amount : Decimal) (tx_hash : string) (conn : option connection) : M bool :=
  match conn with
  | None =>
      raise (TypeError
        "record_completed_order() missing 2 required positional arguments: 'conn' and 'cursor'")
  | Some c =>
      d <- select c ;;
      if has_completed req_id d
      then ret false
      else
        t <- CURRENT_TIMESTAMP ;;
        execute c (InsertCompletedOrder
                     {| co_req_id := req_id; co_telegram_id := telegram_id;
                        co_username := username; co_duration := duration;
                        co_amount := amount; co_created_at := t; co_tx_hash := tx_hash |}) ;;
        ret true
  end.

(** AUTO_INCREMENT of [premium_queue.id] *)
Definition next_task_id (rows : list queue_row) : Z :=
  1 + fold_left (fun m r => Z.max m (q_id r)) rows 0.

(** [add_to_premium_queue] (lines 300-313) *)
Definition add_to_premium_queue (telegram_id : Z) (username : string) (duration : Z) : M Z :=
  get_db (fun c =>
    d <- select c ;;
    t <- CURRENT_TIMESTAMP ;;
    let task_id := next_task_id (premium_queue d) in
    execute c (InsertQueueTask
                 {| q_id := task_id; q_telegram_id := telegram_id; q_username := username;
                    q_duration := duration; q_status := pending; q_retry_count := 0;
                    q_created_at := t; q_updated_at := t; q_error_message := None |}) ;;
    commit c ;;
    ret task_id).

(** WHERE status = 'pending' ORDER BY created_at ASC LIMIT 1; among equal
    times the row inserted first. *)
Definition oldest_pending (rows : list queue_row) : option queue_row :=
  fold_left
    (fun best r =>
       if task_status_eqb (q_status r) pending
       then match best with
            | None => Some r
            | Some b => if q_created_at r <? q_created_at b then Some r else Some b
            end
       else best)
    rows None.

Definition task : Type := (Z * Z * string * Z * Z)%type.

(** [get_next_queue_task] (lines 315-341) *)
Definition get_next_queue_task : M (option task) :=
  get_db (fun c =>
    d <- select c ;;
    match oldest_pending (premium_queue d) with
    | Some r =>
        t <- CURRENT_TIMESTAMP ;;
        execute c (SetQueueStatus (q_id r) processing t) ;;
        commit c ;;
        ret (Some (q_id r, q_telegram_id r, q_username r, q_duration r, q_retry_count r))
    | None => ret None
    end).

(** [update_queue_task_status] (lines 343-365) *)
Definition update_queue_task_status (task_id : Z) (status : task_status)
    (error_message : option string) : M unit :=
  get_db (fun c =>
    t <- CURRENT_TIMESTAMP ;;
    (if task_status_eqb status failed
     then execute c (FailQueueTask task_id status error_message t)
     else execute c (SetQueueStatus task_id status t)) ;;
    commit c).

(** ** premium_service.py *)

(** [send_to_admin] (lines 29-64): best effort, never raises; the log keeps
    the alert. *)
Definition send_to_admin (message : string) : M unit :=
  fun w =>
    match ADMIN_IDS env with
    | [] => (Ok tt, w)
    | _ => (Ok tt, set_alerts (alerts w ++ [message]) w)
    end.

Definition VALID_DURATIONS : list Z := [3; 6; 12].

Definition duration_text (duration : Z) : string :=
  if duration =? 12 then "1 year" else show_Z duration +++ " months".

(** [async with PaymentService() as ps]: the next scripted session. *)
Definition payment_service : M provider_reply :=
  fun w => (Ok (fragment env (sessions w)), set_sessions (S (sessions w)) w).

(** The outcome of one request of the session. *)
Definition answer {A} (r : res A) : M A :=
  match r with
  | Ok a => ret a
  | Raise e => raise e
  end.

(** [activate_premium] (lines 369-495) *)
Definition activate_premium (username : string) (duration : Z) (telegram_id : Z)
    : M (bool * string * option Decimal) :=
  if negb (negb (String.eqb username EmptyString) && negb (duration =? 0)
           && credentials_set env && negb (List.length (ADMIN_IDS env) =? 0)%nat)
  then
    send_to_admin "错误: 缺少必要参数" ;;
    ret (false, "激活失败，请稍后重试或联系客服", None)
  else if negb (existsb (Z.eqb duration) VALID_DURATIONS)
  then
    send_to_admin ("错误: 持续时间必须为3、6或12个月，收到: " +++ show_Z duration) ;;
    ret (false, "无效的订阅时长，请选择3、6或12个月", None)
  else
    ps <- payment_service ;;
    try_except
      ((* 第一步 *)
       recipient <- answer (search_recipient ps) ;;
       sleep 1 ;;
       (* 第二步 *)
       estimated_amount <- answer (price_check ps) ;;
       (* 第三步 *)
       balance <- answer (wallet_balance ps) ;;
       (if balance <? estimated_amount
        then send_to_admin "余额不足" ;; raise (Exception "钱包余额不足")
        else ret tt) ;;
       (* 第四步 *)
       '(req_id, amount) <- answer (init_request ps) ;;
       done <- is_order_completed req_id None ;;
       if done
       then ret (true,
                 "用户 " +++ username +++ " 的 " +++ duration_text duration
                   +++ " Premium 已激活，无需重复操作",
                 Some amount)
       else
         sleep 1 ;;
         answer (update_state ps) ;;
         sleep 1 ;;
         (* 第五步 *)
         answer (confirm_link ps) ;;
         (* 第六步 *)
         '(payload, pay_amount) <- answer (raw_request ps) ;;
         (if String.eqb payload EmptyString
          then send_to_admin "未获取到有效 payload" ;; raise (Exception "无法获取订单数据")
          else ret tt) ;;
         (* 第七步 *)
         tx_hash <- answer (transfer ps) ;;
         let success_msg :=
           "成功为 " +++ username +++ " 激活 " +++ duration_text duration
             +++ " 的 Telegram Premium！金额: " +++ show_float pay_amount
             +++ " TON，订单号: " +++ req_id in
         (* line 481: six arguments, no conn and no cursor *)
         record_completed_order req_id telegram_id username duration pay_amount tx_hash None ;;
         ret (true, success_msg, Some pay_amount))
      (fun e =>
         if prefix "请求失败: No Telegram users found" (str e)
         then
           send_to_admin ("无法为用户 " +++ username +++ " 激活 Premium：用户名不存在") ;;
           ret (false, "您输入的用户名不存在，开通会员失败", None)
         else
           send_to_admin ("激活 Premium 失败，用户: " +++ username +++ ", 错误: " +++ str e) ;;
           ret (false, "激活失败，请稍后重试或联系管理员", None)).

(** ** bot.py *)

(** [context.bot.send_message(chat_id=...)]: the log keeps the recipient and
    whether the message went through; a failure is a TelegramError. *)
Definition send_message (chat_id : Z) : M unit :=
  fun w =>
    match telegram env (List.length (sent w)) with
    | None => (Ok tt, set_sent (sent w ++ [(chat_id, true)]) w)
    | Some (text, code) =>
        (Raise (TelegramError text code), set_sent (sent w ++ [(chat_id, false)]) w)
    end.

(** [Decimal(str(x))] of an [Optional[float]] *)
Definition to_decimal (x : option Decimal) : M Decimal :=
  match x with
  | Some a => ret a
  | None => raise (Exception "[<class 'decimal.ConversionSyntax'>]")
  end.

(** [process_purchase] (lines 96-109) *)
Definition process_purchase (user_id : Z) (username : string) (duration : Z)
    (actual_amount : option Decimal) (c : connection) : M (string * Decimal) :=
  try_except
    (begin c ;;
     balance <- get_balance user_id ;;
     amount <- to_decimal actual_amount ;;
     (if balance <? amount
      then raise (ValueError ("余额不足: 当前 " +++ fmt3 balance +++ " USDT, 需 "
                              +++ fmt3 amount +++ " USDT"))
      else ret tt) ;;
     new_balance <- set_balance user_id (- amount) c ;;
     order_id <- record_purchase_order user_id username duration amount Succeeded c ;;
     commit c ;;
     ret (order_id, new_balance))
    (fun e => rollback c ;; raise e).

Definition max_retries : Z := 3.

(** [PRICES[duration]] *)
Definition price (duration : Z) : M Decimal :=
  match find (fun kv => fst kv =? duration) (PRICES env) with
  | Some kv => ret (snd kv)
  | None => raise (KeyError (show_Z duration))
  end.

(** [message.split("订单号: ")[1].split("\n")[0]] *)
Definition parse_req_id (message : string) : M string :=
  match nth_error (split "订单号: " message) 1 with
  | Some rest =>
      match split LF rest with
      | first :: _ => ret first
      | [] => raise (IndexError "list index out of range")
      end
  | None => raise (IndexError "list index out of range")
  end.

(** What the drain does with the answer of [activate_premium]
    (process_premium_queue, lines 505-534). *)
Definition settle (t : task) (reply : bool * string * option Decimal)
    (c : connection) : M unit :=
  let '(task_id, telegram_id, username, duration, retry_count) := t in
  let '(success, message, actual_amount) := reply in
  if success
  then
    req_id <- parse_req_id message ;;
    done <- is_order_completed req_id (Some c) ;;
    if done
    then
      order_id <- record_purchase_order telegram_id username duration 0 Duplicate c ;;
      update_queue_task_status task_id completed None ;;
      send_message telegram_id
    else
      '(order_id, new_balance) <-
        process_purchase telegram_id username duration actual_amount c ;;
      amount <- to_decimal actual_amount ;;
      record_completed_order req_id telegram_id username duration amount "N/A" (Some c) ;;
      update_queue_task_status task_id completed None ;;
      send_message telegram_id
  else
    order_id <- record_purchase_order telegram_id username duration 0 Failed c ;;
    update_queue_task_status task_id failed (Some message) ;;
    send_message telegram_id.

(** One turn of the loop of [process_premium_queue] for a claimed task
    (lines 485-544). *)
Definition process_task (t : task) : M unit :=
  let '(task_id, telegram_id, username, duration, retry_count) := t in
  if max_retries <=? retry_count
  then
    update_queue_task_status task_id failed (Some "超过最大重试次数") ;;
    send_message telegram_id
  else
    try_except
      (ref_amount <- price duration ;;
       get_db (fun c =>
         balance <- get_balance telegram_id ;;
         (if balance <? ref_amount
          then raise (ValueError ("余额不足: 当前 " +++ fmt3 balance +++ " USDT, 需 "
                                  +++ fmt3 ref_amount +++ " USDT"))
          else ret tt) ;;
         reply <- activate_premium username duration telegram_id ;;
         settle t reply c))
      (fun e =>
         update_queue_task_status task_id failed (Some (str e)) ;;
         send_message telegram_id) ;;
    sleep 1.

(** The loop of [process_premium_queue]: [left] is [max_tasks - tasks_processed]. *)
Fixpoint drain (left : nat) : M unit :=
  match left with
  | O => ret tt
  | S k =>
      next <- get_next_queue_task ;;
      match next with
      | None => ret tt
      | Some t => process_task t ;; drain k
      end
  end.

(** [process_premium_queue] (lines 476-544) *)
Definition process_premium_queue (max_tasks : Z) : M unit :=
  drain (Z.to_nat max_tasks).

(** ** usdtpay.py *)

(** [random.uniform(0.001, 0.01)] *)
Definition random_uniform : M Q :=
  fun w => (Ok (uniform env (draws w)), set_draws (S (draws w)) w).

(** [round(x, 4)] of a float: the decimal of four places nearest to it, a
    half going to the even digit.  The float that Python returns is the
    double nearest to that decimal, and prints as it while the decimal has
    no more than fifteen digits. *)
Definition round4 (x : Q) : Decimal :=
  100 * round_half_even (Qnum x * 10000) (Zpos (Qden x)).

(** WHERE amount = a AND status = 0 *)
Definition open_with_amount (a : Decimal) (r : usdtpay_row) : bool :=
  (up_amount r =? a) && (up_status r =? 0).

(** The amounts of the open deposit orders, in table order. *)
Definition open_amounts (d : DB) : list Decimal :=
  map up_amount (filter (fun r => up_status r =? 0) (usdtpay d)).

(** [generate_unique_usdt_amount] (lines 56-68).  [base_amount] and the
    offset are floats, and so is their sum.  The source loops until an
    amount is free; [fuel] bounds the number of rounds, and [None] means the
    loop was still running when the fuel ran out. *)
Fixpoint generate_unique_usdt_amount (fuel : nat) (base_amount : Q) : M (option Decimal) :=
  match fuel with
  | O => ret None
  | S k =>
      offset <- random_uniform ;;
      let unique_amount := round4 (to_float (base_amount + offset)%Q) in
      taken <- get_db (fun c =>
                 d <- select c ;;
                 ret (existsb (open_with_amount unique_amount) (usdtpay d))) ;;
      if taken
      then generate_unique_usdt_amount k base_amount
      else ret (Some unique_amount)
  end.

(** [save_usdt_order_to_db] (lines 70-85); [out_trade_no] is the primary
    key.  The server checks the values of the row before it looks for the
    key. *)
Definition save_usdt_order_to_db (telegram_id : Z) (out_trade_no : string)
    (created_at expires_at : Z) (amount : Decimal) : M unit :=
  get_db (fun c =>
    d <- select c ;;
    check_range "amount" 100 (round_half_up 100 amount) ;;
    if existsb (fun r => String.eqb (up_out_trade_no r) out_trade_no) (usdtpay d)
    then raise (IntegrityError "Duplicate entry for key 'PRIMARY'")
    else
      execute c (InsertUsdtpay
                   {| up_out_trade_no := out_trade_no; up_telegram_id := telegram_id;
                      up_created_at := created_at; up_expires_at := Some expires_at;
                      up_status := 0; up_amount := amount |}) ;;
      commit c).

(** The order of [handle_deposit] (lines 124-131): a unique amount, then the
    row with its expiry twenty minutes on. *)
Definition create_usdt_order (fuel : nat) (user_id : Z) (out_trade_no : string)
    (amount : Q) : M (option Decimal) :=
  unique <- generate_unique_usdt_amount fuel amount ;;
  match unique with
  | None => ret None
  | Some unique_amount =>
      created_at <- CURRENT_TIMESTAMP ;;
      save_usdt_order_to_db user_id out_trade_no created_at (created_at + 20 * 60)
        unique_amount ;;
      ret (Some unique_amount)
  end.

(** The loop over ADMIN_IDS of [handle_usdt_payment] (lines 226-233): a
    failure is logged and the loop goes on. *)
Fixpoint notify_admins (admins : list Z) : M unit :=
  match admins with
  | [] => ret tt
  | admin_id :: rest =>
      try_except (send_message admin_id) (fun e => ret tt) ;;
      notify_admins rest
  end.

(** [handle_usdt_payment] (lines 193-235) *)
Definition handle_usdt_payment (trc20_balance : Decimal) : M unit :=
  try_except
    (get_db (fun c =>
       d <- select c ;;
       match find (open_with_amount trc20_balance) (usdtpay d) with
       | Some order =>
           let telegram_id := up_telegram_id order in
           let out_trade_no := up_out_trade_no order in
           execute c (SetUsdtpayStatus out_trade_no 1) ;;
           t <- CURRENT_TIMESTAMP ;;
           match find_balance telegram_id (user_balances d) with
           | Some r =>
               check_range "balance" 1000
                 (credited (double_halfway_up env) (ub_balance r) trc20_balance)
           | None => ret tt
           end ;;
           execute c (AddBalance telegram_id trc20_balance (double_halfway_up env) t) ;;
           (if existsb (fun r => String.eqb (ok_out_trade_no r) out_trade_no) (okusdt d)
            then raise (IntegrityError "Duplicate entry for key 'PRIMARY'")
            else execute c (InsertOkusdt
                              {| ok_out_trade_no := out_trade_no; ok_telegram_id := telegram_id;
                                 ok_created_at := t; ok_amount := trc20_balance |})) ;;
           commit c ;;
           send_message telegram_id ;;
           notify_admins (ADMIN_IDS env)
       | None => ret tt
       end))
    (fun e => ret tt).

(** The test of a blocked user (line 279) *)
Definition is_blocked (text : string) (status_code : option Z) : bool :=
  let err_text := lower text in
  contains "forbidden" err_text || contains "bot was blocked" err_text
  || match status_code with
     | Some code => code =? 403
     | None => false
     end.

(** try: [m] except TelegramError as e: [handler] *)
Definition try_except_telegram {A} (m : M A) (handler : string -> option Z -> M A) : M A :=
  fun w =>
    match m w with
    | (Raise (TelegramError text code), w') => handler text code w'
    | other => other
    end.

(** The notification loop of [cleanup_expired_orders] (lines 267-288):
    [left] is [3 - retries]. *)
Fixpoint notify_expired (left : nat) (telegram_id : Z) : M unit :=
  match left with
  | O => ret tt
  | S k =>
      notified <-
        try_except_telegram
          (send_message telegram_id ;; ret true)
          (fun text code =>
             if is_blocked text code
             then ret true
             else (if (0 <? k)%nat then sleep 5 else ret tt) ;; ret false) ;;
      if notified then ret tt else notify_expired k telegram_id
  end.

(** The loop over all orders of [cleanup_expired_orders] (lines 248-291) *)
Fixpoint sweep (all_orders : list usdtpay_row) (to_delete : list string) : M (list string) :=
  match all_orders with
  | [] => ret to_delete
  | order :: rest =>
      if negb (up_status order =? 0)
      then sweep rest to_delete
      else
        match up_expires_at order with
        | None => sweep rest to_delete          (* NULL, not a datetime: skipped *)
        | Some expires_at =>
            now_local <- CURRENT_TIMESTAMP ;;
            if expires_at <? now_local
            then
              notify_expired 3 (up_telegram_id order) ;;
              sweep rest (to_delete ++ [up_out_trade_no order])
            else sweep rest to_delete
        end
  end.

(** [cursor.executemany] *)
Definition executemany (c : connection) (ws : list write) : M unit :=
  fun w => (Ok tt, set_txn (txn w ++ ws) w).

(** [cleanup_expired_orders] (lines 237-302) *)
Definition cleanup_expired_orders : M unit :=
  try_except
    (get_db (fun c =>
       d <- select c ;;
       to_delete <- sweep (usdtpay d) [] ;;
       match to_delete with
       | [] => ret tt
       | _ => executemany c (map DeleteUsdtpay to_delete) ;; commit c
       end))
    (fun e => ret tt).

End Program.

(** * More of the program

    Functions beside the pipeline above: the retry loop of the provider
    client, the check of a payment address, the deposit order of a chat
    message, its cancellation, the chain poll, the enqueueing of a purchase
    and the balance adjustment of an administrator. *)

(** ** premium_service.py: the provider client *)

Section Client.

Context {A : Type}.

(** What the n-th POST of one [send_request] call gives: the parsed result,
    or the error raised for it. *)
Variable attempt : nat -> res A.

(** The loop of [PaymentService.send_request] (lines 105-130) from attempt
    [n] on; [more] is [max_retries - 1 - n].  The error of the last attempt
    is raised again; before any other attempt the loop sleeps and doubles
    the delay. *)
Fixpoint send_request_from (n more : nat) (retry_delay : Z) : M A :=
  match attempt n with
  | Ok result => ret result
  | Raise e =>
      match more with
      | O => raise e
      | S k => sleep retry_delay ;; send_request_from (S n) k (retry_delay * 2)
      end
  end.

(** [PaymentService.send_request]: max_retries = 3, retry_delay = 2 *)
Definition send_request : M A := send_request_from 0 2 2.

End Client.

Section Rest.

Variable env : Env.

(** ** usdtpay.py: deposits *)

(** The character class [[0-9a-zA-Z]] *)
Definition is_ascii_alnum (c : ascii) : bool :=
  let b := Z.of_nat (nat_of_ascii c) in
  ((48 <=? b) && (b <=? 57)) || ((65 <=? b) && (b <=? 90)) || ((97 <=? b) && (b <=? 122)).

(** [[0-9a-zA-Z]{n}] at the head of [s]: what follows the match. *)
Fixpoint alnum_run (n : nat) (s : string) : option string :=
  match n with
  | O => Some s
  | S k =>
      match s with
      | String c rest => if is_ascii_alnum c then alnum_run k rest else None
      | EmptyString => None
      end
  end.

(** [validate_trc20_address] (lines 27-32):
    [re.match(r'^T[0-9a-zA-Z]{33}$', address)]; [$] matches at the end of the
    string and before a line feed that ends it. *)
Definition validate_trc20_address (address : string) : bool :=
  match address with
  | String c rest =>
      Ascii.eqb c "T"
      && match alnum_run 33 rest with
         | Some tail => String.eqb tail EmptyString || String.eqb tail LF
         | None => false
         end
  | EmptyString => false
  end.

(** [cancel_usdt_order] (lines 87-100): UPDATE usdtpay SET status = 2 WHERE
    out_trade_no = no AND status = 0, with [cursor.rowcount > 0] as the
    answer.  [out_trade_no] is the primary key, so the statement changes the
    row of that number when it is open and no row otherwise. *)
Definition cancel_usdt_order (out_trade_no : string) : M bool :=
  try_except
    (get_db env (fun c =>
       d <- select c ;;
       let success :=
         existsb (fun r => String.eqb (up_out_trade_no r) out_trade_no && (up_status r =? 0))
           (usdtpay d) in
       (if success then execute c (SetUsdtpayStatus out_trade_no 2) else ret tt) ;;
       commit c ;;
       ret success))
    (fun e => ret false).

(** SELECT COUNT( * ) FROM usdtpay WHERE telegram_id = id AND status = 0 *)
Definition pending_orders_count (user_id : Z) (d : DB) : nat :=
  List.length (filter (fun r => (up_telegram_id r =? user_id) && (up_status r =? 0)) (usdtpay d)).

(** [handle_deposit] (lines 102-166) for a message whose text reads as the
    number [amount], the float of line 111; [message_date] is the time stamp
    of the message and
    [payment_address] what [get_payment_address] gives.  The reply with the
    QR code is a message to the user's chat.  [None]: the search for a
    unique amount was still running when the fuel ran out. *)
Definition handle_deposit (fuel : nat) (user_id : Z) (message_date : Z) (amount : Q)
    (payment_address : res string) : M (option (bool * string)) :=
  try_except
    (if Qle_bool amount 0
     then ret (Some (false, "请输入有效的充值金额（正数）。"))
     else
       too_many <- get_db env (fun c =>
                     d <- select c ;;
                     ret (3 <=? pending_orders_count user_id d)%nat) ;;
       if too_many
       then ret (Some (false, "❗ 你有超过3条未处理的充值订单，请先完成或取消这些订单！"))
       else
         address <- answer payment_address ;;
         unique <- generate_unique_usdt_amount env fuel amount ;;
         match unique with
         | None => ret None
         | Some unique_amount =>
             let out_trade_no := "usdt_" +++ show_Z user_id +++ "_" +++ show_Z message_date in
             created_at <- CURRENT_TIMESTAMP ;;
             save_usdt_order_to_db env user_id out_trade_no created_at (created_at + 20 * 60)
               unique_amount ;;
             send_message env user_id ;;
             ret (Some (true, "充值订单已创建，请完成支付！"))
         end)
    (fun e => ret (Some (false, "发生错误: " +++ str e))).

(** One entry of the [data] list of the chain explorer's answer; the amount
    is in millionths of a USDT. *)
Record transfer_event : Type := {
  transferToAddress : string;
  event_amount : Decimal
}.

(** [asyncio.gather] of coroutines that do not raise.  The model runs them
    one after the other in list order, which is what gather does with a
    single coroutine; how several of them interleave is not modelled. *)
Fixpoint gather (tasks : list (M unit)) : M unit :=
  match tasks with
  | [] => ret tt
  | t :: rest => t ;; gather rest
  end.

(** [check_input_usdt] (lines 168-191): [response] is the status code and
    the [data] list of the explorer's answer, or the error of the request. *)
Definition check_input_usdt (payment_address : res string)
    (response : res (Z * list transfer_event)) : M unit :=
  try_except
    (address <- answer payment_address ;;
     '(status_code, data) <- answer response ;;
     if (status_code =? 200) && (0 <? List.length data)%nat
     then
       gather (map (fun event => handle_usdt_payment env (event_amount event))
                 (filter (fun event => String.eqb (transferToAddress event) address) data))
     else ret tt)
    (fun e => ret tt).

(** ** bot.py: enqueueing a purchase, and the administrator's balance adjustment *)

(** [handle_duration_selection] (lines 288-335) for callback data that reads
    buy_<duration>_<username>, from the point where the callback query has
    been answered.  Editing the message and replying are messages to the
    user's chat. *)
Definition handle_duration_selection (user_id duration : Z) (username : string) : M unit :=
  ref_amount <- price env duration ;;
  user_balance <- get_balance env user_id ;;
  if ref_amount <=? user_balance
  then
    try_except
      (task_id <- add_to_premium_queue env user_id username duration ;;
       send_message env user_id ;;
       send_message env user_id)
      (fun e =>
         send_message env user_id ;;
         send_message env user_id)
  else
    send_message env user_id ;;
    send_message env user_id.

(** [update_admin_config] (lines 111-224) for a text that the balance
    pattern matches: [target_id] and the signed [amount] are what the pattern
    reads.  The replies to the administrator are messages to their chat. *)
Definition update_admin_config_balance (user_id target_id : Z) (amount : Decimal) : M bool :=
  if negb (existsb (Z.eqb user_id) (ADMIN_IDS env))
  then ret false
  else
    outcome <- get_db env (fun c =>
                 begin c ;;
                 try_except
                   (new_balance <- set_balance env target_id amount c ;;
                    commit c ;;
                    ret (Some new_balance))
                   (fun e =>
                      rollback c ;;
                      send_message env user_id ;;
                      ret None)) ;;
    match outcome with
    | None => ret true
    | Some new_balance =>
        send_message env user_id ;;
        try_except_telegram (send_message env target_id) (fun text code => ret tt) ;;
        ret true
    end.

End Rest.

(** * Usernames

    [handle_username] and [handle_duration_selection] take the username of a
    purchase from the patterns [^@(\w+)$], [^https://t\.me/(\w+)$] and
    [^buy_(\d+)_(\w+)$]. *)

(** [\w] on the bytes of a UTF-8 string: an ASCII letter, digit or
    underscore, or a byte of a character beyond ASCII, of which [\w] takes
    the letters and the digits. *)
Definition is_word_byte (c : ascii) : bool :=
  is_ascii_alnum c || Ascii.eqb c "_" || (128 <=? Z.of_nat (nat_of_ascii c)).

(** [(\w+)]: what the patterns let through as a username, and more. *)
Definition is_username (s : string) : bool :=
  negb (String.eqb s EmptyString) && forallb is_word_byte (list_ascii_of_string s).

(** [c in s], byte by byte *)
Definition has_byte (c : ascii) (s : string) : bool :=
  existsb (Ascii.eqb c) (list_ascii_of_string s).

(** * Acceptance by the server *)

(** Whether the server takes the credit of [a] to the account [telegram_id]:
    an account without a row is not updated at all. *)
Definition credit_accepted (env : Env) (telegram_id : Z) (a : Decimal) (d : DB) : bool :=
  match find_balance telegram_id (user_balances d) with
  | Some r =>
      negb (strict_sql_mode env
            && (column_max 1000 <? Z.abs (credited (double_halfway_up env) (ub_balance r) a)))
  | None => true
  end.

(** * Scenarios

    Concrete environments and worlds on which the program is run below:
    account 1001 buys three months (nominal price 30.00) for "alice". *)

(** A provider session in which every request succeeds. *)
Definition session_ok (req_id : string) (cost : Decimal) : provider_reply :=
  {| search_recipient := Ok "recipient-1";
     price_check := Ok cost;
     wallet_balance := Ok (milli 900000);
     init_request := Ok (req_id, cost);
     update_state := Ok tt;
     confirm_link := Ok tt;
     raw_request := Ok ("Xq3vT8aa", cost);
     transfer := Ok "tx-1" |}.

(** A provider session whose first request fails. *)
Definition session_down : provider_reply :=
  {| search_recipient := Raise (Exception "请求失败: Too Many Requests");
     price_check := Raise (Exception "请求失败: Too Many Requests");
     wallet_balance := Raise (Exception "获取余额请求失败");
     init_request := Raise (Exception "请求失败: Too Many Requests");
     update_state := Raise (Exception "请求失败: Too Many Requests");
     confirm_link := Raise (Exception "请求失败: Too Many Requests");
     raw_request := Raise (Exception "未获取到交易信息");
     transfer := Raise (Exception "发送交易失败") |}.

Definition delivered : nat -> option (string * option Z) := fun _ => None.

Definition blocked : nat -> option (string * option Z) :=
  fun _ => Some ("Forbidden: bot was blocked by the user", None).

Definition shop (autocommit : bool) (provider : nat -> provider_reply)
    (tg : nat -> option (string * option Z)) : Env :=
  {| PRICES := [(3, milli 30000); (6, milli 55000); (12, milli 100000)];
     ADMIN_IDS := [7];
     credentials_set := true;
     conn_autocommit := autocommit;
     strict_sql_mode := true;
     double_halfway_up := fun _ => true;
     fragment := provider;
     telegram := tg;
     uuid4 := fun n => "order-" +++ show_Z (Z.of_nat n);
     uniform := fun n => to_float (Qmake (Z.of_nat (n mod 9) + 1) 1000) |}.

Definition account (balance : Decimal) : user_balance_row :=
  {| ub_telegram_id := 1001; ub_username := "buyer"; ub_balance := balance;
     ub_updated_at := 0 |}.

Definition queued : queue_row :=
  {| q_id := 1; q_telegram_id := 1001; q_username := "alice"; q_duration := 3;
     q_status := pending; q_retry_count := 0; q_created_at := 1000;
     q_updated_at := 1000; q_error_message := None |}.

Definition settled (req_id : string) : completed_order_row :=
  {| co_req_id := req_id; co_telegram_id := 1001; co_username := "alice";
     co_duration := 3; co_amount := milli 29800; co_created_at := 900;
     co_tx_hash := "N/A" |}.

Definition store (balance : Decimal) (queue : list queue_row)
    (done : list completed_order_row) : DB :=
  {| user_balances := [account balance]; usdtpay := []; okusdt := [];
     purchase_orders := []; completed_orders := done; premium_queue := queue |}.

Definition world_of (d : DB) : World :=
  {| db := d; txn := []; now := 1000; sessions := 0; sent := [];
     uuids := 0; draws := 0; alerts := [] |}.

(** The state of the queue that the claims speak of. *)
Definition queue_states (w : World) : list (Z * task_status * Z * option string) :=
  map (fun r => (q_id r, q_status r, q_retry_count r, q_error_message r))
      (premium_queue (db w)).

(** The purchase scenario: balance 50.000, the purchase is enqueued, every
    request of the provider succeeds with settlement id R1 and cost 29.80,
    and the queue is drained once. *)
Definition purchase_scenario (autocommit : bool) : World :=
  snd ((add_to_premium_queue (shop autocommit (fun _ => session_ok "R1" (milli 29800)) delivered)
          1001 "alice" 3 ;;
        process_premium_queue (shop autocommit (fun _ => session_ok "R1" (milli 29800)) delivered)
          5)
         (world_of (store (milli 50000) [] []))).

(** The provider is down for the first session and up from the second on. *)
Definition down_then_up (n : nat) : provider_reply :=
  match n with
  | O => session_down
  | S _ => session_ok "R2" (milli 29800)
  end.

Definition retry_first_pass (autocommit : bool) : World :=
  snd (process_premium_queue (shop autocommit down_then_up delivered) 5
         (world_of (store (milli 50000) [queued] []))).

Definition retry_second_pass (autocommit : bool) : World :=
  snd (process_premium_queue (shop autocommit down_then_up delivered) 5
         (retry_first_pass autocommit)).

(** The account holds 10.000 when its task is drained. *)
Definition short_of_funds (autocommit : bool) : World :=
  snd (process_premium_queue (shop autocommit (fun _ => session_ok "R1" (milli 29800)) delivered) 5
         (world_of (store (milli 10000) [queued] []))).

(** The provider issues a settlement id that [completed_orders] already holds. *)
Definition already_settled (autocommit : bool) : World :=
  snd (process_premium_queue (shop autocommit (fun _ => session_ok "R1" (milli 29800)) delivered) 5
         (world_of (store (milli 50000) [queued] [settled "R1"]))).

(** The answer that the last lines of [activate_premium] build for a
    fulfilled order R1 of cost 29.80. *)
Definition success_reply : bool * string * option Decimal :=
  (true,
   "成功为 alice 激活 3 months 的 Telegram Premium！金额: 29.8 TON，订单号: R1",
   Some (milli 29800)).

Definition claimed : task := (1, 1001, "alice", 3, 0).

(** The drain settles [success_reply] while the buyer has blocked the bot. *)
Definition settle_blocked (autocommit : bool) : res unit * World :=
  get_db (shop autocommit (fun _ => session_ok "R1" (milli 29800)) blocked)
    (settle (shop autocommit (fun _ => session_ok "R1" (milli 29800)) blocked)
       claimed success_reply)
    (world_of (store (milli 50000) [queued] [])).

(** The drain settles [success_reply] and the buyer is notified. *)
Definition settle_delivered (autocommit : bool) : res unit * World :=
  get_db (shop autocommit (fun _ => session_ok "R1" (milli 29800)) delivered)
    (settle (shop autocommit (fun _ => session_ok "R1" (milli 29800)) delivered)
       claimed success_reply)
    (world_of (store (milli 50000) [queued] [])).

(** The drain settles [success_reply] when [completed_orders] already has R1. *)
Definition settle_duplicate (autocommit : bool) : res unit * World :=
  get_db (shop autocommit (fun _ => session_ok "R1" (milli 29800)) delivered)
    (settle (shop autocommit (fun _ => session_ok "R1" (milli 29800)) delivered)
       claimed success_reply)
    (world_of (store (milli 50000) [queued] [settled "R1"])).

(** An open deposit order of account 1001 for 10.0043, created at 400 and
    due at 1600. *)
Definition open_order : usdtpay_row :=
  {| up_out_trade_no := "usdt_1001_400"; up_telegram_id := 1001; up_created_at := 400;
     up_expires_at := Some 1600; up_status := 0; up_amount := 10004300 |}.

Definition deposit_world : World :=
  world_of {| user_balances := [account (milli 50000)]; usdtpay := [open_order];
              okusdt := []; purchase_orders := []; completed_orders := [];
              premium_queue := [] |}.

(** The amount 10.0010 is taken by an open order of account 1001. *)
Definition taken_world : World :=
  world_of {| user_balances := [account (milli 50000)];
              usdtpay := [{| up_out_trade_no := "usdt_1001_400"; up_telegram_id := 1001;
                             up_created_at := 400; up_expires_at := Some 1600;
                             up_status := 0; up_amount := 10001000 |}];
              okusdt := []; purchase_orders := []; completed_orders := [];
              premium_queue := [] |}.

(** At time 1000: an open order due at 900, the open order due at 1600 and
    a matched order. *)
Definition stale_order : usdtpay_row :=
  {| up_out_trade_no := "usdt_1001_100"; up_telegram_id := 1001; up_created_at := 100;
     up_expires_at := Some 900; up_status := 0; up_amount := 20003100 |}.

Definition paid_order : usdtpay_row :=
  {| up_out_trade_no := "usdt_1001_200"; up_telegram_id := 1001; up_created_at := 200;
     up_expires_at := Some 950; up_status := 1; up_amount := 30007700 |}.

Definition sweep_world : World :=
  world_of {| user_balances := [account (milli 50000)];
              usdtpay := [stale_order; open_order; paid_order];
              okusdt := []; purchase_orders := []; completed_orders := [];
              premium_queue := [] |}.

(** The Telegram API times out on every attempt. *)
Definition timing_out : nat -> option (string * option Z) :=
  fun _ => Some ("Timed out", None).

(** * More scenarios *)

(** Account 1001 holds 9999999.999, the most the balance column takes, and
    has the open order for 10.0043. *)
Definition full_account_world : World :=
  world_of {| user_balances := [account (milli 9999999999)]; usdtpay := [open_order];
              okusdt := []; purchase_orders := []; completed_orders := [];
              premium_queue := [] |}.


(** A second purchase, enqueued five seconds after [queued]. *)
Definition queued_later : queue_row :=
  {| q_id := 2; q_telegram_id := 1002; q_username := "bob"; q_duration := 6;
     q_status := pending; q_retry_count := 0; q_created_at := 1005;
     q_updated_at := 1005; q_error_message := None |}.

(** The payment address of the shop, and the events of one explorer answer:
    a transfer to somebody else and a transfer of 10.0043 to the shop. *)
Definition shop_address : string := "TQn9Y2khEsLJW1ChVWFMSMeRDow5KcbLSE".

Definition explorer_data : list transfer_event :=
  [{| transferToAddress := "TR7NHqjeKQxGTCi8q8ZY4pL8otSzgjLj6t"; event_amount := 5000000 |};
   {| transferToAddress := shop_address; event_amount := 10004300 |}].

(** * Proof tools *)

(** Split a goal into its conjuncts. *)
Ltac conjs := repeat match goal with |- _ /\ _ => split end.

(** [m] opens at most [k] provider sessions, and closes none. *)
Definition opens (k : nat) {A : Type} (m : M A) : Prop :=
  forall w, (sessions w <= sessions (snd (m w)) <= sessions w + k)%nat.

(** [m] ends with the committed tables and the connection's uncommitted
    writes as they were. *)
Definition reads {A : Type} (m : M A) : Prop :=
  forall w, db (snd (m w)) = db w /\ txn (snd (m w)) = txn w.

(** WHERE status = '成功' *)
Definition succeeded (r : purchase_order_row) : bool :=
  match po_status r with
  | Succeeded => true
  | _ => false
  end.

(** What a fulfilment is charged to and recorded in: the balances, the
    settlement records and the 'Succeeded' purchase orders; and whom the
    queued tasks are for. *)
Definition books (d : DB)
    : list user_balance_row * list completed_order_row * list purchase_order_row
      * list string :=
  (user_balances d, completed_orders d, filter succeeded (purchase_orders d),
   map q_username (premium_queue d)).

(** A statement that leaves the books alone. *)
Definition charge_free (wr : write) : Prop :=
  match wr with
  | UpsertBalance _ _ _ _ | AddBalance _ _ _ _ | InsertCompletedOrder _
  | InsertQueueTask _ => False
  | InsertPurchaseOrder row => succeeded row = false
  | _ => True
  end.

(** [m], run on a connection whose uncommitted writes leave the books
    alone, ends with the committed books as they were and with uncommitted
    writes of that kind only; and what it returns satisfies [post]. *)
Definition charges_nothing {A : Type} (post : A -> Prop) (m : M A) : Prop :=
  forall w,
    Forall charge_free (txn w) ->
    books (db (snd (m w))) = books (db w)
    /\ Forall charge_free (txn (snd (m w)))
    /\ match fst (m w) with
       | Ok a => post a
       | Raise _ => True
       end.

Create HintDb frame.

(** * Properties *)

(** ** Text *)

Example fmt3_examples :
  fmt3 (milli 10000) = "10.000" /\ fmt3 29876500 = "29.876" /\ fmt3 (milli 20200) = "20.200".
Proof. vm_compute. repeat split. Qed.

Example show_float_examples :
  show_float (milli 29800) = "29.8" /\ show_float (milli 30000) = "30.0"
  /\ show_float 10004300 = "10.0043".
Proof. vm_compute. repeat split. Qed.

Example split_examples :
  split ", " "a, b, c" = ["a"; "b"; "c"] /\ split "xy" "axy" = ["a"; EmptyString]
  /\ split "订单号: " "无需重复操作" = ["无需重复操作"].
Proof. vm_compute. repeat split. Qed.

Example parse_req_id_examples :
  fst (parse_req_id (snd (fst success_reply)) (world_of (store 0 [] []))) = Ok "R1"
  /\ fst (parse_req_id "用户 alice 的 3 months Premium 已激活，无需重复操作"
            (world_of (store 0 [] [])))
     = Raise (IndexError "list index out of range").
Proof. vm_compute. repeat split. Qed.

Example is_blocked_examples :
  is_blocked "Forbidden: bot was blocked by the user" None = true
  /\ is_blocked "Timed out" None = false
  /\ is_blocked "Chat not found" (Some 403) = true.
Proof. vm_compute. repeat split. Qed.

(** ** Rounding *)

Lemma round_half_up_pos (place x : Z) :
  0 < place -> 0 <= x -> round_half_up place x = (2 * x + place) / (2 * place) * place.
Proof.
  intros Hp Hx. unfold round_half_up.
  destruct (Z.eq_dec x 0) as [-> | Hne].
  - change (Z.sgn 0) with 0. change (Z.abs 0) with 0.
    rewrite (Z.div_small (2 * 0 + place)) by lia. reflexivity.
  - rewrite Z.sgn_pos by lia. rewrite Z.abs_eq by lia. lia.
Qed.

Lemma round_half_up_opp (place x : Z) :
  round_half_up place (- x) = - round_half_up place x.
Proof. unfold round_half_up. rewrite Z.sgn_opp, Z.abs_opp. lia. Qed.

Lemma round_half_up_close_pos (place x : Z) :
  0 < place -> 0 <= x -> 2 * Z.abs (round_half_up place x - x) <= place.
Proof.
  intros Hp Hx. rewrite round_half_up_pos by assumption.
  pose proof (Z.div_mod (2 * x + place) (2 * place) ltac:(lia)) as Hd.
  pose proof (Z.mod_pos_bound (2 * x + place) (2 * place) ltac:(lia)) as Hm.
  lia.
Qed.

Lemma round_half_up_close (place x : Z) :
  0 < place -> 2 * Z.abs (round_half_up place x - x) <= place.
Proof.
  intros Hp. destruct (Z_le_gt_dec 0 x) as [Hx | Hx].
  - apply round_half_up_close_pos; assumption.
  - pose proof (round_half_up_close_pos place (- x) Hp ltac:(lia)) as H.
    rewrite round_half_up_opp in H. lia.
Qed.

Lemma round_half_up_step (place x : Z) : round_half_up place x mod place = 0.
Proof. unfold round_half_up. apply Z_mod_mult. Qed.

Lemma round_half_up_nonneg (place x : Z) :
  0 < place -> 0 <= x -> 0 <= round_half_up place x.
Proof.
  intros Hp Hx. rewrite round_half_up_pos by assumption.
  apply Z.mul_nonneg_nonneg; [|lia]. apply Z.div_pos; lia.
Qed.

Lemma round_half_up_exact (place x : Z) :
  0 < place -> x mod place = 0 -> round_half_up place x = x.
Proof.
  intros Hp Hx.
  assert (Hpos : forall y, 0 <= y -> y mod place = 0 -> round_half_up place y = y).
  { intros y Hy Hm. rewrite round_half_up_pos by assumption.
    pose proof (Z.div_mod y place ltac:(lia)) as Hd. rewrite Hm in Hd.
    replace (2 * y + place) with (place + (y / place) * (2 * place)) by lia.
    rewrite Z.div_add by lia. rewrite (Z.div_small place (2 * place)) by lia. lia. }
  destruct (Z_le_gt_dec 0 x) as [H | H].
  - apply Hpos; assumption.
  - assert (Hm : (- x) mod place = 0).
    { apply Z.mod_divide in Hx; [|lia]. apply Z.mod_divide; [lia|].
      apply Z.divide_opp_r. exact Hx. }
    pose proof (Hpos (- x) ltac:(lia) Hm) as Ho.
    rewrite round_half_up_opp in Ho. lia.
Qed.

Lemma clip_fits (place x : Z) :
  Z.abs x <= column_max place -> clip place x = x.
Proof. unfold clip. lia. Qed.

Lemma clip_nonneg (place x : Z) :
  0 < place -> 0 <= x -> 0 <= clip place x.
Proof. unfold clip, column_max. lia. Qed.

Lemma clip_over (place x : Z) :
  0 < place -> column_max place < x -> clip place x = column_max place.
Proof. unfold clip, column_max. lia. Qed.

Lemma clip_step (place x : Z) :
  0 < place -> x mod place = 0 -> clip place x mod place = 0.
Proof.
  intros Hp Hx. unfold clip.
  assert (Hmax : column_max place mod place = 0) by (unfold column_max; apply Z_mod_mult).
  assert (Hmin : (- column_max place) mod place = 0).
  { unfold column_max. rewrite <- Z.mul_opp_l. apply Z_mod_mult. }
  destruct (Z.max_spec (- column_max place) (Z.min (column_max place) x)) as [[_ ->] | [_ ->]];
    [|exact Hmin].
  destruct (Z.min_spec (column_max place) x) as [[_ ->] | [_ ->]]; assumption.
Qed.

Lemma round_float_sum_cases (place : Z) (up : Decimal -> bool) (x : Z) :
  0 < place ->
  (2 * (x mod place) <> place /\ round_float_sum place up x = round_half_up place x)
  \/ (2 * (x mod place) = place
      /\ (round_float_sum place up x = x - x mod place
          \/ round_float_sum place up x = x - x mod place + place)).
Proof.
  intros Hp. unfold round_float_sum.
  pose proof (Z.div_mod x place ltac:(lia)) as Hd.
  destruct (2 * (x mod place) =? place) eqn:E.
  - apply Z.eqb_eq in E. right. split; [exact E|].
    destruct (up x); [right | left]; lia.
  - apply Z.eqb_neq in E. left. split; [exact E | reflexivity].
Qed.

Lemma round_float_sum_close (place : Z) (up : Decimal -> bool) (x : Z) :
  0 < place -> 2 * Z.abs (round_float_sum place up x - x) <= place.
Proof.
  intros Hp.
  destruct (round_float_sum_cases place up x Hp) as [[_ ->] | [Ht [-> | ->]]].
  - apply round_half_up_close, Hp.
  - lia.
  - lia.
Qed.

Lemma round_float_sum_step (place : Z) (up : Decimal -> bool) (x : Z) :
  round_float_sum place up x mod place = 0.
Proof.
  unfold round_float_sum. destruct (2 * (x mod place) =? place).
  - apply Z_mod_mult.
  - apply round_half_up_step.
Qed.

Lemma round_float_sum_exact (place : Z) (up : Decimal -> bool) (x : Z) :
  0 < place -> x mod place = 0 -> round_float_sum place up x = x.
Proof.
  intros Hp Hx. unfold round_float_sum. rewrite Hx.
  destruct (2 * 0 =? place) eqn:E; [apply Z.eqb_eq in E; lia|].
  apply round_half_up_exact; assumption.
Qed.

Lemma round_float_sum_nonneg (place : Z) (up : Decimal -> bool) (x : Z) :
  0 < place -> 0 <= x -> 0 <= round_float_sum place up x.
Proof.
  intros Hp Hx. unfold round_float_sum.
  pose proof (Z.div_pos x place Hx Hp).
  destruct (2 * (x mod place) =? place).
  - destruct (up x); nia.
  - apply round_half_up_nonneg; assumption.
Qed.

Example round_half_up_examples :
  round_half_up 1000 60004300 = 60004000 /\ round_half_up 1000 10004500 = 10005000
  /\ round_half_up 1000 400 = 0 /\ round_half_up 1000 (-500) = -1000
  /\ to_column 1000 9999999999500 = 9999999999000
  /\ round_float_sum 1000 (fun _ => false) 1448242500 = 1448242000
  /\ round_float_sum 1000 (fun _ => true) 1448242500 = 1448243000.
Proof. vm_compute. repeat split. Qed.

Lemma round_half_even_close (n d : Z) :
  0 < d -> 2 * Z.abs (round_half_even n d * d - n) <= d.
Proof.
  intros Hd. unfold round_half_even.
  pose proof (Z.div_mod n d ltac:(lia)) as Hdiv.
  pose proof (Z.mod_pos_bound n d Hd) as Hmod.
  destruct (Z.compare_spec (2 * (n mod d)) d) as [Heq | Hlt | Hgt].
  - destruct (Z.even (n / d)); nia.
  - nia.
  - nia.
Qed.

(** The scaled fraction of [to_float] is at least [2^51]. *)
Lemma mantissa_bracket (n d : Z) :
  0 < n -> 0 < d ->
  let k := Z.log2 n - Z.log2 d in
  (k <= 52 -> 2 ^ 51 * d <= n * 2 ^ (52 - k))
  /\ (52 < k -> 2 ^ 51 * (d * 2 ^ (k - 52)) <= n).
Proof.
  intros Hn Hd k.
  pose proof (Z.log2_spec n Hn) as [Hn1 _].
  pose proof (Z.log2_spec d Hd) as [_ Hd2].
  pose proof (Z.log2_nonneg n) as Ha. pose proof (Z.log2_nonneg d) as Hb.
  split; intros Hk.
  - assert (E : 2 ^ Z.log2 n * 2 ^ (52 - k) = 2 ^ 51 * 2 ^ Z.succ (Z.log2 d)).
    { rewrite <- !Z.pow_add_r by lia. f_equal. lia. }
    assert (0 < 2 ^ (52 - k)) by (apply Z.pow_pos_nonneg; lia).
    nia.
  - assert (E : 2 ^ 51 * (2 ^ Z.succ (Z.log2 d) * 2 ^ (k - 52)) = 2 ^ Z.log2 n).
    { rewrite <- !Z.pow_add_r by lia. f_equal. lia. }
    assert (0 < 2 ^ (k - 52)) by (apply Z.pow_pos_nonneg; lia).
    nia.
Qed.

(** A double differs from the value it stands for by at most the [2^53]-th
    part of it. *)
Lemma to_float_close (x : Q) :
  (0 <= x)%Q ->
  (x * (9007199254740991 # 9007199254740992) <= to_float x)%Q
  /\ (to_float x <= x * (9007199254740993 # 9007199254740992))%Q.
Proof.
  destruct x as [n d]. unfold Qle at 1. cbn [Qnum Qden]. intros Hn.
  rewrite Z.mul_1_r in Hn. change (0 * Zpos d) with 0 in Hn.
  unfold to_float. cbn [Qnum Qden].
  destruct (Z.abs n =? 0) eqn:E0.
  - apply Z.eqb_eq in E0. assert (n = 0) by lia. subst n.
    unfold Qle. cbn. lia.
  - apply Z.eqb_neq in E0. assert (Hpos : 0 < n) by lia.
    rewrite (Z.abs_eq n) by lia. rewrite (Z.sgn_pos n) by lia.
    destruct (mantissa_bracket n (Zpos d) Hpos ltac:(lia)) as [Hlo Hhi].
    set (k := Z.log2 n - Z.log2 (Zpos d)) in *.
    destruct (k <=? 52) eqn:Ek.
    + apply Z.leb_le in Ek. specialize (Hlo Ek).
      set (T := 2 ^ (52 - k)) in *.
      assert (HT : 0 < T) by (apply Z.pow_pos_nonneg; lia).
      destruct (n * T <? 2 ^ 52 * Zpos d) eqn:El.
      * (* low *)
        pose proof (round_half_even_close (2 * (n * T)) (Zpos d) ltac:(lia)) as Hr.
        set (M := round_half_even (2 * (n * T)) (Zpos d)) in *.
        assert (He : (0 <=? k - 53) = false) by (apply Z.leb_gt; lia).
        rewrite He.
        assert (HE : 2 ^ (- (k - 53)) = 2 * T).
        { subst T. replace (- (k - 53)) with (1 + (52 - k)) by lia.
          rewrite Z.pow_add_r by lia. reflexivity. }
        rewrite HE. unfold Qle, Qmult. cbn [Qnum Qden].
        rewrite Z2Pos.id by lia. rewrite !Pos2Z.inj_mul.
        change (2 ^ 52) with 4503599627370496 in *. change (2 ^ 51) with 2251799813685248 in *.
        split; nia.
      * apply Z.ltb_ge in El.
        pose proof (round_half_even_close (n * T) (Zpos d) ltac:(lia)) as Hr.
        set (M := round_half_even (n * T) (Zpos d)) in *.
        change (2 ^ 52) with 4503599627370496 in *.
        destruct (0 <=? k - 52) eqn:He.
        -- apply Z.leb_le in He. assert (k = 52) by lia.
           assert (HT1 : T = 1) by (subst T; replace (52 - k) with 0 by lia; reflexivity).
           replace (k - 52) with 0 by lia. change (2 ^ 0) with 1.
           unfold Qle, Qmult, inject_Z. cbn [Qnum Qden].
           rewrite !Pos2Z.inj_mul. rewrite HT1 in *.
           split; nia.
        -- assert (HE : 2 ^ (- (k - 52)) = T) by (subst T; f_equal; lia).
           rewrite HE. unfold Qle, Qmult. cbn [Qnum Qden].
           rewrite Z2Pos.id by lia. rewrite !Pos2Z.inj_mul.
           split; nia.
    + apply Z.leb_gt in Ek. specialize (Hhi Ek).
      set (T := 2 ^ (k - 52)) in *.
      assert (HT : 0 < T) by (apply Z.pow_pos_nonneg; lia).
      change (2 ^ 52) with 4503599627370496 in *. change (2 ^ 51) with 2251799813685248 in *.
      destruct (n <? 4503599627370496 * (Zpos d * T)) eqn:El.
      * pose proof (round_half_even_close (2 * n) (Zpos d * T) ltac:(lia)) as Hr.
        set (M := round_half_even (2 * n) (Zpos d * T)) in *.
        assert (He : (0 <=? k - 53) = true) by (apply Z.leb_le; lia).
        rewrite He.
        assert (HE : T = 2 * 2 ^ (k - 53)).
        { subst T. replace (k - 52) with (1 + (k - 53)) by lia.
          rewrite Z.pow_add_r by lia. reflexivity. }
        set (S := 2 ^ (k - 53)) in *.
        unfold Qle, Qmult, inject_Z. cbn [Qnum Qden].
        rewrite !Pos2Z.inj_mul. rewrite HE in *.
        split; nia.
      * apply Z.ltb_ge in El.
        pose proof (round_half_even_close n (Zpos d * T) ltac:(lia)) as Hr.
        set (M := round_half_even n (Zpos d * T)) in *.
        assert (He : (0 <=? k - 52) = true) by (apply Z.leb_le; lia).
        rewrite He. fold T.
        unfold Qle, Qmult, inject_Z. cbn [Qnum Qden].
        rewrite !Pos2Z.inj_mul.
        split; nia.
Qed.

(** Rounding to four places moves an amount by at most 0.00005. *)
Lemma round4_close (x : Q) :
  (x <= (round4 x # 1000000) + (1 # 20000))%Q /\ ((round4 x # 1000000) <= x + (1 # 20000))%Q.
Proof.
  destruct x as [xn xd]. unfold round4. cbn [Qnum Qden].
  pose proof (round_half_even_close (xn * 10000) (Zpos xd) ltac:(lia)) as H.
  set (R := round_half_even (xn * 10000) (Zpos xd)) in *.
  unfold Qle, Qplus. cbn [Qnum Qden].
  rewrite ?Pos2Z.inj_mul. split; lia.
Qed.

Lemma round4_step (x : Q) : round4 x mod 100 = 0.
Proof. unfold round4. rewrite Z.mul_comm. apply Z_mod_mult. Qed.

Example to_float_examples :
  (to_float (1 # 10) == 3602879701896397 # 36028797018963968)%Q
  /\ (to_float ((1000000000000000 # 1) + (5 # 1000)) == 1000000000000000 # 1)%Q
  /\ round4 (to_float ((1000000000000000 # 1) + (5 # 1000))%Q) = 1000000000000000 * 1000000
  /\ round4 (to_float ((10 # 1) + to_float (2 # 1000))%Q) = 10002000.
Proof. vm_compute. repeat split. Qed.

(** ** Storage lemmas *)

Lemma apply_writes_app (ws1 ws2 : list write) (d : DB) :
  apply_writes (ws1 ++ ws2) d = apply_writes ws2 (apply_writes ws1 d).
Proof. unfold apply_writes. apply fold_left_app. Qed.

Lemma view_execute (wr : write) (w : World) :
  view (set_txn (txn w ++ [wr]) w) = apply_write wr (view w).
Proof. unfold view; simpl. rewrite apply_writes_app. reflexivity. Qed.

Lemma find_balance_map_same (id : Z) (b : Decimal) (t : Z) (rows : list user_balance_row)
    (r : user_balance_row) :
  find_balance id rows = Some r ->
  find_balance id
    (map (fun r0 =>
            if ub_telegram_id r0 =? id
            then {| ub_telegram_id := ub_telegram_id r0; ub_username := ub_username r0;
                    ub_balance := b; ub_updated_at := t |}
            else r0) rows)
  = Some {| ub_telegram_id := ub_telegram_id r; ub_username := ub_username r;
            ub_balance := b; ub_updated_at := t |}.
Proof.
  unfold find_balance. induction rows as [|x rows IH]; simpl; intros H.
  - discriminate.
  - destruct (ub_telegram_id x =? id) eqn:E; simpl.
    + rewrite E. inversion H; subst. reflexivity.
    + rewrite E. apply IH, H.
Qed.

Lemma find_balance_map_other (id id' : Z) (f : user_balance_row -> user_balance_row)
    (rows : list user_balance_row) :
  id' <> id ->
  (forall r, ub_telegram_id (f r) = ub_telegram_id r) ->
  find_balance id' (map (fun r => if ub_telegram_id r =? id then f r else r) rows)
  = find_balance id' rows.
Proof.
  intros Hne Hf. unfold find_balance. induction rows as [|x rows IH]; simpl.
  - reflexivity.
  - destruct (ub_telegram_id x =? id) eqn:E.
    + rewrite Hf. apply Z.eqb_eq in E.
      destruct (ub_telegram_id x =? id') eqn:E'.
      * apply Z.eqb_eq in E'. congruence.
      * apply IH.
    + destruct (ub_telegram_id x =? id'); [reflexivity | apply IH].
Qed.

Lemma find_balance_app_none (id : Z) (rows : list user_balance_row) (r : user_balance_row) :
  find_balance id rows = None ->
  find_balance id (rows ++ [r]) = if ub_telegram_id r =? id then Some r else None.
Proof.
  unfold find_balance. induction rows as [|x rows IH]; simpl; intros H.
  - reflexivity.
  - destruct (ub_telegram_id x =? id); [discriminate | apply IH, H].
Qed.

Lemma find_balance_app_some (id : Z) (rows : list user_balance_row) (r x : user_balance_row) :
  find_balance id rows = Some x ->
  find_balance id (rows ++ [r]) = Some x.
Proof.
  unfold find_balance. induction rows as [|y rows IH]; simpl; intros H.
  - discriminate.
  - destruct (ub_telegram_id y =? id); [exact H | apply IH, H].
Qed.

Lemma balance_of_upsert (id id' : Z) (name : string) (b : Decimal) (t : Z) (d : DB) :
  balance_of id' (apply_write (UpsertBalance id name b t) d)
  = if id' =? id then to_column 1000 b else balance_of id' d.
Proof.
  unfold balance_of; simpl. unfold upsert_balance.
  destruct (id' =? id) eqn:E.
  - apply Z.eqb_eq in E; subst id'.
    destruct (find_balance id (user_balances d)) eqn:F.
    + rewrite (find_balance_map_same id (to_column 1000 b) t _ u F). reflexivity.
    + rewrite (find_balance_app_none _ _ _ F). simpl. rewrite Z.eqb_refl. reflexivity.
  - apply Z.eqb_neq in E.
    destruct (find_balance id (user_balances d)) eqn:F.
    + rewrite (find_balance_map_other id id'
                 (fun r0 => {| ub_telegram_id := ub_telegram_id r0;
                               ub_username := ub_username r0;
                               ub_balance := to_column 1000 b; ub_updated_at := t |}));
        [reflexivity | exact E | reflexivity].
    + destruct (find_balance id' (user_balances d)) eqn:F'.
      * rewrite (find_balance_app_some _ _ _ _ F'). reflexivity.
      * rewrite (find_balance_app_none _ _ _ F'). simpl.
        destruct (id =? id') eqn:E'; [apply Z.eqb_eq in E'; congruence | reflexivity].
Qed.

(** ** Running the monad *)

Lemma bind_ok {A B} (m : M A) (k : A -> M B) (w w1 : World) (a : A) :
  m w = (Ok a, w1) -> bind m k w = k a w1.
Proof. intros H. unfold bind. rewrite H. reflexivity. Qed.

Lemma bind_raise {A B} (m : M A) (k : A -> M B) (w w1 : World) (e : exn) :
  m w = (Raise e, w1) -> bind m k w = (Raise e, w1).
Proof. intros H. unfold bind. rewrite H. reflexivity. Qed.

Lemma try_except_ok {A} (m : M A) (h : exn -> M A) (w w1 : World) (a : A) :
  m w = (Ok a, w1) -> try_except m h w = (Ok a, w1).
Proof. intros H. unfold try_except. rewrite H. reflexivity. Qed.

Lemma try_except_raise {A} (m : M A) (h : exn -> M A) (w w1 : World) (e : exn) :
  m w = (Raise e, w1) -> try_except m h w = h e w1.
Proof. intros H. unfold try_except. rewrite H. reflexivity. Qed.

Lemma set_txn_same (w : World) : set_txn (txn w) w = w.
Proof. destruct w; reflexivity. Qed.

Lemma set_txn_twice (p q : list write) (w : World) : set_txn p (set_txn q w) = set_txn p w.
Proof. reflexivity. Qed.

(** ** Connections *)

Lemma get_db_ok (env : Env) {A} (body : connection -> M A) (w w1 : World) (a : A) :
  body Conn (set_txn [] w) = (Ok a, w1) ->
  get_db env body w
  = (Ok a, set_txn (txn w)
             (if conn_autocommit env then set_txn [] (set_db (view w1) w1) else w1)).
Proof.
  intros H. unfold get_db. rewrite H. destruct (conn_autocommit env); reflexivity.
Qed.

Lemma get_db_raise (env : Env) {A} (body : connection -> M A) (w w1 : World) (e : exn) :
  body Conn (set_txn [] w) = (Raise e, w1) ->
  get_db env body w = (Raise e, set_txn (txn w) w1).
Proof. intros H. unfold get_db. rewrite H. reflexivity. Qed.

(** A body that only reads answers from the committed tables and leaves the
    world as it was. *)
Lemma get_db_query (env : Env) {A} (f : DB -> A) (w : World) :
  get_db env (fun c => d <- select c ;; ret (f d)) w = (Ok (f (db w)), w).
Proof.
  destruct w as [d tx t n s u dr al].
  unfold get_db, bind, select, ret, view; simpl.
  destruct (conn_autocommit env); reflexivity.
Qed.

Lemma update_queue_task_status_spec (env : Env) (task_id : Z) (status : task_status)
    (error_message : option string) (w : World) :
  update_queue_task_status env task_id status error_message w
  = (Ok tt,
     set_db (apply_write
               (if task_status_eqb status failed
                then FailQueueTask task_id status error_message (now w)
                else SetQueueStatus task_id status (now w))
               (db w)) w).
Proof.
  destruct w as [d tx t n s u dr al].
  unfold update_queue_task_status, get_db, bind, CURRENT_TIMESTAMP, execute, commit, view; simpl.
  destruct (task_status_eqb status failed); simpl;
    destruct (conn_autocommit env); reflexivity.
Qed.

Lemma send_message_frame (env : Env) (chat_id : Z) (w : World) :
  db (snd (send_message env chat_id w)) = db w
  /\ txn (snd (send_message env chat_id w)) = txn w
  /\ sessions (snd (send_message env chat_id w)) = sessions w
  /\ now (snd (send_message env chat_id w)) = now w.
Proof.
  unfold send_message. destruct (telegram env (List.length (sent w))) as [[text code]|];
    simpl; repeat split.
Qed.

(** ** The ledger (database.py) *)

Lemma get_balance_spec (env : Env) (telegram_id : Z) (w : World) :
  get_balance env telegram_id w = (Ok (balance_of telegram_id (db w)), w).
Proof.
  destruct w as [d tx t n s u dr al].
  unfold get_balance, get_db, bind, select, ret, balance_of, view; simpl.
  destruct (find_balance telegram_id (user_balances d));
    destruct (conn_autocommit env); reflexivity.
Qed.

(** C10.  For an account id with no row in [user_balances], [get_balance]
    returns exactly 0 without raising and leaves the world as it was (no row
    is created); an account whose row holds 0 reads the same. *)
Theorem get_balance_unknown_account (env : Env) (telegram_id : Z) (w : World) :
  find_balance telegram_id (user_balances (db w)) = None ->
  get_balance env telegram_id w = (Ok 0, w)
  /\ (forall w0 r,
        find_balance telegram_id (user_balances (db w0)) = Some r ->
        ub_balance r = 0 ->
        fst (get_balance env telegram_id w0) = fst (get_balance env telegram_id w)).
Proof.
  intros Hnone. split.
  - rewrite get_balance_spec. unfold balance_of. rewrite Hnone. reflexivity.
  - intros w0 r Hsome Hzero. rewrite !get_balance_spec. unfold balance_of.
    rewrite Hsome, Hnone. simpl. rewrite Hzero. reflexivity.
Qed.

(** Account 2002 has no row in the scenario store. *)
Lemma get_balance_unknown_account_witness :
  find_balance 2002 (user_balances (db (world_of (store (milli 50000) [] [])))) = None
  /\ get_balance (shop false (fun _ => session_down) delivered) 2002
       (world_of (store (milli 50000) [] []))
     = (Ok 0, world_of (store (milli 50000) [] [])).
Proof.
  assert (H : find_balance 2002 (user_balances (db (world_of (store (milli 50000) [] []))))
              = None) by reflexivity.
  split; [exact H|].
  exact (proj1 (get_balance_unknown_account
                  (shop false (fun _ => session_down) delivered) 2002
                  (world_of (store (milli 50000) [] [])) H)).
Defined.

Lemma set_balance_raises (env : Env) (telegram_id : Z) (delta : Decimal) (w : World) :
  balance_of telegram_id (view w) + delta < 0 ->
  set_balance env telegram_id delta Conn w
  = (Raise (ValueError ("余额不足: 当前 " +++ fmt3 (balance_of telegram_id (view w))
                        +++ ", 尝试扣款 " +++ fmt3 (Z.abs delta))), w).
Proof.
  intros H. unfold set_balance, bind, select, balance_of in *.
  apply Z.ltb_lt in H. rewrite H. reflexivity.
Qed.

(** The statement is accepted: the sum fits the column, or the server is not
    in strict mode. *)
Lemma set_balance_returns (env : Env) (telegram_id : Z) (delta : Decimal) (w : World) :
  0 <= balance_of telegram_id (view w) + delta ->
  strict_sql_mode env
  && (column_max 1000 <? Z.abs (round_half_up 1000 (balance_of telegram_id (view w) + delta)))
  = false ->
  set_balance env telegram_id delta Conn w
  = (Ok (balance_of telegram_id (view w) + delta),
     set_txn (txn w ++ [UpsertBalance telegram_id ("User" +++ show_Z telegram_id)
                          (balance_of telegram_id (view w) + delta) (now w)]) w).
Proof.
  intros H Hfit. unfold set_balance, bind, select, check_range, balance_of in *.
  apply Z.ltb_ge in H. rewrite H. cbn [CURRENT_TIMESTAMP fst snd]. rewrite Hfit. reflexivity.
Qed.

(** The statement is refused: nothing is written. *)
Lemma set_balance_refused (env : Env) (telegram_id : Z) (delta : Decimal) (w : World) :
  0 <= balance_of telegram_id (view w) + delta ->
  strict_sql_mode env
  && (column_max 1000 <? Z.abs (round_half_up 1000 (balance_of telegram_id (view w) + delta)))
  = true ->
  set_balance env telegram_id delta Conn w
  = (Raise (DataError ("(1264, " +++ DQ +++ "Out of range value for column 'balance' at row 1"
                       +++ DQ +++ ")")), w).
Proof.
  intros H Hfit. unfold set_balance, bind, select, check_range, balance_of in *.
  apply Z.ltb_ge in H. rewrite H. cbn [CURRENT_TIMESTAMP fst snd]. rewrite Hfit. reflexivity.
Qed.

(** C5, as stated, fails: an adjustment of 0.0004 on a balance of 50.000
    returns 50.0004, while the balance the account then holds is 50.000;
    what is persisted is not what is returned. *)
Lemma set_balance_stores_three_places :
  balance_of 1001 (view (world_of (store (milli 50000) [] []))) + 400 = 50000400
  /\ fst (set_balance (shop true (fun _ => session_down) delivered) 1001 400 Conn
            (world_of (store (milli 50000) [] [])))
     = Ok 50000400
  /\ balance_of 1001
       (view (snd (set_balance (shop true (fun _ => session_down) delivered) 1001 400 Conn
                     (world_of (store (milli 50000) [] [])))))
     = 50000000
  /\ balance_of 1001
       (db (snd (get_db (shop true (fun _ => session_down) delivered)
                   (fun c => set_balance (shop true (fun _ => session_down) delivered)
                               1001 400 c ;; commit c)
                   (world_of (store (milli 50000) [] [])))))
     = 50000000.
Proof. vm_compute. repeat split. Qed.

(** C5, amended.  [set_balance] raises the insufficient-funds error exactly
    when [current_balance + delta < 0], and then changes nothing.  Otherwise,
    when the sum rounded to three places fits the column, it returns exactly
    [current_balance + delta] and the balance the connection then holds for
    the account is that sum rounded to three places, a half going up: a
    multiple of 0.001 within 0.0005 of the sum, the sum itself when that has
    no more than three places, and never negative.  Other accounts keep
    their balance and nothing is committed by the call.  When the rounded
    sum is beyond 9999999.999, a server in strict mode refuses the statement
    (DataError, nothing changes); any other stores 9999999.999 and the
    function still returns the sum. *)
Theorem set_balance_checks_funds (env : Env) (telegram_id : Z) (delta : Decimal) (w : World) :
  let current_balance := balance_of telegram_id (view w) in
  let outcome := set_balance env telegram_id delta Conn w in
  let stored := balance_of telegram_id (view (snd outcome)) in
  ((exists msg, fst outcome = Raise (ValueError msg)) <-> current_balance + delta < 0)
  /\ (current_balance + delta < 0 -> snd outcome = w)
  /\ (0 <= current_balance + delta ->
      round_half_up 1000 (current_balance + delta) <= column_max 1000 ->
      fst outcome = Ok (current_balance + delta)
      /\ stored = round_half_up 1000 (current_balance + delta)
      /\ stored mod 1000 = 0
      /\ 2 * Z.abs (stored - (current_balance + delta)) <= 1000
      /\ ((current_balance + delta) mod 1000 = 0 -> stored = current_balance + delta)
      /\ 0 <= stored)
  /\ (0 <= current_balance + delta ->
      column_max 1000 < round_half_up 1000 (current_balance + delta) ->
      if strict_sql_mode env
      then (exists msg, fst outcome = Raise (DataError msg)) /\ snd outcome = w
      else fst outcome = Ok (current_balance + delta) /\ stored = column_max 1000)
  /\ db (snd outcome) = db w
  /\ (forall other, other <> telegram_id ->
        balance_of other (view (snd outcome)) = balance_of other (view w)).
Proof.
  intros current_balance outcome stored. subst stored outcome current_balance.
  set (sum := balance_of telegram_id (view w) + delta).
  pose proof (round_half_up_close 1000 sum ltac:(lia)) as Hclose.
  pose proof (round_half_up_step 1000 sum) as Hstep.
  destruct (Z_lt_ge_dec sum 0) as [Hneg | Hpos].
  - rewrite (set_balance_raises env _ _ _ Hneg); simpl.
    conjs.
    + split; [intros _; exact Hneg | intros _; eexists; reflexivity].
    + intros _. reflexivity.
    + intros Hge. lia.
    + intros Hge. lia.
    + reflexivity.
    + intros other _. reflexivity.
  - assert (Hge : 0 <= sum) by lia.
    pose proof (round_half_up_nonneg 1000 sum ltac:(lia) Hge) as Hnn.
    destruct (strict_sql_mode env && (column_max 1000 <? Z.abs (round_half_up 1000 sum)))
      eqn:Hfit.
    + (* refused *)
      apply andb_true_iff in Hfit. destruct Hfit as [Hstrict Hover].
      apply Z.ltb_lt in Hover.
      rewrite (set_balance_refused env telegram_id delta w Hge)
        by (fold sum; rewrite Hstrict; apply Z.ltb_lt in Hover; rewrite Hover; reflexivity).
      cbn [fst snd]. conjs.
      * split; [intros [msg Hmsg]; discriminate Hmsg | intros Hlt; lia].
      * intros Hlt. lia.
      * intros _ Hin. lia.
      * intros _ _. rewrite Hstrict. split; [eexists; reflexivity | reflexivity].
      * reflexivity.
      * intros other _. reflexivity.
    + rewrite (set_balance_returns env telegram_id delta w Hge Hfit).
      cbn [fst snd]. fold sum.
      assert (Hstored : balance_of telegram_id
                          (view (set_txn (txn w ++ [UpsertBalance telegram_id
                                                      ("User" +++ show_Z telegram_id) sum (now w)]) w))
                        = to_column 1000 sum).
      { rewrite view_execute, balance_of_upsert, Z.eqb_refl. reflexivity. }
      rewrite Hstored. unfold to_column. conjs.
      * split; [intros [msg Hmsg]; discriminate Hmsg | intros Hlt; lia].
      * intros Hlt. lia.
      * intros _ Hin. rewrite clip_fits by lia. conjs.
        -- reflexivity.
        -- reflexivity.
        -- exact Hstep.
        -- exact Hclose.
        -- intros Hexact. apply round_half_up_exact; [lia | exact Hexact].
        -- exact Hnn.
      * intros _ Hover.
        apply andb_false_iff in Hfit. destruct Hfit as [Hstrict | Hin].
        -- rewrite Hstrict. split; [reflexivity | apply clip_over; lia].
        -- apply Z.ltb_ge in Hin. lia.
      * reflexivity.
      * intros other Hother. rewrite view_execute, balance_of_upsert.
        destruct (other =? telegram_id) eqn:E; [apply Z.eqb_eq in E; congruence | reflexivity].
Qed.

(** ** Claiming tasks *)

Lemma oldest_pending_from (rows : list queue_row) :
  forall (best : option queue_row) (r : queue_row),
    fold_left
      (fun best r =>
         if task_status_eqb (q_status r) pending
         then match best with
              | None => Some r
              | Some b => if q_created_at r <? q_created_at b then Some r else Some b
              end
         else best)
      rows best = Some r ->
    best = Some r \/ (In r rows /\ q_status r = pending).
Proof.
  induction rows as [|x rows IH]; simpl; intros best r H.
  - left. exact H.
  - apply IH in H. destruct H as [H | [H1 H2]].
    + destruct (task_status_eqb (q_status x) pending) eqn:E.
      * assert (Hx : q_status x = pending) by (destruct (q_status x); try discriminate; reflexivity).
        destruct best as [b|].
        -- destruct (q_created_at x <? q_created_at b).
           ++ inversion H; subst. right. split; [left; reflexivity | exact Hx].
           ++ left. exact H.
        -- inversion H; subst. right. split; [left; reflexivity | exact Hx].
      * left. exact H.
    + right. split; [right; exact H1 | exact H2].
Qed.

(** Only a 'pending' row is ever claimed: a task left 'failed' is not seen
    by [get_next_queue_task] again. *)
Lemma oldest_pending_is_pending (rows : list queue_row) (r : queue_row) :
  oldest_pending rows = Some r -> In r rows /\ q_status r = pending.
Proof.
  intros H. apply oldest_pending_from in H. destruct H as [H | H]; [discriminate | exact H].
Qed.

(** ** The queue drain on concrete runs *)

(** C1.  In the purchase scenario (balance 50.000, nominal price 30.00, the
    provider and the transfer succeed with settlement id R1 and cost 29.80)
    one drain pass of the program ends with the balance still 50.000, the
    task 'failed' with one retry counted, and no [completed_orders] row:
    [activate_premium] answers failure because its call of
    [record_completed_order] leaves out [conn] and [cursor]. *)
Theorem purchase_scenario_outcome (autocommit : bool) :
  balance_of 1001 (db (purchase_scenario autocommit)) = milli 50000
  /\ queue_states (purchase_scenario autocommit)
     = [(1, failed, 1, Some "激活失败，请稍后重试或联系管理员")]
  /\ completed_orders (db (purchase_scenario autocommit)) = []
  /\ map po_status (purchase_orders (db (purchase_scenario autocommit)))
     = (if autocommit then [Failed] else [])
  /\ sessions (purchase_scenario autocommit) = 1%nat.
Proof. destruct autocommit; vm_compute; repeat split. Qed.

(** Had [activate_premium] returned the success answer its last lines
    build, the drain would have reached the state of the scenario: balance
    20.200 and, once the connection commits on leaving [get_db], one
    [completed_orders] row for R1. *)
Lemma settle_success_reply :
  fst (settle_delivered true) = Ok tt
  /\ balance_of 1001 (db (snd (settle_delivered true))) = milli 20200
  /\ queue_states (snd (settle_delivered true)) = [(1, completed, 0, None)]
  /\ map co_req_id (completed_orders (db (snd (settle_delivered true)))) = ["R1"]
  /\ map po_status (purchase_orders (db (snd (settle_delivered true)))) = [Succeeded].
Proof. vm_compute. repeat split. Qed.

(** C2.  A task whose fulfilment fails with [retry_count] 0 is left 'failed'
    (not 'pending') with [retry_count] 1 and the error stored; the next
    drain pass claims nothing, opens no provider session and leaves the
    tables as they were, although the provider would now succeed. *)
Theorem failed_task_is_not_retried (autocommit : bool) :
  queue_states (retry_first_pass autocommit)
  = [(1, failed, 1, Some "激活失败，请稍后重试或联系管理员")]
  /\ sessions (retry_first_pass autocommit) = 1%nat
  /\ db (retry_second_pass autocommit) = db (retry_first_pass autocommit)
  /\ sessions (retry_second_pass autocommit) = 1%nat.
Proof. destruct autocommit; vm_compute; repeat split. Qed.

(** C4.  When the provider's settlement id is already in [completed_orders],
    the drain makes no debit, but it writes no zero-charge purchase order and
    leaves the task 'failed' with one retry counted: the answer of
    [activate_premium] for this case carries no order number, and reading
    one from it raises IndexError. *)
Theorem already_settled_outcome (autocommit : bool) :
  balance_of 1001 (db (already_settled autocommit)) = milli 50000
  /\ purchase_orders (db (already_settled autocommit)) = []
  /\ queue_states (already_settled autocommit)
     = [(1, failed, 1, Some "list index out of range")]
  /\ map co_req_id (completed_orders (db (already_settled autocommit))) = ["R1"].
Proof. destruct autocommit; vm_compute; repeat split. Qed.

(** The drain's own branch for a settled id does what is expected of it,
    once the answer carries the order number: a zero-charge 'Duplicate'
    purchase order, the task 'completed', the balance as it was. *)
Lemma settle_duplicate_reply :
  fst (settle_duplicate true) = Ok tt
  /\ balance_of 1001 (db (snd (settle_duplicate true))) = milli 50000
  /\ queue_states (snd (settle_duplicate true)) = [(1, completed, 0, None)]
  /\ map (fun r => (po_status r, po_amount r))
         (purchase_orders (db (snd (settle_duplicate true))))
     = [(Duplicate, 0)].
Proof. vm_compute. repeat split. Qed.

(** ** Insufficient funds at drain time *)

(** The drain's turn for a task whose account cannot pay the nominal price:
    the task is failed, the owner is told, and the turn ends. *)
Lemma process_task_short_of_funds (env : Env) (w : World) (task_id telegram_id : Z)
    (username : string) (duration retry_count : Z) (kv : Z * Decimal) :
  retry_count < max_retries ->
  find (fun kv => fst kv =? duration) (PRICES env) = Some kv ->
  balance_of telegram_id (db w) < snd kv ->
  process_task env (task_id, telegram_id, username, duration, retry_count) w
  = (send_message env telegram_id ;; sleep 1)
      (set_db (apply_write
                 (FailQueueTask task_id failed
                    (Some ("余额不足: 当前 " +++ fmt3 (balance_of telegram_id (db w))
                           +++ " USDT, 需 " +++ fmt3 (snd kv) +++ " USDT"))
                    (now w))
                 (db w)) w).
Proof.
  intros Hcap Hprice Hshort.
  unfold process_task.
  assert (Hc : (max_retries <=? retry_count) = false) by (apply Z.leb_gt; exact Hcap).
  rewrite Hc.
  assert (Hlt : (balance_of telegram_id (db w) <? snd kv) = true)
    by (apply Z.ltb_lt; exact Hshort).
  unfold bind at 1.
  erewrite try_except_raise.
  2:{ erewrite bind_ok by (unfold price; rewrite Hprice; reflexivity).
      erewrite get_db_raise.
      - rewrite set_txn_twice, set_txn_same. reflexivity.
      - erewrite bind_ok by (apply get_balance_spec).
        simpl db. rewrite Hlt.
        erewrite bind_raise by reflexivity. reflexivity. }
  erewrite bind_ok by (apply update_queue_task_status_spec).
  simpl str. simpl task_status_eqb. cbv iota.
  unfold bind. reflexivity.
Qed.

(** C3, amended.  For a claimed task below the retry cap whose account
    balance is below the tier's nominal price, the drain opens no provider
    session and changes no balance, purchase order or settlement record; it
    marks the task 'failed' with the insufficient-funds message as its error
    and adds 1 to its retry_count, as for any other failure. *)
Theorem insufficient_funds_fails_task (env : Env) (w : World) (task_id telegram_id : Z)
    (username : string) (duration retry_count : Z) (kv : Z * Decimal) :
  retry_count < max_retries ->
  find (fun kv => fst kv =? duration) (PRICES env) = Some kv ->
  balance_of telegram_id (db w) < snd kv ->
  premium_queue
    (db (snd (process_task env (task_id, telegram_id, username, duration, retry_count) w)))
  = fail_queue_task task_id failed
      (Some ("余额不足: 当前 " +++ fmt3 (balance_of telegram_id (db w)) +++ " USDT, 需 "
             +++ fmt3 (snd kv) +++ " USDT"))
      (now w) (premium_queue (db w))
  /\ sessions (snd (process_task env (task_id, telegram_id, username, duration, retry_count) w))
     = sessions w
  /\ user_balances
       (db (snd (process_task env (task_id, telegram_id, username, duration, retry_count) w)))
     = user_balances (db w)
  /\ purchase_orders
       (db (snd (process_task env (task_id, telegram_id, username, duration, retry_count) w)))
     = purchase_orders (db w)
  /\ completed_orders
       (db (snd (process_task env (task_id, telegram_id, username, duration, retry_count) w)))
     = completed_orders (db w).
Proof.
  intros Hcap Hprice Hshort.
  rewrite (process_task_short_of_funds env w task_id telegram_id username duration
             retry_count kv Hcap Hprice Hshort).
  destruct w as [d tx t n s u dr al].
  unfold bind, send_message, sleep; simpl.
  destruct (telegram env (List.length s)) as [[text code]|]; simpl; repeat split.
Qed.

(** Account 1001 holds 10.000 against the price 30.00. *)
Lemma insufficient_funds_fails_task_witness :
  0 < max_retries
  /\ find (fun kv => fst kv =? 3) (PRICES (shop true (fun _ => session_down) delivered))
     = Some (3, milli 30000)
  /\ balance_of 1001 (db (world_of (store (milli 10000) [queued] []))) < milli 30000
  /\ premium_queue
       (db (snd (process_task (shop true (fun _ => session_down) delivered) claimed
                   (world_of (store (milli 10000) [queued] [])))))
     = fail_queue_task 1 failed (Some "余额不足: 当前 10.000 USDT, 需 30.000 USDT") 1000 [queued]
  /\ sessions (snd (process_task (shop true (fun _ => session_down) delivered) claimed
                      (world_of (store (milli 10000) [queued] []))))
     = 0%nat.
Proof.
  assert (H1 : 0 < max_retries) by (unfold max_retries; lia).
  assert (H2 : find (fun kv => fst kv =? 3)
                 (PRICES (shop true (fun _ => session_down) delivered))
               = Some (3, milli 30000)) by reflexivity.
  assert (H3 : balance_of 1001 (db (world_of (store (milli 10000) [queued] [])))
               < snd (3, milli 30000)) by (vm_compute; reflexivity).
  destruct (insufficient_funds_fails_task
              (shop true (fun _ => session_down) delivered)
              (world_of (store (milli 10000) [queued] []))
              1 1001 "alice" 3 0 (3, milli 30000) H1 H2 H3) as [Hq [Hs _]].
  repeat split; assumption.
Defined.

(** C3, as stated, fails: account 1001 holds 10.000, below the nominal
    price 30.00, when its task (retry_count 0) is drained; no provider
    session is opened, and the task ends with retry_count 1. *)
Lemma insufficient_funds_counts_a_retry :
  balance_of 1001 (db (world_of (store (milli 10000) [queued] []))) = milli 10000
  /\ queue_states (world_of (store (milli 10000) [queued] [])) = [(1, pending, 0, None)]
  /\ queue_states (short_of_funds true)
     = [(1, failed, 1, Some "余额不足: 当前 10.000 USDT, 需 30.000 USDT")]
  /\ sessions (short_of_funds true) = 0%nat
  /\ balance_of 1001 (db (short_of_funds true)) = milli 10000.
Proof. vm_compute. repeat split. Qed.

(** ** The success branch of the drain (bot.py, lines 517-525) *)

(** [settle] on an answer that carries an order number, while the buyer has
    blocked the bot.  [activate_premium] returns no such answer (see the
    concrete runs of the drain above); were the branch reached, the
    notification would raise after [process_purchase] has committed, and the
    settlement record, written on the same connection after that commit,
    would be rolled back. *)
Lemma debit_without_settlement_record :
  fst (settle_blocked true)
  = Raise (TelegramError "Forbidden: bot was blocked by the user" None)
  /\ balance_of 1001 (db (snd (settle_blocked true))) = milli 20200
  /\ map (fun r => (po_status r, po_amount r))
         (purchase_orders (db (snd (settle_blocked true))))
     = [(Succeeded, milli 29800)]
  /\ has_completed "R1" (db (snd (settle_blocked true))) = false
  /\ txn (snd (settle_blocked true)) = [].
Proof. vm_compute. repeat split. Qed.

(** ** Deposit matching (usdtpay.py, [handle_usdt_payment]) *)

Lemma filter_singleton_find {A} (f : A -> bool) (l : list A) (x : A) :
  filter f l = [x] -> find f l = Some x.
Proof.
  induction l as [|y l IH]; simpl; intros H.
  - discriminate.
  - destruct (f y); [inversion H; reflexivity | apply IH, H].
Qed.

Lemma filter_singleton_only {A} (f : A -> bool) (l : list A) (x y : A) :
  filter f l = [x] -> In y l -> f y = true -> y = x.
Proof.
  intros H Hin Hf.
  assert (Hy : In y (filter f l)) by (apply filter_In; split; assumption).
  rewrite H in Hy. destruct Hy as [Hy | []]. symmetry; exact Hy.
Qed.

Lemma find_none_filter_nil {A} (f : A -> bool) (l : list A) :
  find f l = None -> filter f l = [].
Proof.
  induction l as [|y l IH]; simpl; intros H.
  - reflexivity.
  - destruct (f y); [discriminate | apply IH, H].
Qed.

(** Once the matched order is flipped, no open order has the amount. *)
Lemma no_open_match_after_flip (a : Decimal) (order : usdtpay_row) (rows : list usdtpay_row) :
  (forall r, In r rows -> open_with_amount a r = true -> r = order) ->
  find (open_with_amount a) (set_usdtpay_status (up_out_trade_no order) 1 rows) = None.
Proof.
  induction rows as [|x rows IH]; simpl; intros Honly.
  - reflexivity.
  - assert (IH' : find (open_with_amount a)
                    (set_usdtpay_status (up_out_trade_no order) 1 rows) = None).
    { apply IH. intros r Hr. apply Honly. right; exact Hr. }
    destruct (String.eqb (up_out_trade_no x) (up_out_trade_no order)) eqn:E.
    + unfold open_with_amount at 1; simpl.
      rewrite andb_false_r. exact IH'.
    + destruct (open_with_amount a x) eqn:Hx.
      * assert (x = order) by (apply Honly; [left; reflexivity | exact Hx]).
        subst x. rewrite String.eqb_refl in E. discriminate.
      * exact IH'.
Qed.

Lemma balance_of_add_balance (id : Z) (a : Decimal) (up : Decimal -> bool) (t : Z) (d : DB)
    (r : user_balance_row) :
  find_balance id (user_balances d) = Some r ->
  balance_of id (apply_write (AddBalance id a up t) d)
  = clip 1000 (credited up (ub_balance r) a).
Proof.
  unfold balance_of, find_balance; simpl. unfold add_balance.
  induction (user_balances d) as [|x rows IH]; simpl; intros H.
  - discriminate.
  - destruct (ub_telegram_id x =? id) eqn:E; simpl.
    + rewrite E. inversion H; subst. reflexivity.
    + rewrite E. apply IH, H.
Qed.

(** A rounded value does not pass a multiple of the place that the value
    itself does not pass. *)
Lemma rounded_le_multiple (place x r k : Z) :
  0 < place -> r mod place = 0 -> 2 * Z.abs (r - x) <= place -> x <= k * place ->
  r <= k * place.
Proof.
  intros Hp Hr Hclose Hx.
  pose proof (Z.div_mod r place ltac:(lia)) as Hd. rewrite Hr in Hd.
  assert (r / place <= k) by nia. nia.
Qed.

(** A credit that keeps the balance within the column is accepted as it is. *)
Lemma credited_fits (up : Decimal -> bool) (b a : Decimal) :
  0 <= b + a -> b + a <= column_max 1000 ->
  0 <= credited up b a <= column_max 1000.
Proof.
  intros Hlo Hhi. unfold credited. split.
  - apply round_float_sum_nonneg; lia.
  - apply (rounded_le_multiple 1000 (b + a) _ (10 ^ 10 - 1)).
    + lia.
    + apply round_float_sum_step.
    + apply round_float_sum_close. lia.
    + exact Hhi.
Qed.

Lemma to_column_fits (place x : Z) :
  0 < place -> 0 <= x -> x <= column_max place ->
  to_column place x = round_half_up place x.
Proof.
  intros Hp Hlo Hhi. unfold to_column. apply clip_fits.
  pose proof (round_half_up_nonneg place x Hp Hlo).
  assert (round_half_up place x <= (10 ^ 10 - 1) * place).
  { apply (rounded_le_multiple place x _ (10 ^ 10 - 1)).
    - exact Hp.
    - apply round_half_up_step.
    - apply round_half_up_close, Hp.
    - exact Hhi. }
  unfold column_max. lia.
Qed.

Lemma notify_admins_frame (env : Env) (admins : list Z) (w : World) :
  fst (notify_admins env admins w) = Ok tt
  /\ db (snd (notify_admins env admins w)) = db w
  /\ txn (snd (notify_admins env admins w)) = txn w.
Proof.
  revert w. induction admins as [|x admins IH]; intros w; simpl.
  - repeat split.
  - unfold bind, try_except.
    destruct (send_message env x w) as [[[]|e] w1] eqn:Hs;
      pose proof (send_message_frame env x w) as [Hd [Ht _]]; rewrite Hs in Hd, Ht;
      simpl in Hd, Ht; unfold ret;
      destruct (IH w1) as [H1 [H2 H3]]; repeat split; congruence.
Qed.

(** No open order has the amount: nothing happens. *)
Lemma handle_usdt_payment_no_match (env : Env) (a : Decimal) (w : World) :
  find (open_with_amount a) (usdtpay (db w)) = None ->
  handle_usdt_payment env a w = (Ok tt, w).
Proof.
  intros H. unfold handle_usdt_payment.
  erewrite try_except_ok; [reflexivity|].
  erewrite get_db_ok.
  2:{ erewrite bind_ok by reflexivity. unfold view; simpl. rewrite H. reflexivity. }
  destruct w as [d tx t n s u dr al]. destruct (conn_autocommit env); reflexivity.
Qed.

(** An open order has the amount, the credit is accepted and the order
    number is new to [okusdt]: the flip, the credit and the [okusdt] row are
    committed at once. *)
Lemma handle_usdt_payment_match (env : Env) (a : Decimal) (w : World) (order : usdtpay_row) :
  find (open_with_amount a) (usdtpay (db w)) = Some order ->
  credit_accepted env (up_telegram_id order) a (db w) = true ->
  existsb (fun k => String.eqb (ok_out_trade_no k) (up_out_trade_no order)) (okusdt (db w))
  = false ->
  fst (handle_usdt_payment env a w) = Ok tt
  /\ txn (snd (handle_usdt_payment env a w)) = txn w
  /\ db (snd (handle_usdt_payment env a w))
     = apply_writes
         [SetUsdtpayStatus (up_out_trade_no order) 1;
          AddBalance (up_telegram_id order) a (double_halfway_up env) (now w);
          InsertOkusdt {| ok_out_trade_no := up_out_trade_no order;
                          ok_telegram_id := up_telegram_id order;
                          ok_created_at := now w; ok_amount := a |}]
         (db w).
Proof.
  intros Hfind Hacc Hnew.
  set (newdb := apply_writes
         [SetUsdtpayStatus (up_out_trade_no order) 1;
          AddBalance (up_telegram_id order) a (double_halfway_up env) (now w);
          InsertOkusdt {| ok_out_trade_no := up_out_trade_no order;
                          ok_telegram_id := up_telegram_id order;
                          ok_created_at := now w; ok_amount := a |}]
         (db w)).
  set (tail := (send_message env (up_telegram_id order) ;; notify_admins env (ADMIN_IDS env))).
  assert (Hbody :
    (fun c : connection =>
       d <- select c ;;
       match find (open_with_amount a) (usdtpay d) with
       | Some order =>
           let telegram_id := up_telegram_id order in
           let out_trade_no := up_out_trade_no order in
           execute c (SetUsdtpayStatus out_trade_no 1) ;;
           t <- CURRENT_TIMESTAMP ;;
           match find_balance telegram_id (user_balances d) with
           | Some r =>
               check_range env "balance" 1000
                 (credited (double_halfway_up env) (ub_balance r) a)
           | None => ret tt
           end ;;
           execute c (AddBalance telegram_id a (double_halfway_up env) t) ;;
           (if existsb (fun r => String.eqb (ok_out_trade_no r) out_trade_no) (okusdt d)
            then raise (IntegrityError "Duplicate entry for key 'PRIMARY'")
            else execute c (InsertOkusdt
                              {| ok_out_trade_no := out_trade_no; ok_telegram_id := telegram_id;
                                 ok_created_at := t; ok_amount := a |})) ;;
           commit c ;;
           send_message env telegram_id ;;
           notify_admins env (ADMIN_IDS env)
       | None => ret tt
       end) Conn (set_txn [] w)
    = tail (set_txn [] (set_db newdb w))).
  { erewrite bind_ok by reflexivity. unfold view; simpl. rewrite Hfind.
    cbv zeta.
    erewrite bind_ok by reflexivity.
    erewrite bind_ok by reflexivity.
    erewrite bind_ok.
    2:{ unfold credit_accepted in Hacc.
        destruct (find_balance (up_telegram_id order) (user_balances (db w))) as [r|].
        - unfold check_range. apply negb_true_iff in Hacc. rewrite Hacc. reflexivity.
        - reflexivity. }
    erewrite bind_ok by reflexivity.
    rewrite Hnew.
    erewrite bind_ok by reflexivity.
    erewrite bind_ok by reflexivity.
    reflexivity. }
  assert (Htail : exists r w2, tail (set_txn [] (set_db newdb w)) = (r, w2)
                               /\ db w2 = newdb /\ txn w2 = []).
  { subst tail. unfold bind.
    pose proof (send_message_frame env (up_telegram_id order) (set_txn [] (set_db newdb w)))
      as [Hd [Ht _]].
    destruct (send_message env (up_telegram_id order) (set_txn [] (set_db newdb w)))
      as [[[]|e] w1]; simpl in Hd, Ht.
    - destruct (notify_admins_frame env (ADMIN_IDS env) w1) as [_ [H2 H3]].
      destruct (notify_admins env (ADMIN_IDS env) w1) as [r w2]; simpl in *.
      exists r, w2. repeat split; congruence.
    - exists (Raise e), w1. repeat split; assumption. }
  destruct Htail as [r [w2 [Htail [Hdb Htx]]]].
  unfold handle_usdt_payment. fold tail.
  destruct r as [[]|e].
  - erewrite try_except_ok.
    2:{ eapply get_db_ok. exact (eq_trans Hbody Htail). }
    simpl. destruct w2 as [d2 tx2 t2 n2 s2 u2 dr2 al2]; simpl in *. subst.
    destruct (conn_autocommit env); repeat split.
  - erewrite try_except_raise.
    2:{ eapply get_db_raise. exact (eq_trans Hbody Htail). }
    simpl. repeat split. exact Hdb.
Qed.

(** The server refuses the credit: the flip is rolled back with it and the
    world is as it was. *)
Lemma handle_usdt_payment_refused (env : Env) (a : Decimal) (w : World) (order : usdtpay_row) :
  find (open_with_amount a) (usdtpay (db w)) = Some order ->
  credit_accepted env (up_telegram_id order) a (db w) = false ->
  handle_usdt_payment env a w = (Ok tt, w).
Proof.
  intros Hfind Hacc. unfold handle_usdt_payment.
  erewrite try_except_raise.
  2:{ eapply get_db_raise.
      erewrite bind_ok by reflexivity. unfold view; simpl. rewrite Hfind.
      cbv zeta.
      erewrite bind_ok by reflexivity.
      erewrite bind_ok by reflexivity.
      erewrite bind_raise; [reflexivity|].
      unfold credit_accepted in Hacc.
      destruct (find_balance (up_telegram_id order) (user_balances (db w))) as [r|];
        [|discriminate Hacc].
      unfold check_range. apply negb_false_iff in Hacc. rewrite Hacc. reflexivity. }
  destruct w; reflexivity.
Qed.

(** The first processing of a transfer that one open order waits for, when
    the credit keeps the balance within the column. *)
Lemma handle_usdt_payment_first (env : Env) (a : Decimal) (w : World)
    (order : usdtpay_row) (r : user_balance_row) :
  filter (open_with_amount a) (usdtpay (db w)) = [order] ->
  find_balance (up_telegram_id order) (user_balances (db w)) = Some r ->
  existsb (fun k => String.eqb (ok_out_trade_no k) (up_out_trade_no order)) (okusdt (db w))
  = false ->
  0 <= ub_balance r + a -> ub_balance r + a <= column_max 1000 ->
  db (snd (handle_usdt_payment env a w))
  = apply_writes
      [SetUsdtpayStatus (up_out_trade_no order) 1;
       AddBalance (up_telegram_id order) a (double_halfway_up env) (now w);
       InsertOkusdt {| ok_out_trade_no := up_out_trade_no order;
                       ok_telegram_id := up_telegram_id order;
                       ok_created_at := now w; ok_amount := a |}]
      (db w)
  /\ balance_of (up_telegram_id order) (db (snd (handle_usdt_payment env a w)))
     = round_float_sum 1000 (double_halfway_up env) (ub_balance r + a)
  /\ find (open_with_amount a) (usdtpay (db (snd (handle_usdt_payment env a w)))) = None.
Proof.
  intros Hone Hrow Hnew Hlo Hfit.
  pose proof (filter_singleton_find _ _ _ Hone) as Hfind.
  destruct (credited_fits (double_halfway_up env) (ub_balance r) a Hlo Hfit) as [Hc0 Hc1].
  assert (Hacc : credit_accepted env (up_telegram_id order) a (db w) = true).
  { unfold credit_accepted. rewrite Hrow. apply negb_true_iff, andb_false_iff. right.
    apply Z.ltb_ge. lia. }
  destruct (handle_usdt_payment_match env a w order Hfind Hacc Hnew) as [_ [_ Hdb]].
  conjs.
  - exact Hdb.
  - rewrite Hdb.
    transitivity (balance_of (up_telegram_id order)
                    (apply_write (AddBalance (up_telegram_id order) a (double_halfway_up env)
                                    (now w)) (db w))); [reflexivity|].
    rewrite (balance_of_add_balance (up_telegram_id order) a (double_halfway_up env)
               (now w) (db w) r Hrow).
    apply clip_fits. unfold credited in *. lia.
  - rewrite Hdb. unfold apply_writes; simpl.
    apply no_open_match_after_flip.
    intros x Hx Hopen. exact (filter_singleton_only _ _ _ _ Hone Hx Hopen).
Qed.

(** C7, as stated, fails when the credit would take the balance beyond the
    column: account 1001 holds 9999999.999 and a transfer of 10.0043 meets
    its open order.  The server refuses the UPDATE, the flip of the order is
    rolled back, and the world is as it was: nothing is credited, and the
    second processing finds the order open again. *)
Lemma credit_beyond_the_column_is_refused :
  filter (open_with_amount 10004300) (usdtpay (db full_account_world)) = [open_order]
  /\ handle_usdt_payment (shop true (fun _ => session_down) delivered) 10004300
       full_account_world
     = (Ok tt, full_account_world)
  /\ balance_of 1001
       (db (snd (handle_usdt_payment (shop true (fun _ => session_down) delivered) 10004300
                   (snd (handle_usdt_payment (shop true (fun _ => session_down) delivered)
                           10004300 full_account_world)))))
     = milli 9999999999
  /\ filter (open_with_amount 10004300)
       (usdtpay (db (snd (handle_usdt_payment (shop true (fun _ => session_down) delivered)
                            10004300 full_account_world))))
     = [open_order].
Proof. vm_compute. repeat split. Qed.

(** C7, amended.  When exactly one open order has the amount of an inbound
    transfer and the credit keeps the owner's balance within the column
    (the owner has a balance row and the order number is new to [okusdt]),
    processing the transfer twice credits the owner once.  The first
    processing commits the flip out of 'open', the credit and the [okusdt]
    row together.  The balance then held is the sum of the old balance and
    the amount at the scale of the column: a multiple of 0.001 within 0.0005
    of the sum, the sum rounded half up unless it lies exactly halfway, and
    the sum itself when it has three places; the [okusdt] row keeps the
    amount rounded to three places.  The second processing finds no open
    order with the amount and leaves the world as it was. *)
Theorem matched_transfer_credits_once (env : Env) (a : Decimal) (w : World)
    (order : usdtpay_row) (r : user_balance_row) :
  filter (open_with_amount a) (usdtpay (db w)) = [order] ->
  find_balance (up_telegram_id order) (user_balances (db w)) = Some r ->
  existsb (fun k => String.eqb (ok_out_trade_no k) (up_out_trade_no order)) (okusdt (db w))
  = false ->
  0 <= ub_balance r -> 0 <= a -> ub_balance r + a <= column_max 1000 ->
  let first := snd (handle_usdt_payment env a w) in
  let balance := balance_of (up_telegram_id order) (db first) in
  db first
  = apply_writes
      [SetUsdtpayStatus (up_out_trade_no order) 1;
       AddBalance (up_telegram_id order) a (double_halfway_up env) (now w);
       InsertOkusdt {| ok_out_trade_no := up_out_trade_no order;
                       ok_telegram_id := up_telegram_id order;
                       ok_created_at := now w; ok_amount := a |}]
      (db w)
  /\ balance = round_float_sum 1000 (double_halfway_up env) (ub_balance r + a)
  /\ balance mod 1000 = 0
  /\ 2 * Z.abs (balance - (ub_balance r + a)) <= 1000
  /\ (2 * ((ub_balance r + a) mod 1000) <> 1000 ->
      balance = round_half_up 1000 (ub_balance r + a))
  /\ ((ub_balance r + a) mod 1000 = 0 -> balance = ub_balance r + a)
  /\ okusdt (db first)
     = okusdt (db w)
       ++ [{| ok_out_trade_no := up_out_trade_no order;
              ok_telegram_id := up_telegram_id order;
              ok_created_at := now w; ok_amount := round_half_up 1000 a |}]
  /\ filter (open_with_amount a) (usdtpay (db first)) = []
  /\ handle_usdt_payment env a first = (Ok tt, first)
  /\ balance_of (up_telegram_id order) (db (snd (handle_usdt_payment env a first))) = balance.
Proof.
  intros Hone Hrow Hnew Hb Ha Hfit first balance.
  destruct (handle_usdt_payment_first env a w order r Hone Hrow Hnew ltac:(lia) Hfit)
    as [Hdb [Hbal Hgone]].
  fold first in Hdb, Hbal, Hgone. fold balance in Hbal.
  pose proof (handle_usdt_payment_no_match env a _ Hgone) as Hsecond.
  conjs.
  - exact Hdb.
  - exact Hbal.
  - rewrite Hbal. apply round_float_sum_step.
  - rewrite Hbal. apply round_float_sum_close. lia.
  - intros Hhalf. rewrite Hbal.
    destruct (round_float_sum_cases 1000 (double_halfway_up env) (ub_balance r + a)
                ltac:(lia)) as [[_ E] | [E _]]; [exact E | contradiction].
  - intros Hexact. rewrite Hbal. apply round_float_sum_exact; [lia | exact Hexact].
  - rewrite Hdb. unfold apply_writes; simpl. unfold stored_okusdt; simpl.
    rewrite to_column_fits by lia. reflexivity.
  - apply find_none_filter_nil, Hgone.
  - exact Hsecond.
  - rewrite Hsecond. reflexivity.
Qed.

(** A transfer of 10.0043 meets the one open order of that amount, twice:
    the balance of 50.000 becomes 60.004, and [okusdt] keeps 10.004. *)
Lemma matched_transfer_credits_once_witness :
  filter (open_with_amount 10004300) (usdtpay (db deposit_world)) = [open_order]
  /\ find_balance 1001 (user_balances (db deposit_world)) = Some (account (milli 50000))
  /\ existsb (fun k => String.eqb (ok_out_trade_no k) "usdt_1001_400")
       (okusdt (db deposit_world)) = false
  /\ milli 50000 + 10004300 <= column_max 1000
  /\ balance_of 1001
       (db (snd (handle_usdt_payment (shop true (fun _ => session_down) delivered)
                   10004300 deposit_world)))
     = 60004000
  /\ map ok_amount
       (okusdt (db (snd (handle_usdt_payment (shop true (fun _ => session_down) delivered)
                           10004300 deposit_world))))
     = [10004000]
  /\ balance_of 1001
       (db (snd (handle_usdt_payment (shop true (fun _ => session_down) delivered) 10004300
                   (snd (handle_usdt_payment (shop true (fun _ => session_down) delivered)
                           10004300 deposit_world)))))
     = 60004000.
Proof.
  assert (H1 : filter (open_with_amount 10004300) (usdtpay (db deposit_world)) = [open_order])
    by reflexivity.
  assert (H2 : find_balance (up_telegram_id open_order) (user_balances (db deposit_world))
               = Some (account (milli 50000))) by reflexivity.
  assert (H3 : existsb (fun k => String.eqb (ok_out_trade_no k) (up_out_trade_no open_order))
                 (okusdt (db deposit_world)) = false) by reflexivity.
  assert (H4 : 0 <= ub_balance (account (milli 50000))) by (vm_compute; discriminate).
  assert (H5 : 0 <= 10004300) by lia.
  assert (H6 : ub_balance (account (milli 50000)) + 10004300 <= column_max 1000)
    by (vm_compute; discriminate).
  destruct (matched_transfer_credits_once (shop true (fun _ => session_down) delivered)
              10004300 deposit_world open_order (account (milli 50000)) H1 H2 H3 H4 H5 H6)
    as [_ [Hb [_ [_ [_ [_ [Hok [_ [_ Hb2]]]]]]]]].
  conjs.
  - exact H1.
  - exact H2.
  - exact H3.
  - exact H6.
  - exact (eq_trans Hb eq_refl).
  - rewrite Hok. reflexivity.
  - exact (eq_trans Hb2 (eq_trans Hb eq_refl)).
Defined.

(** ** Unique deposit amounts (usdtpay.py, [generate_unique_usdt_amount]) *)

Lemma taken_iff_open_amount (v : Decimal) (rows : list usdtpay_row) :
  existsb (open_with_amount v) rows = true
  <-> In v (map up_amount (filter (fun r => up_status r =? 0) rows)).
Proof.
  induction rows as [|x rows IH]; simpl.
  - split; [discriminate | intros []].
  - unfold open_with_amount at 1.
    destruct (up_status x =? 0) eqn:Hs; simpl.
    + rewrite andb_true_r, orb_true_iff, IH, Z.eqb_eq. tauto.
    + rewrite andb_false_r. simpl. exact IH.
Qed.

Lemma first_false (P : nat -> bool) (n : nat) :
  (exists k, (k < n)%nat /\ P k = false) ->
  exists k, (k < n)%nat /\ P k = false /\ forall j, (j < k)%nat -> P j = true.
Proof.
  induction n as [|n IH]; intros [k [Hk HP]].
  - lia.
  - destruct (Nat.eq_dec k n) as [-> | Hne].
    + destruct (existsb (fun j => negb (P j)) (seq 0 n)) eqn:E.
      * apply existsb_exists in E. destruct E as [j [Hj HPj]].
        apply in_seq in Hj. apply negb_true_iff in HPj.
        destruct IH as [k' [Hk' [HP' Hmin]]]; [exists j; split; [lia | exact HPj]|].
        exists k'. repeat split; [lia | exact HP' | exact Hmin].
      * exists n. repeat split; [lia | exact HP |].
        intros j Hj.
        destruct (P j) eqn:HPj; [reflexivity|].
        assert (Hex : existsb (fun j => negb (P j)) (seq 0 n) = true).
        { apply existsb_exists. exists j. split; [apply in_seq; lia | rewrite HPj; reflexivity]. }
        congruence.
    + destruct IH as [k' [Hk' [HP' Hmin]]]; [exists k; split; [lia | exact HP]|].
      exists k'. repeat split; [lia | exact HP' | exact Hmin].
Qed.

(** The loop returns at the first draw whose rounded sum is free. *)
Lemma generate_unique_usdt_amount_first_free (env : Env) (base_amount : Q) (fuel : nat) :
  forall (w : World) (k : nat),
    (k < fuel)%nat ->
    (forall j, (j < k)%nat ->
       existsb (open_with_amount (round4 (to_float (base_amount + uniform env (draws w + j)))))
         (usdtpay (db w)) = true) ->
    existsb (open_with_amount (round4 (to_float (base_amount + uniform env (draws w + k)))))
      (usdtpay (db w)) = false ->
    generate_unique_usdt_amount env fuel base_amount w
    = (Ok (Some (round4 (to_float (base_amount + uniform env (draws w + k))))),
       set_draws (draws w + S k) w).
Proof.
  induction fuel as [|fuel IH]; intros w k Hk Hbefore Hfree.
  - lia.
  - simpl generate_unique_usdt_amount.
    erewrite bind_ok by reflexivity.
    erewrite bind_ok by (apply (get_db_query env
      (fun d => existsb (open_with_amount
                           (round4 (to_float (base_amount + uniform env (draws w)))))
                  (usdtpay d)))).
    cbn [db set_draws].
    destruct k as [|k].
    + rewrite Nat.add_0_r in Hfree. rewrite Hfree.
      rewrite Nat.add_0_r, Nat.add_1_r. reflexivity.
    + assert (H0 : existsb (open_with_amount
                              (round4 (to_float (base_amount + uniform env (draws w)))))
                     (usdtpay (db w)) = true).
      { specialize (Hbefore 0%nat). rewrite Nat.add_0_r in Hbefore. apply Hbefore. lia. }
      rewrite H0.
      rewrite (IH (set_draws (S (draws w)) w) k).
      * cbn [db draws set_draws].
        replace (S (draws w) + k)%nat with (draws w + S k)%nat by lia.
        replace (S (draws w) + S k)%nat with (draws w + S (S k))%nat by lia.
        destruct w; reflexivity.
      * lia.
      * intros j Hj. cbn [db draws set_draws].
        replace (S (draws w) + j)%nat with (draws w + S j)%nat by lia.
        apply Hbefore. lia.
      * cbn [db draws set_draws].
        replace (S (draws w) + k)%nat with (draws w + S k)%nat by lia.
        exact Hfree.
Qed.

(** Saving an order leaves the open amounts as they were (the number is
    taken, or the server refuses the amount) or adds the amount at the scale
    of the column, which the server has then accepted. *)
Lemma save_usdt_order_to_db_open_amounts (env : Env) (telegram_id : Z) (no : string)
    (created_at expires_at : Z) (v : Decimal) (w : World) :
  open_amounts (db (snd (save_usdt_order_to_db env telegram_id no created_at expires_at v w)))
  = open_amounts (db w)
  \/ (open_amounts
        (db (snd (save_usdt_order_to_db env telegram_id no created_at expires_at v w)))
      = open_amounts (db w) ++ [to_column 100 v]
      /\ strict_sql_mode env && (column_max 100 <? Z.abs (round_half_up 100 v)) = false).
Proof.
  unfold save_usdt_order_to_db.
  destruct (strict_sql_mode env && (column_max 100 <? Z.abs (round_half_up 100 v))) eqn:R.
  - left. erewrite get_db_raise.
    2:{ erewrite bind_ok by reflexivity.
        erewrite bind_raise; [reflexivity|]. unfold check_range. rewrite R. reflexivity. }
    reflexivity.
  - destruct (existsb (fun r => String.eqb (up_out_trade_no r) no) (usdtpay (db w))) eqn:E.
    + left. erewrite get_db_raise.
      2:{ erewrite bind_ok by reflexivity.
          erewrite bind_ok by (unfold check_range; rewrite R; reflexivity).
          unfold view; simpl. rewrite E. reflexivity. }
      reflexivity.
    + right. split; [|reflexivity]. erewrite get_db_ok.
      2:{ erewrite bind_ok by reflexivity.
          erewrite bind_ok by (unfold check_range; rewrite R; reflexivity).
          unfold view; simpl. rewrite E.
          erewrite bind_ok by reflexivity. reflexivity. }
      destruct w as [d tx t n s u dr al]; simpl.
      destruct (conn_autocommit env); simpl; unfold view, open_amounts; simpl;
        rewrite filter_app, map_app; reflexivity.
Qed.

(** The amount returned lies close to the exact sum: rounding to four places
    moves the float sum by at most 0.00005, and the float sum differs from
    the exact one by at most its [2^53]-th part. *)
Lemma round4_to_float_close (x : Q) :
  (0 <= x)%Q ->
  (x * (1 - float_error) - (1 # 20000) <= round4 (to_float x) # 1000000)%Q
  /\ (round4 (to_float x) # 1000000 <= x * (1 + float_error) + (1 # 20000))%Q.
Proof.
  intros Hx.
  destruct (to_float_close x Hx) as [F1 F2].
  destruct (round4_close (to_float x)) as [R1 R2].
  unfold float_error. split; lra.
Qed.

(** C8, as stated, fails for a request of 1e15: the float sum of 1e15 and
    the offset is 1e15 again, and the amount handed out is the requested
    amount itself, where the requested amount plus the offset of 0.001,
    rounded to four places, is 1000000000000000.001. *)
Lemma generate_unique_usdt_amount_loses_the_offset :
  fst (generate_unique_usdt_amount (shop true (fun _ => session_down) delivered)
         5 (1000000000000000 # 1) taken_world)
  = Ok (Some (1000000000000000 * 1000000))
  /\ (1 # 1000 <= uniform (shop true (fun _ => session_down) delivered) 0)%Q
  /\ (uniform (shop true (fun _ => session_down) delivered) 0 <= 1 # 100)%Q
  /\ round4 ((1000000000000000 # 1)
             + uniform (shop true (fun _ => session_down) delivered) 0)
     = 1000000000000000 * 1000000 + 1000.
Proof. vm_compute. repeat split; discriminate. Qed.

(** C8, amended.  For a requested amount between 0 and 1000000 (the amount
    column holds 999999.9999 at most), with draws between the floats 0.001
    and 0.01 and some draw within the fuel whose rounded sum is free,
    [generate_unique_usdt_amount] returns the float sum of the requested
    amount and one of the drawn offsets, rounded to four places: a multiple
    of 0.0001 that differs from the exact sum by no more than 0.00005 for
    the rounding and 0.000000000125 for the float.  The amount returned
    differs from the amount of every open order, and the tables are
    unchanged.  When the open orders had pairwise distinct amounts, they
    still have after the order with this amount is saved, provided the
    server is in strict mode or the amount fits the column. *)
Theorem generate_unique_usdt_amount_is_free (env : Env) (fuel : nat) (base_amount : Q)
    (w : World) :
  (0 <= base_amount)%Q -> (base_amount <= 1000000 # 1)%Q ->
  (forall n, (to_float (1 # 1000) <= uniform env n)%Q
             /\ (uniform env n <= to_float (1 # 100))%Q) ->
  (exists k, (k < fuel)%nat
             /\ existsb (open_with_amount
                           (round4 (to_float (base_amount + uniform env (draws w + k)))))
                  (usdtpay (db w)) = false) ->
  exists (offset : Q) (unique_amount : Decimal),
    fst (generate_unique_usdt_amount env fuel base_amount w) = Ok (Some unique_amount)
    /\ (to_float (1 # 1000) <= offset)%Q /\ (offset <= to_float (1 # 100))%Q
    /\ unique_amount = round4 (to_float (base_amount + offset))
    /\ unique_amount mod 100 = 0
    /\ (base_amount + offset - (1 # 20000) - (1 # 8000000000) <= unique_amount # 1000000)%Q
    /\ (unique_amount # 1000000 <= base_amount + offset + (1 # 20000) + (1 # 8000000000))%Q
    /\ (forall r, In r (usdtpay (db w)) -> up_status r = 0 -> up_amount r <> unique_amount)
    /\ db (snd (generate_unique_usdt_amount env fuel base_amount w)) = db w
    /\ (strict_sql_mode env = true \/ unique_amount <= column_max 100 ->
        NoDup (open_amounts (db w)) ->
        forall user_id out_trade_no,
          NoDup (open_amounts
                   (db (snd (create_usdt_order env fuel user_id out_trade_no base_amount w))))).
Proof.
  intros Hbase Hmax Hrange Hfree.
  destruct (first_false
              (fun k => existsb (open_with_amount
                                   (round4 (to_float (base_amount + uniform env (draws w + k)))))
                          (usdtpay (db w))) fuel Hfree) as [k [Hk [Hk0 Hmin]]].
  pose proof (generate_unique_usdt_amount_first_free env base_amount fuel w k Hk Hmin Hk0)
    as Hgen.
  destruct (Hrange (draws w + k)%nat) as [Hlo Hhi].
  assert (Hlo' : (1 # 1000 <= uniform env (draws w + k))%Q).
  { apply (Qle_trans _ (to_float (1 # 1000))); [vm_compute; discriminate | exact Hlo]. }
  assert (Hhi' : (uniform env (draws w + k) <= 100001 # 10000000)%Q).
  { apply (Qle_trans _ (to_float (1 # 100))); [exact Hhi | vm_compute; discriminate]. }
  set (o := uniform env (draws w + k)) in *.
  assert (Hsum : (0 <= base_amount + o)%Q) by lra.
  destruct (round4_to_float_close (base_amount + o) Hsum) as [R1 R2].
  set (v := round4 (to_float (base_amount + o))) in *.
  unfold float_error in R1, R2.
  assert (C1 : (base_amount + o - (1 # 20000) - (1 # 8000000000) <= v # 1000000)%Q) by lra.
  assert (C2 : (v # 1000000 <= base_amount + o + (1 # 20000) + (1 # 8000000000))%Q) by lra.
  assert (Hv0 : 0 <= v).
  { assert (H : (0 <= v # 1000000)%Q) by lra.
    unfold Qle in H. cbn [Qnum Qden] in H. lia. }
  assert (Hstep : v mod 100 = 0) by apply round4_step.
  assert (Hnot : ~ In v (open_amounts (db w))).
  { intros Hin. apply taken_iff_open_amount in Hin. congruence. }
  exists o, v.
  rewrite Hgen. simpl fst. simpl snd.
  split; [reflexivity|].
  split; [exact Hlo|]. split; [exact Hhi|].
  split; [reflexivity|].
  split; [exact Hstep|].
  split; [exact C1|]. split; [exact C2|].
  split.
  { intros r Hr Hs Heq. apply Hnot. unfold open_amounts.
    apply in_map_iff. exists r. split; [exact Heq|].
    apply filter_In. split; [exact Hr | apply Z.eqb_eq; exact Hs]. }
  split; [destruct w; reflexivity|].
  intros Hfits Hnodup user_id out_trade_no.
  unfold create_usdt_order.
  rewrite (bind_ok _ _ _ _ _ Hgen).
  erewrite bind_ok by reflexivity.
  assert (Hdb : open_amounts (db (set_draws (draws w + S k) w)) = open_amounts (db w))
    by (destruct w; reflexivity).
  unfold bind.
  pose proof (save_usdt_order_to_db_open_amounts env user_id out_trade_no
                (now (set_draws (draws w + S k) w))
                (now (set_draws (draws w + S k) w) + 20 * 60) v
                (set_draws (draws w + S k) w)) as Hsave.
  rewrite Hdb in Hsave.
  assert (Hround : round_half_up 100 v = v) by (apply round_half_up_exact; [lia | exact Hstep]).
  assert (Hkept : forall db',
            open_amounts db' = open_amounts (db w) ++ [to_column 100 v]
            /\ strict_sql_mode env && (column_max 100 <? Z.abs (round_half_up 100 v)) = false ->
            NoDup (open_amounts db')).
  { intros db' [Hs Hacc]. rewrite Hs.
    assert (Hin : v <= column_max 100).
    { destruct Hfits as [Hstrict | Hin]; [|exact Hin].
      rewrite Hstrict, Hround in Hacc. cbn [andb] in Hacc. apply Z.ltb_ge in Hacc. lia. }
    unfold to_column. rewrite Hround, clip_fits by lia.
    apply NoDup_app; [exact Hnodup | repeat constructor; intros [] |].
    intros x Hx [Hv | []]. subst x. exact (Hnot Hx). }
  destruct (save_usdt_order_to_db env user_id out_trade_no
              (now (set_draws (draws w + S k) w))
              (now (set_draws (draws w + S k) w) + 20 * 60) v
              (set_draws (draws w + S k) w)) as [[[]|e] w2];
    cbn [snd fst] in Hsave |- *; unfold ret; cbn [snd fst];
    (destruct Hsave as [Hs | Hs]; [rewrite Hs; exact Hnodup | exact (Hkept _ Hs)]).
Qed.

Lemma shop_uniform_range (autocommit : bool) (provider : nat -> provider_reply)
    (tg : nat -> option (string * option Z)) (n : nat) :
  (to_float (1 # 1000) <= uniform (shop autocommit provider tg) n)%Q
  /\ (uniform (shop autocommit provider tg) n <= to_float (1 # 100))%Q.
Proof.
  cbv [shop uniform].
  pose proof (Nat.mod_upper_bound n 9 ltac:(lia)) as Hn.
  destruct (n mod 9)%nat as [|[|[|[|[|[|[|[|[|m]]]]]]]]]; try lia;
    (split; vm_compute; discriminate).
Qed.

(** The first draw lands on the taken amount 10.0010, the second is free:
    the amount handed out is 10.0020. *)
Lemma generate_unique_usdt_amount_is_free_witness :
  (0 <= 10 # 1)%Q /\ (10 # 1 <= 1000000 # 1)%Q
  /\ (forall n, (to_float (1 # 1000) <= uniform (shop true (fun _ => session_down) delivered) n)%Q
                /\ (uniform (shop true (fun _ => session_down) delivered) n
                    <= to_float (1 # 100))%Q)
  /\ existsb (open_with_amount
                (round4 (to_float
                           ((10 # 1) + uniform (shop true (fun _ => session_down) delivered) 1))))
       (usdtpay (db taken_world)) = false
  /\ fst (generate_unique_usdt_amount (shop true (fun _ => session_down) delivered)
            5 (10 # 1) taken_world) = Ok (Some 10002000)
  /\ exists (offset : Q) (unique_amount : Decimal),
       fst (generate_unique_usdt_amount (shop true (fun _ => session_down) delivered)
              5 (10 # 1) taken_world) = Ok (Some unique_amount)
       /\ (to_float (1 # 1000) <= offset)%Q /\ (offset <= to_float (1 # 100))%Q
       /\ unique_amount = round4 (to_float ((10 # 1) + offset))
       /\ (forall r, In r (usdtpay (db taken_world)) ->
                     up_status r = 0 -> up_amount r <> unique_amount).
Proof.
  assert (Hbase : (0 <= 10 # 1)%Q) by (vm_compute; discriminate).
  assert (Hmax : (10 # 1 <= 1000000 # 1)%Q) by (vm_compute; discriminate).
  assert (Hrange : forall n,
             (to_float (1 # 1000) <= uniform (shop true (fun _ => session_down) delivered) n)%Q
             /\ (uniform (shop true (fun _ => session_down) delivered) n
                 <= to_float (1 # 100))%Q) by (intros n; apply shop_uniform_range).
  assert (Hone : existsb (open_with_amount
                   (round4 (to_float
                      ((10 # 1) + uniform (shop true (fun _ => session_down) delivered) 1))))
                   (usdtpay (db taken_world)) = false) by (vm_compute; reflexivity).
  assert (Hfree : exists k, (k < 5)%nat
             /\ existsb (open_with_amount
                  (round4 (to_float
                     ((10 # 1) + uniform (shop true (fun _ => session_down) delivered)
                                   (draws taken_world + k)))))
                  (usdtpay (db taken_world)) = false).
  { exists 1%nat. split; [lia | exact Hone]. }
  destruct (generate_unique_usdt_amount_is_free
              (shop true (fun _ => session_down) delivered) 5 (10 # 1) taken_world
              Hbase Hmax Hrange Hfree) as [offset [v [H1 [H2 [H3 [H4 [_ [_ [_ [H5 _]]]]]]]]]].
  split; [exact Hbase|]. split; [exact Hmax|]. split; [exact Hrange|]. split; [exact Hone|].
  split; [vm_compute; reflexivity|].
  exists offset, v. repeat split; assumption.
Defined.

Example generate_unique_usdt_amount_rerolls :
  fst (generate_unique_usdt_amount (shop true (fun _ => session_down) delivered)
         5 (10 # 1) taken_world) = Ok (Some 10002000)
  /\ draws (snd (generate_unique_usdt_amount (shop true (fun _ => session_down) delivered)
                   5 (10 # 1) taken_world)) = 2%nat.
Proof. vm_compute. split; reflexivity. Qed.

(** ** The expiry sweep (usdtpay.py, [cleanup_expired_orders]) *)


(** The notification loop for one order ends without raising, touches no
    table, lets the clock only advance and makes at most [left] attempts. *)
Lemma notify_expired_spec (env : Env) (left : nat) (telegram_id : Z) :
  forall w : World,
    fst (notify_expired env left telegram_id w) = Ok tt
    /\ db (snd (notify_expired env left telegram_id w)) = db w
    /\ txn (snd (notify_expired env left telegram_id w)) = txn w
    /\ now w <= now (snd (notify_expired env left telegram_id w))
    /\ (List.length (sent (snd (notify_expired env left telegram_id w)))
        <= List.length (sent w) + left)%nat.
Proof.
  induction left as [|k IH]; intros w.
  - simpl. conjs; try reflexivity; lia.
  - simpl notify_expired. unfold bind, try_except_telegram, send_message.
    destruct (telegram env (List.length (sent w))) as [[text code]|] eqn:Htg.
    + destruct (is_blocked text code).
      * destruct w; simpl. rewrite length_app; simpl. conjs; try reflexivity; lia.
      * destruct (0 <? k)%nat.
        -- unfold sleep, ret.
           match goal with
           | |- context [notify_expired env k telegram_id ?w1] =>
               destruct (IH w1) as [H1 [H2 [H3 [H4 H5]]]];
               destruct (notify_expired env k telegram_id w1) as [r w2]
           end.
           destruct w; simpl in *. rewrite length_app in H5; simpl in H5.
           conjs; try assumption; try reflexivity; lia.
        -- unfold ret.
           match goal with
           | |- context [notify_expired env k telegram_id ?w1] =>
               destruct (IH w1) as [H1 [H2 [H3 [H4 H5]]]];
               destruct (notify_expired env k telegram_id w1) as [r w2]
           end.
           destruct w; simpl in *. rewrite length_app in H5; simpl in H5.
           conjs; try assumption; try reflexivity; lia.
    + destruct w; simpl. rewrite length_app; simpl. conjs; try reflexivity; lia.
Qed.

(** A blocked or forbidden failure ends the loop at once: one attempt, no
    pause, no retry. *)
Lemma notify_expired_blocked (env : Env) (left : nat) (telegram_id : Z) (w : World)
    (text : string) (code : option Z) :
  telegram env (List.length (sent w)) = Some (text, code) ->
  is_blocked text code = true ->
  notify_expired env (S left) telegram_id w
  = (Ok tt, set_sent (sent w ++ [(telegram_id, false)]) w).
Proof.
  intros Htg Hb. simpl notify_expired.
  unfold bind, try_except_telegram, send_message. rewrite Htg, Hb. reflexivity.
Qed.

Lemma sweep_cons (env : Env) (order : usdtpay_row) (rest : list usdtpay_row)
    (to_delete : list string) :
  sweep env (order :: rest) to_delete
  = if negb (up_status order =? 0)
    then sweep env rest to_delete
    else
      match up_expires_at order with
      | None => sweep env rest to_delete
      | Some expires_at =>
          now_local <- CURRENT_TIMESTAMP ;;
          if expires_at <? now_local
          then
            notify_expired env 3 (up_telegram_id order) ;;
            sweep env rest (to_delete ++ [up_out_trade_no order])
          else sweep env rest to_delete
      end.
Proof. reflexivity. Qed.

(** The loop over the orders: which numbers it collects. *)
Lemma sweep_spec (env : Env) (orders : list usdtpay_row) :
  forall (acc : list string) (w : World),
  exists (del : list string) (w' : World),
    sweep env orders acc w = (Ok (acc ++ del), w')
    /\ db w' = db w /\ txn w' = txn w /\ now w <= now w'
    /\ (forall o e, In o orders -> up_status o = 0 -> up_expires_at o = Some e ->
                    e < now w -> In (up_out_trade_no o) del)
    /\ (forall no, In no del ->
          exists o e, In o orders /\ up_out_trade_no o = no /\ up_status o = 0
                      /\ up_expires_at o = Some e /\ e < now w').
Proof.
  induction orders as [|o rest IH]; intros acc w.
  - exists [], w. simpl. rewrite app_nil_r.
    conjs; try reflexivity; try lia; try (intros ? ? []); try (intros ? []).
  - rewrite sweep_cons.
    destruct (up_status o =? 0) eqn:Hs; cbn [negb].
    + apply Z.eqb_eq in Hs.
      destruct (up_expires_at o) as [e0|] eqn:He.
      * erewrite bind_ok by reflexivity.
        destruct (e0 <? now w) eqn:Hlt.
        -- apply Z.ltb_lt in Hlt.
           destruct (notify_expired_spec env 3 (up_telegram_id o) w)
             as [N1 [N2 [N3 [N4 _]]]].
           destruct (notify_expired env 3 (up_telegram_id o) w) as [r w1] eqn:Hn.
           simpl in N1, N2, N3, N4. subst r.
           erewrite bind_ok by exact Hn.
           destruct (IH (acc ++ [up_out_trade_no o]) w1)
             as [del [w' [E [D [T [C [Ha Hb]]]]]]].
           exists (up_out_trade_no o :: del), w'.
           rewrite E. rewrite <- app_assoc. simpl.
           conjs; try congruence; try lia.
           ++ intros o' e [-> | Hin] Hs' He' Hlt'.
              ** left; reflexivity.
              ** right. apply (Ha o' e Hin Hs' He'). lia.
           ++ intros no [<- | Hin].
              ** exists o, e0. conjs; try assumption; try reflexivity; [left; reflexivity | lia].
              ** destruct (Hb no Hin) as [o' [e [I1 [I2 [I3 [I4 I5]]]]]].
                 exists o', e. conjs; try assumption. right; exact I1.
        -- apply Z.ltb_ge in Hlt.
           destruct (IH acc w) as [del [w' [E [D [T [C [Ha Hb]]]]]]].
           exists del, w'. conjs; try assumption.
           ++ intros o' e [-> | Hin] Hs' He' Hlt'.
              ** rewrite He in He'. inversion He'; subst. lia.
              ** apply (Ha o' e Hin Hs' He' Hlt').
           ++ intros no Hin.
              destruct (Hb no Hin) as [o' [e [I1 [I2 [I3 [I4 I5]]]]]].
              exists o', e. conjs; try assumption. right; exact I1.
      * destruct (IH acc w) as [del [w' [E [D [T [C [Ha Hb]]]]]]].
        exists del, w'. conjs; try assumption.
        -- intros o' e [-> | Hin] Hs' He' Hlt'.
           ++ rewrite He in He'. discriminate.
           ++ apply (Ha o' e Hin Hs' He' Hlt').
        -- intros no Hin.
           destruct (Hb no Hin) as [o' [e [I1 [I2 [I3 [I4 I5]]]]]].
           exists o', e. conjs; try assumption. right; exact I1.
    + apply Z.eqb_neq in Hs.
      destruct (IH acc w) as [del [w' [E [D [T [C [Ha Hb]]]]]]].
      exists del, w'. conjs; try assumption.
      * intros o' e [-> | Hin] Hs' He' Hlt'.
        -- contradiction.
        -- apply (Ha o' e Hin Hs' He' Hlt').
      * intros no Hin.
        destruct (Hb no Hin) as [o' [e [I1 [I2 [I3 [I4 I5]]]]]].
        exists o', e. conjs; try assumption. right; exact I1.
Qed.

(** The test of a blocked user, spelled out. *)
Lemma is_blocked_iff (text : string) (code : option Z) :
  is_blocked text code = true
  <-> (code = Some 403 \/ contains "forbidden" (lower text) = true
       \/ contains "bot was blocked" (lower text) = true).
Proof.
  unfold is_blocked. rewrite !orb_true_iff. destruct code as [c|].
  - rewrite Z.eqb_eq. split.
    + intros [[H | H] | H]; [right; left; exact H | right; right; exact H | left; congruence].
    + intros [H | [H | H]]; [right; congruence | left; left; exact H | left; right; exact H].
  - split.
    + intros [[H | H] | H]; [right; left; exact H | right; right; exact H | discriminate H].
    + intros [H | [H | H]]; [discriminate H | left; left; exact H | left; right; exact H].
Qed.

(** What the notification loop for one order sends: messages to the owner
    only, at most [left] of them and at least one; one when the first
    attempt is delivered or meets a block; [left] when every attempt fails
    otherwise. *)
Lemma notify_expired_attempts (env : Env) (telegram_id : Z) (left : nat) :
  forall w : World,
  exists attempts : list (Z * bool),
    sent (snd (notify_expired env left telegram_id w)) = sent w ++ attempts
    /\ (forall x, In x attempts -> fst x = telegram_id)
    /\ (List.length attempts <= left)%nat
    /\ ((1 <= left)%nat -> (1 <= List.length attempts)%nat)
    /\ ((forall n text code, telegram env n = Some (text, code) ->
                             is_blocked text code = true) ->
        (List.length attempts <= 1)%nat)
    /\ ((forall n, exists text code,
           telegram env n = Some (text, code) /\ is_blocked text code = false) ->
        List.length attempts = left /\ forall x, In x attempts -> snd x = false)
    /\ ((forall n, telegram env n = None) ->
        (List.length attempts <= 1)%nat /\ forall x, In x attempts -> snd x = true).
Proof.
  induction left as [|k IH]; intros w.
  - exists []. simpl. rewrite app_nil_r.
    conjs; try reflexivity; try lia; try (intros ? []);
      (intros _; split; [lia | intros ? []]).
  - simpl notify_expired. unfold bind, try_except_telegram, send_message.
    destruct (telegram env (List.length (sent w))) as [[text code]|] eqn:Htg.
    + destruct (is_blocked text code) eqn:Hb.
      * exists [(telegram_id, false)]. destruct w; simpl. conjs.
        -- reflexivity.
        -- intros x [<- | []]. reflexivity.
        -- lia.
        -- intros _. lia.
        -- intros _. lia.
        -- intros Hfail. destruct (Hfail (List.length sent0)) as [t [c [E1 E2]]].
           simpl in Htg. rewrite Htg in E1. inversion E1; subst. congruence.
        -- intros Hdel. simpl in Htg. rewrite Hdel in Htg. discriminate Htg.
      * assert (Hrest : exists w1,
                  sent w1 = sent w ++ [(telegram_id, false)]
                  /\ forall A (f : M A),
                       ((if (0 <? k)%nat then sleep 5 else ret tt) ;; ret false)
                         (set_sent (sent w ++ [(telegram_id, false)]) w)
                       = (Ok false, w1)).
        { destruct (0 <? k)%nat; eexists; (split; [|intros A f; reflexivity]); reflexivity. }
        destruct Hrest as [w1 [Hs1 Hrun]].
        specialize (Hrun unit (ret tt)). unfold bind in Hrun. rewrite Hrun.
        destruct (IH w1) as [att [H1 [H2 [H3 [H4 [H5 [H6 H7]]]]]]].
        exists ((telegram_id, false) :: att).
        rewrite H1, Hs1, <- app_assoc. simpl. conjs.
        -- reflexivity.
        -- intros x [<- | Hx]; [reflexivity | exact (H2 x Hx)].
        -- lia.
        -- intros _. lia.
        -- intros Hblock. specialize (Hblock _ _ _ Htg). congruence.
        -- intros Hfail. destruct (H6 Hfail) as [Hlen Hall]. split; [lia|].
           intros x [<- | Hx]; [reflexivity | exact (Hall x Hx)].
        -- intros Hdel. rewrite Hdel in Htg. discriminate Htg.
    + exists [(telegram_id, true)]. destruct w; simpl. conjs.
      * reflexivity.
      * intros x [<- | []]. reflexivity.
      * lia.
      * intros _. lia.
      * intros _. lia.
      * intros Hfail. destruct (Hfail (List.length sent0)) as [t [c [E1 E2]]].
        simpl in Htg. rewrite Htg in E1. discriminate E1.
      * intros _. split; [lia|]. intros x [<- | []]. reflexivity.
Qed.

(** What the loop over the orders sends, for the order numbers [del] that it
    collects: between one and three messages for each, to the owners of the
    collected orders; one for each when every failure is a block or every
    message is delivered; three for each when every attempt fails otherwise.
    Distinct order numbers are collected once. *)
Lemma sweep_attempts (env : Env) (orders : list usdtpay_row) :
  forall (acc del : list string) (w w' : World),
    sweep env orders acc w = (Ok (acc ++ del), w') ->
    exists attempts : list (Z * bool),
      sent w' = sent w ++ attempts
      /\ (List.length del <= List.length attempts <= 3 * List.length del)%nat
      /\ (forall x, In x attempts ->
            exists o, In o orders /\ In (up_out_trade_no o) del /\ fst x = up_telegram_id o)
      /\ ((forall n text code, telegram env n = Some (text, code) ->
                               is_blocked text code = true) ->
          List.length attempts = List.length del)
      /\ ((forall n, exists text code,
             telegram env n = Some (text, code) /\ is_blocked text code = false) ->
          List.length attempts = (3 * List.length del)%nat
          /\ forall x, In x attempts -> snd x = false)
      /\ ((forall n, telegram env n = None) ->
          List.length attempts = List.length del /\ forall x, In x attempts -> snd x = true)
      /\ (forall no, In no del -> In no (map up_out_trade_no orders))
      /\ (NoDup (map up_out_trade_no orders) -> NoDup del).
Proof.
  induction orders as [|o rest IH]; intros acc del w w' Hrun.
  - simpl in Hrun. unfold ret in Hrun. inversion Hrun as [[Hacc Hw]].
    assert (del = []).
    { rewrite <- (app_nil_r acc) in Hacc at 1. apply app_inv_head in Hacc. congruence. }
    subst del. exists []. rewrite app_nil_r. simpl.
    conjs; try reflexivity; try lia; try (intros ? []);
      try (intros _; split; [reflexivity | intros ? []]); try (intros _; constructor).
  - assert (Hskip : sweep env rest acc w = (Ok (acc ++ del), w') ->
              exists attempts : list (Z * bool),
                sent w' = sent w ++ attempts
                /\ (List.length del <= List.length attempts <= 3 * List.length del)%nat
                /\ (forall x, In x attempts ->
                      exists o', In o' (o :: rest) /\ In (up_out_trade_no o') del
                                 /\ fst x = up_telegram_id o')
                /\ ((forall n text code, telegram env n = Some (text, code) ->
                                         is_blocked text code = true) ->
                    List.length attempts = List.length del)
                /\ ((forall n, exists text code,
                       telegram env n = Some (text, code) /\ is_blocked text code = false) ->
                    List.length attempts = (3 * List.length del)%nat
                    /\ forall x, In x attempts -> snd x = false)
                /\ ((forall n, telegram env n = None) ->
                    List.length attempts = List.length del
                    /\ forall x, In x attempts -> snd x = true)
                /\ (forall no, In no del -> In no (map up_out_trade_no (o :: rest)))
                /\ (NoDup (map up_out_trade_no (o :: rest)) -> NoDup del)).
    { intros Hrest.
      destruct (IH acc del w w' Hrest) as [att [S1 [S2 [S3 [S4 [S5 [S6 [S7 S8]]]]]]]].
      exists att. conjs; try assumption; try lia.
      - intros x Hx. destruct (S3 x Hx) as [o' [I1 [I2 I3]]].
        exists o'. conjs; [right; exact I1 | exact I2 | exact I3].
      - intros no Hno. right. exact (S7 no Hno).
      - intros Hnd. apply S8. inversion Hnd; assumption. }
    rewrite sweep_cons in Hrun.
    destruct (up_status o =? 0) eqn:Hs; cbn [negb] in Hrun; [|exact (Hskip Hrun)].
    destruct (up_expires_at o) as [e0|] eqn:He; [|exact (Hskip Hrun)].
    erewrite bind_ok in Hrun by reflexivity.
    destruct (e0 <? now w) eqn:Hlt; [|exact (Hskip Hrun)].
    clear Hskip.
    destruct (notify_expired_spec env 3 (up_telegram_id o) w) as [N1 _].
    destruct (notify_expired_attempts env (up_telegram_id o) 3 w)
      as [att0 [A1 [A2 [A3 [A4 [A5 [A6 A7]]]]]]].
    destruct (notify_expired env 3 (up_telegram_id o) w) as [r w1] eqn:Hn.
    simpl in N1, A1. subst r.
    erewrite bind_ok in Hrun by exact Hn.
    destruct (sweep_spec env rest (acc ++ [up_out_trade_no o]) w1)
      as [del' [w'' [E _]]].
    assert (Hdel : del = up_out_trade_no o :: del').
    { rewrite E in Hrun. inversion Hrun as [[Hacc Hw]].
      rewrite <- app_assoc in Hacc. apply app_inv_head in Hacc. simpl in Hacc.
      symmetry. exact Hacc. }
    subst del.
    assert (Hrest : sweep env rest (acc ++ [up_out_trade_no o]) w1
                    = (Ok ((acc ++ [up_out_trade_no o]) ++ del'), w')).
    { rewrite Hrun. rewrite <- app_assoc. reflexivity. }
    destruct (IH _ del' w1 w' Hrest) as [att [S1 [S2 [S3 [S4 [S5 [S6 [S7 S8]]]]]]]].
    exists (att0 ++ att).
    rewrite S1, A1, <- app_assoc, length_app. cbn [List.length].
    specialize (A4 ltac:(lia)).
    conjs; try lia.
    + reflexivity.
    + intros x Hx. apply in_app_or in Hx. destruct Hx as [Hx | Hx].
      * exists o. conjs; [left; reflexivity | left; reflexivity | exact (A2 x Hx)].
      * destruct (S3 x Hx) as [o' [I1 [I2 I3]]].
        exists o'. conjs; [right; exact I1 | right; exact I2 | exact I3].
    + intros Hblock. specialize (A5 Hblock). specialize (S4 Hblock). lia.
    + intros Hfail. destruct (A6 Hfail) as [L0 F0]. destruct (S5 Hfail) as [L1 F1].
      split; [lia|].
      intros x Hx. apply in_app_or in Hx. destruct Hx as [Hx | Hx]; [exact (F0 x Hx) | exact (F1 x Hx)].
    + intros Hdel. destruct (A7 Hdel) as [L0 F0]. destruct (S6 Hdel) as [L1 F1].
      split; [lia|].
      intros x Hx. apply in_app_or in Hx. destruct Hx as [Hx | Hx]; [exact (F0 x Hx) | exact (F1 x Hx)].
    + intros no [<- | Hno]; [left; reflexivity | right; exact (S7 no Hno)].
    + intros Hnd. simpl in Hnd. inversion Hnd as [|? ? Hnotin Hnd']; subst.
      constructor; [|exact (S8 Hnd')].
      intros Hin. apply Hnotin. exact (S7 _ Hin).
Qed.

Lemma deletes_spec (del : list string) :
  forall d : DB,
    (forall r, In r (usdtpay (apply_writes (map DeleteUsdtpay del) d))
               <-> In r (usdtpay d) /\ ~ In (up_out_trade_no r) del)
    /\ user_balances (apply_writes (map DeleteUsdtpay del) d) = user_balances d
    /\ okusdt (apply_writes (map DeleteUsdtpay del) d) = okusdt d
    /\ purchase_orders (apply_writes (map DeleteUsdtpay del) d) = purchase_orders d
    /\ completed_orders (apply_writes (map DeleteUsdtpay del) d) = completed_orders d
    /\ premium_queue (apply_writes (map DeleteUsdtpay del) d) = premium_queue d.
Proof.
  induction del as [|no del IH]; intros d.
  - simpl. conjs; try reflexivity. intros r. tauto.
  - change (apply_writes (map DeleteUsdtpay (no :: del)) d)
      with (apply_writes (map DeleteUsdtpay del) (apply_write (DeleteUsdtpay no) d)).
    destruct (IH (apply_write (DeleteUsdtpay no) d)) as [Hin [H1 [H2 [H3 [H4 H5]]]]].
    split; [|conjs; [rewrite H1 | rewrite H2 | rewrite H3 | rewrite H4 | rewrite H5];
             reflexivity].
    intros r. rewrite Hin. simpl usdtpay. unfold delete_usdtpay.
    rewrite filter_In, negb_true_iff, String.eqb_neq. simpl In.
    split.
    + intros [[H Hne] Hn]. split; [exact H|].
      intros [Heq | Hd]; [apply Hne; symmetry; exact Heq | exact (Hn Hd)].
    + intros [H Hn]. split; [split; [exact H|]|].
      * intros Heq. apply Hn. left. symmetry. exact Heq.
      * intros Hd. apply Hn. right. exact Hd.
Qed.

(** What one run of the sweep leaves: the tables less the collected orders. *)
Lemma cleanup_expired_orders_run (env : Env) (w : World) :
  exists (del : list string) (w1 : World),
    sweep env (usdtpay (db w)) [] (set_txn [] w) = (Ok del, w1)
    /\ fst (cleanup_expired_orders env w) = Ok tt
    /\ db (snd (cleanup_expired_orders env w)) = apply_writes (map DeleteUsdtpay del) (db w)
    /\ now (snd (cleanup_expired_orders env w)) = now w1
    /\ sent (snd (cleanup_expired_orders env w)) = sent w1.
Proof.
  destruct (sweep_spec env (usdtpay (db w)) [] (set_txn [] w))
    as [del [w1 [E [D [T [C _]]]]]].
  simpl app in E. exists del, w1. split; [exact E|].
  unfold cleanup_expired_orders.
  destruct del as [|no del].
  - erewrite try_except_ok.
    2:{ eapply get_db_ok. erewrite bind_ok by reflexivity.
        unfold view. simpl txn. simpl apply_writes. simpl db.
        erewrite bind_ok by exact E. reflexivity. }
    simpl. destruct w1 as [d1 tx1 t1 n1 s1 u1 dr1 al1]; simpl in *. subst.
    destruct (conn_autocommit env); conjs; reflexivity.
  - erewrite try_except_ok.
    2:{ eapply get_db_ok. erewrite bind_ok by reflexivity.
        unfold view. simpl txn. simpl apply_writes. simpl db.
        erewrite bind_ok by exact E. cbv beta iota.
        erewrite bind_ok by reflexivity. reflexivity. }
    destruct w1 as [d1 tx1 t1 n1 s1 u1 dr1 al1]; simpl in *. subst.
    destruct (conn_autocommit env); conjs; reflexivity.
Qed.
Lemma NoDup_map_eq {A B} (f : A -> B) (l : list A) (x y : A) :
  NoDup (map f l) -> In x l -> In y l -> f x = f y -> x = y.
Proof.
  induction l as [|z l IH]; simpl; intros Hnd Hx Hy Hf.
  - contradiction.
  - inversion Hnd as [|? ? Hnotin Hnd']; subst.
    destruct Hx as [-> | Hx], Hy as [-> | Hy].
    + reflexivity.
    + exfalso. apply Hnotin. rewrite Hf. apply in_map, Hy.
    + exfalso. apply Hnotin. rewrite <- Hf. apply in_map, Hx.
    + apply IH; assumption.
Qed.

(** C9.  One run of the sweep, on a table whose order numbers are distinct,
    ends normally and removes every open order whose expiry had passed when
    the run began; it keeps every order that is not open and every open
    order that has no expiry or whose expiry has not passed when the run
    ends, adds or changes no order, and leaves the other tables alone.  For
    each order it removes, the notification loop makes at most three
    attempts and never raises; a blocked or forbidden failure ends the loop
    at the first attempt.  What the run sends: for the orders it removes, at
    least one and at most three messages each, all to their owners; exactly
    one each when every failure is a block (status code 403, or "forbidden"
    or "bot was blocked" in the error text) or every message is delivered;
    exactly three each when every attempt fails with another error. *)
Theorem cleanup_expired_orders_sweeps (env : Env) (w : World) :
  NoDup (map up_out_trade_no (usdtpay (db w))) ->
  fst (cleanup_expired_orders env w) = Ok tt
  /\ (forall o e, In o (usdtpay (db w)) -> up_status o = 0 ->
                  up_expires_at o = Some e -> e < now w ->
                  ~ In o (usdtpay (db (snd (cleanup_expired_orders env w)))))
  /\ (forall o, In o (usdtpay (db w)) -> up_status o <> 0 ->
                In o (usdtpay (db (snd (cleanup_expired_orders env w)))))
  /\ (forall o, In o (usdtpay (db w)) -> up_status o = 0 ->
                (forall e, up_expires_at o = Some e ->
                           now (snd (cleanup_expired_orders env w)) <= e) ->
                In o (usdtpay (db (snd (cleanup_expired_orders env w)))))
  /\ (forall o, In o (usdtpay (db (snd (cleanup_expired_orders env w)))) ->
                In o (usdtpay (db w)))
  /\ now w <= now (snd (cleanup_expired_orders env w))
  /\ user_balances (db (snd (cleanup_expired_orders env w))) = user_balances (db w)
  /\ okusdt (db (snd (cleanup_expired_orders env w))) = okusdt (db w)
  /\ purchase_orders (db (snd (cleanup_expired_orders env w))) = purchase_orders (db w)
  /\ completed_orders (db (snd (cleanup_expired_orders env w))) = completed_orders (db w)
  /\ premium_queue (db (snd (cleanup_expired_orders env w))) = premium_queue (db w)
  /\ (forall telegram_id w0,
        fst (notify_expired env 3 telegram_id w0) = Ok tt
        /\ (List.length (sent (snd (notify_expired env 3 telegram_id w0)))
            <= List.length (sent w0) + 3)%nat)
  /\ (forall left telegram_id w0 text code,
        telegram env (List.length (sent w0)) = Some (text, code) ->
        is_blocked text code = true ->
        notify_expired env (S left) telegram_id w0
        = (Ok tt, set_sent (sent w0 ++ [(telegram_id, false)]) w0))
  /\ (exists (removed : list string) (attempts : list (Z * bool)),
        NoDup removed
        /\ (forall no, In no removed
                       <-> exists o, In o (usdtpay (db w)) /\ up_out_trade_no o = no
                                     /\ ~ In o (usdtpay (db (snd (cleanup_expired_orders env w)))))
        /\ sent (snd (cleanup_expired_orders env w)) = sent w ++ attempts
        /\ (List.length removed <= List.length attempts <= 3 * List.length removed)%nat
        /\ (forall x, In x attempts ->
              exists o, In o (usdtpay (db w))
                        /\ ~ In o (usdtpay (db (snd (cleanup_expired_orders env w))))
                        /\ fst x = up_telegram_id o)
        /\ ((forall n text code, telegram env n = Some (text, code) ->
               code = Some 403 \/ contains "forbidden" (lower text) = true
               \/ contains "bot was blocked" (lower text) = true) ->
            List.length attempts = List.length removed)
        /\ ((forall n, exists text code,
               telegram env n = Some (text, code) /\ code <> Some 403
               /\ contains "forbidden" (lower text) = false
               /\ contains "bot was blocked" (lower text) = false) ->
            List.length attempts = (3 * List.length removed)%nat
            /\ forall x, In x attempts -> snd x = false)
        /\ ((forall n, telegram env n = None) ->
            List.length attempts = List.length removed
            /\ forall x, In x attempts -> snd x = true)).
Proof.
  intros Hnd.
  destruct (sweep_spec env (usdtpay (db w)) [] (set_txn [] w))
    as [del [w1 [E [_ [_ [C [Ha Hb]]]]]]].
  destruct (cleanup_expired_orders_run env w) as [del' [w1' [E' [R [D [N S]]]]]].
  simpl app in E. rewrite E in E'. inversion E'; subst del' w1'. clear E'.
  destruct (deletes_spec del (db w)) as [Hin [T1 [T2 [T3 [T4 T5]]]]].
  destruct (sweep_attempts env (usdtpay (db w)) [] del (set_txn [] w) w1 E)
    as [attempts [S1 [S2 [S3 [S4 [S5 [S6 [S7 S8]]]]]]]].
  rewrite D, N, S.
  assert (Hkeep : forall o, In o (usdtpay (db w)) ->
                    (up_status o <> 0
                     \/ (forall e, up_expires_at o = Some e -> now w1 <= e)) ->
                    ~ In (up_out_trade_no o) del).
  { intros o Ho Hwhy Hd.
    destruct (Hb _ Hd) as [o' [e [I1 [I2 [I3 [I4 I5]]]]]].
    assert (o' = o) by (apply (NoDup_map_eq up_out_trade_no _ _ _ Hnd I1 Ho I2)).
    subst o'. destruct Hwhy as [Hs | He].
    - contradiction.
    - specialize (He e I4). lia. }
  assert (Hgone : forall o, In o (usdtpay (db w)) -> In (up_out_trade_no o) del ->
                    ~ In o (usdtpay (apply_writes (map DeleteUsdtpay del) (db w)))).
  { intros o Ho Hd Hafter. apply Hin in Hafter. tauto. }
  conjs; try assumption.
  - intros o e Ho Hs He Hlt Hafter.
    apply Hin in Hafter. destruct Hafter as [_ Hn]. apply Hn.
    apply (Ha o e Ho Hs He). exact Hlt.
  - intros o Ho Hs. apply Hin. split; [exact Ho|].
    apply Hkeep; [exact Ho | left; exact Hs].
  - intros o Ho Hs He. apply Hin. split; [exact Ho|].
    apply Hkeep; [exact Ho | right; exact He].
  - intros o Ho. apply Hin in Ho. tauto.
  - intros telegram_id w0.
    destruct (notify_expired_spec env 3 telegram_id w0) as [H1 [_ [_ [_ H5]]]].
    split; assumption.
  - intros left telegram_id w0 text code. apply notify_expired_blocked.
  - exists del, attempts. conjs.
    + apply S8, Hnd.
    + intros no. split.
      * intros Hno. specialize (S7 no Hno). apply in_map_iff in S7.
        destruct S7 as [o [Heq Ho]]. exists o. conjs; [exact Ho | exact Heq|].
        apply Hgone; [exact Ho | rewrite Heq; exact Hno].
      * intros [o [Ho [Heq Hout]]].
        destruct (in_dec string_dec no del) as [Hyes | Hnot]; [exact Hyes|].
        exfalso. apply Hout. apply Hin. split; [exact Ho | rewrite Heq; exact Hnot].
    + exact S1.
    + lia.
    + lia.
    + intros x Hx. destruct (S3 x Hx) as [o [Ho [Hd Hx']]].
      exists o. conjs; [exact Ho | exact (Hgone o Ho Hd) | exact Hx'].
    + intros Hblock. apply S4. intros n text code Htg.
      apply is_blocked_iff. exact (Hblock n text code Htg).
    + intros Hfail. apply S5. intros n.
      destruct (Hfail n) as [text [code [Htg [H1 [H2 H3]]]]].
      exists text, code. split; [exact Htg|].
      destruct (is_blocked text code) eqn:Hb'; [|reflexivity].
      apply is_blocked_iff in Hb'. destruct Hb' as [Hb' | [Hb' | Hb']]; congruence.
    + exact S6.
Qed.

(** At 1000 the order due at 900 goes and the matched order stays.  When
    every notification times out, its owner gets three attempts; when the
    owner has blocked the bot, one. *)
Lemma cleanup_expired_orders_sweeps_witness :
  NoDup (map up_out_trade_no (usdtpay (db sweep_world)))
  /\ fst (cleanup_expired_orders (shop true (fun _ => session_down) timing_out) sweep_world)
     = Ok tt
  /\ ~ In stale_order
         (usdtpay (db (snd (cleanup_expired_orders
                              (shop true (fun _ => session_down) timing_out) sweep_world))))
  /\ In paid_order
       (usdtpay (db (snd (cleanup_expired_orders
                            (shop true (fun _ => session_down) timing_out) sweep_world))))
  /\ sent (snd (cleanup_expired_orders (shop true (fun _ => session_down) timing_out)
                  sweep_world))
     = [(1001, false); (1001, false); (1001, false)]
  /\ sent (snd (cleanup_expired_orders (shop true (fun _ => session_down) blocked)
                  sweep_world))
     = [(1001, false)]
  /\ (exists removed attempts,
        sent (snd (cleanup_expired_orders (shop true (fun _ => session_down) blocked)
                     sweep_world))
        = sent sweep_world ++ attempts
        /\ In "usdt_1001_100" removed
        /\ List.length attempts = List.length removed)
  /\ (exists removed attempts,
        sent (snd (cleanup_expired_orders (shop true (fun _ => session_down) timing_out)
                     sweep_world))
        = sent sweep_world ++ attempts
        /\ In "usdt_1001_100" removed
        /\ List.length attempts = (3 * List.length removed)%nat).
Proof.
  assert (Hnd : NoDup (map up_out_trade_no (usdtpay (db sweep_world)))).
  { simpl. repeat constructor; simpl; intuition discriminate. }
  destruct (cleanup_expired_orders_sweeps
              (shop true (fun _ => session_down) timing_out) sweep_world Hnd)
    as [H1 [H2 [H3 [_ [_ [_ [_ [_ [_ [_ [_ [_ [_ Hsent]]]]]]]]]]]]].
  destruct (cleanup_expired_orders_sweeps
              (shop true (fun _ => session_down) blocked) sweep_world Hnd)
    as [_ [B2 [_ [_ [_ [_ [_ [_ [_ [_ [_ [_ [_ Bsent]]]]]]]]]]]]].
  assert (Hstale : In stale_order (usdtpay (db sweep_world))) by (simpl; left; reflexivity).
  conjs.
  - exact Hnd.
  - exact H1.
  - apply (H2 stale_order 900).
    + exact Hstale.
    + reflexivity.
    + reflexivity.
    + vm_compute. reflexivity.
  - apply (H3 paid_order).
    + simpl. right. right. left. reflexivity.
    + simpl. discriminate.
  - vm_compute. reflexivity.
  - vm_compute. reflexivity.
  - destruct Bsent as [removed [attempts [_ [Hrem [Hs [_ [_ [Hblock _]]]]]]]].
    exists removed, attempts. conjs.
    + exact Hs.
    + apply Hrem. exists stale_order. conjs; [exact Hstale | reflexivity|].
      apply (B2 stale_order 900); [exact Hstale | reflexivity | reflexivity |].
      vm_compute. reflexivity.
    + apply Hblock. intros n text code Htg. inversion Htg; subst.
      right. left. vm_compute. reflexivity.
  - destruct Hsent as [removed [attempts [_ [Hrem [Hs [_ [_ [_ [Hfail _]]]]]]]]].
    exists removed, attempts. conjs.
    + exact Hs.
    + apply Hrem. exists stale_order. conjs; [exact Hstale | reflexivity|].
      apply (H2 stale_order 900); [exact Hstale | reflexivity | reflexivity |].
      vm_compute. reflexivity.
    + apply Hfail. intros n. exists "Timed out", None. conjs.
      * reflexivity.
      * discriminate.
      * vm_compute. reflexivity.
      * vm_compute. reflexivity.
Defined.

Example cleanup_expired_orders_run_example :
  usdtpay (db (snd (cleanup_expired_orders (shop true (fun _ => session_down) timing_out)
                      sweep_world)))
  = [open_order; paid_order]
  /\ sent (snd (cleanup_expired_orders (shop true (fun _ => session_down) timing_out)
                  sweep_world))
     = [(1001, false); (1001, false); (1001, false)]
  /\ now (snd (cleanup_expired_orders (shop true (fun _ => session_down) timing_out)
                 sweep_world))
     = 1010
  /\ sent (snd (cleanup_expired_orders (shop true (fun _ => session_down) blocked)
                  sweep_world))
     = [(1001, false)].
Proof. vm_compute. repeat split. Qed.

(** * Further properties *)

(** ** The queue (database.py) *)

Lemma task_status_eqb_pending (s : task_status) :
  task_status_eqb s pending = true <-> s = pending.
Proof. destruct s; simpl; split; intros H; try discriminate; reflexivity. Qed.

(** The row [oldest_pending] picks is created no later than any pending row. *)
Lemma oldest_pending_min_from (rows : list queue_row) :
  forall (best : option queue_row) (r : queue_row),
    fold_left
      (fun best r =>
         if task_status_eqb (q_status r) pending
         then match best with
              | None => Some r
              | Some b => if q_created_at r <? q_created_at b then Some r else Some b
              end
         else best)
      rows best = Some r ->
    (forall b, best = Some b -> q_created_at r <= q_created_at b)
    /\ (forall x, In x rows -> q_status x = pending -> q_created_at r <= q_created_at x).
Proof.
  induction rows as [|x rows IH]; simpl; intros best r H.
  - split; [|intros ? []]. intros b Hb. rewrite Hb in H. inversion H. lia.
  - apply IH in H. destruct H as [Hbest Hrows].
    destruct (task_status_eqb (q_status x) pending) eqn:E.
    + destruct best as [b|].
      * destruct (q_created_at x <? q_created_at b) eqn:L.
        -- apply Z.ltb_lt in L. pose proof (Hbest x eq_refl) as Hx. split.
           ++ intros b' Hb'. inversion Hb'; subst. lia.
           ++ intros y [<- | Hy] Hp; [lia | apply Hrows; assumption].
        -- apply Z.ltb_ge in L. pose proof (Hbest b eq_refl) as Hb. split.
           ++ intros b' Hb'. inversion Hb'; subst. lia.
           ++ intros y [<- | Hy] Hp; [lia | apply Hrows; assumption].
      * pose proof (Hbest x eq_refl) as Hx. split.
        -- intros b' Hb'. discriminate.
        -- intros y [<- | Hy] Hp; [lia | apply Hrows; assumption].
    + split; [exact Hbest|].
      intros y [<- | Hy] Hp.
      * apply task_status_eqb_pending in Hp. congruence.
      * apply Hrows; assumption.
Qed.

Lemma oldest_pending_min (rows : list queue_row) (r : queue_row) :
  oldest_pending rows = Some r ->
  forall x, In x rows -> q_status x = pending -> q_created_at r <= q_created_at x.
Proof. intros H. apply (oldest_pending_min_from rows None r H). Qed.

Lemma oldest_pending_keeps (rows : list queue_row) :
  forall best : option queue_row,
    (forall r, In r rows -> q_status r <> pending) ->
    fold_left
      (fun best r =>
         if task_status_eqb (q_status r) pending
         then match best with
              | None => Some r
              | Some b => if q_created_at r <? q_created_at b then Some r else Some b
              end
         else best)
      rows best = best.
Proof.
  induction rows as [|x rows IH]; simpl; intros best H.
  - reflexivity.
  - destruct (task_status_eqb (q_status x) pending) eqn:E.
    + apply task_status_eqb_pending in E. exfalso. apply (H x); [left; reflexivity | exact E].
    + apply IH. intros r Hr. apply H. right; exact Hr.
Qed.

Lemma oldest_pending_none (rows : list queue_row) :
  (forall r, In r rows -> q_status r <> pending) -> oldest_pending rows = None.
Proof. intros H. apply (oldest_pending_keeps rows None H). Qed.

Lemma oldest_pending_grows (rows : list queue_row) :
  forall best : option queue_row,
    best <> None ->
    fold_left
      (fun best r =>
         if task_status_eqb (q_status r) pending
         then match best with
              | None => Some r
              | Some b => if q_created_at r <? q_created_at b then Some r else Some b
              end
         else best)
      rows best <> None.
Proof.
  induction rows as [|x rows IH]; simpl; intros best H.
  - exact H.
  - apply IH. destruct (task_status_eqb (q_status x) pending); [|exact H].
    destruct best as [b|]; [|discriminate].
    destruct (q_created_at x <? q_created_at b); discriminate.
Qed.

Lemma oldest_pending_some_from (rows : list queue_row) (x : queue_row) :
  forall best : option queue_row,
    In x rows -> q_status x = pending ->
    fold_left
      (fun best r =>
         if task_status_eqb (q_status r) pending
         then match best with
              | None => Some r
              | Some b => if q_created_at r <? q_created_at b then Some r else Some b
              end
         else best)
      rows best <> None.
Proof.
  induction rows as [|y rows IH]; simpl; intros best Hin Hp.
  - destruct Hin.
  - destruct Hin as [-> | Hin].
    + apply oldest_pending_grows. rewrite Hp. simpl.
      destruct best as [b|]; [|discriminate].
      destruct (q_created_at x <? q_created_at b); discriminate.
    + apply IH; assumption.
Qed.

Lemma oldest_pending_some (rows : list queue_row) (x : queue_row) :
  In x rows -> q_status x = pending -> oldest_pending rows <> None.
Proof. apply oldest_pending_some_from. Qed.

(** What a call of [get_next_queue_task] comes to. *)
Lemma get_next_queue_task_run (env : Env) (w : World) :
  get_next_queue_task env w
  = match oldest_pending (premium_queue (db w)) with
    | Some r =>
        (Ok (Some (q_id r, q_telegram_id r, q_username r, q_duration r, q_retry_count r)),
         set_db (apply_write (SetQueueStatus (q_id r) processing (now w)) (db w)) w)
    | None => (Ok None, w)
    end.
Proof.
  destruct w as [d tx t n s u dr al].
  unfold get_next_queue_task, get_db, bind, select, CURRENT_TIMESTAMP, execute, commit, ret, view;
    simpl.
  destruct (oldest_pending (premium_queue d)); destruct (conn_autocommit env); reflexivity.
Qed.

(** What a call of [add_to_premium_queue] comes to. *)
Lemma add_to_premium_queue_run (env : Env) (telegram_id : Z) (username : string) (duration : Z)
    (w : World) :
  add_to_premium_queue env telegram_id username duration w
  = (Ok (next_task_id (premium_queue (db w))),
     set_db (apply_write
               (InsertQueueTask
                  {| q_id := next_task_id (premium_queue (db w)); q_telegram_id := telegram_id;
                     q_username := username; q_duration := duration; q_status := pending;
                     q_retry_count := 0; q_created_at := now w; q_updated_at := now w;
                     q_error_message := None |})
               (db w)) w).
Proof.
  destruct w as [d tx t n s u dr al].
  unfold add_to_premium_queue, get_db, bind, select, CURRENT_TIMESTAMP, execute, commit, ret, view;
    simpl.
  destruct (conn_autocommit env); reflexivity.
Qed.

Lemma set_queue_status_not_pending (task_id : Z) (t : Z) (rows : list queue_row) (x : queue_row) :
  In x (set_queue_status task_id processing t rows) -> q_status x = pending ->
  q_id x <> task_id.
Proof.
  unfold set_queue_status. intros Hin Hp. apply in_map_iff in Hin.
  destruct Hin as [y [Hy _]].
  destruct (q_id y =? task_id) eqn:E.
  - subst x. simpl in Hp. discriminate.
  - subst x. apply Z.eqb_neq. exact E.
Qed.

Lemma fold_max_ge (rows : list queue_row) :
  forall m, m <= fold_left (fun m r => Z.max m (q_id r)) rows m
            /\ forall r, In r rows -> q_id r <= fold_left (fun m r => Z.max m (q_id r)) rows m.
Proof.
  induction rows as [|x rows IH]; simpl; intros m.
  - split; [lia | intros ? []].
  - destruct (IH (Z.max m (q_id x))) as [H1 H2]. split; [lia|].
    intros r [<- | Hr]; [lia | apply H2, Hr].
Qed.

Lemma next_task_id_fresh (rows : list queue_row) (r : queue_row) :
  In r rows -> q_id r < next_task_id rows.
Proof.
  intros H. unfold next_task_id. pose proof (proj2 (fold_max_ge rows 0) r H). lia.
Qed.

(** X1.  [get_next_queue_task] never raises.  When no row of the queue is
    pending it returns None and changes nothing; when some row is pending it
    returns a task.  The task it returns is a pending row of the committed
    queue, created no later than any other pending row, and the call commits
    exactly the flip of the rows with that id to 'processing'. *)
Theorem get_next_queue_task_claims_oldest (env : Env) (w : World) :
  let outcome := get_next_queue_task env w in
  (exists next, fst outcome = Ok next)
  /\ ((forall r, In r (premium_queue (db w)) -> q_status r <> pending) ->
      outcome = (Ok None, w))
  /\ (forall x, In x (premium_queue (db w)) -> q_status x = pending ->
      exists t, fst outcome = Ok (Some t))
  /\ (forall t, fst outcome = Ok (Some t) ->
      exists r,
        In r (premium_queue (db w)) /\ q_status r = pending
        /\ t = (q_id r, q_telegram_id r, q_username r, q_duration r, q_retry_count r)
        /\ (forall x, In x (premium_queue (db w)) -> q_status x = pending ->
              q_created_at r <= q_created_at x)
        /\ snd outcome
           = set_db (apply_write (SetQueueStatus (q_id r) processing (now w)) (db w)) w).
Proof.
  intros outcome. subst outcome. rewrite get_next_queue_task_run.
  destruct (oldest_pending (premium_queue (db w))) as [r|] eqn:E.
  - conjs.
    + eexists. reflexivity.
    + intros Hnone. destruct (oldest_pending_is_pending _ _ E) as [Hin Hp].
      exfalso. exact (Hnone r Hin Hp).
    + intros x _ _. eexists. reflexivity.
    + intros t Ht. simpl in Ht. inversion Ht; subst t. exists r.
      destruct (oldest_pending_is_pending _ _ E) as [Hin Hp].
      conjs; try assumption; try reflexivity.
      exact (oldest_pending_min _ _ E).
  - conjs.
    + eexists. reflexivity.
    + intros _. reflexivity.
    + intros x Hin Hp. exfalso. exact (oldest_pending_some _ x Hin Hp E).
    + intros t Ht. discriminate Ht.
Qed.

(** X2.  A task that [get_next_queue_task] has handed out is not handed out
    by the next call: the two calls return tasks with different ids. *)
Theorem get_next_queue_task_claims_once (env : Env) (w : World) (t t' : task) :
  fst (get_next_queue_task env w) = Ok (Some t) ->
  fst (get_next_queue_task env (snd (get_next_queue_task env w))) = Ok (Some t') ->
  fst (fst (fst (fst t'))) <> fst (fst (fst (fst t))).
Proof.
  rewrite (get_next_queue_task_run env w).
  destruct (oldest_pending (premium_queue (db w))) as [r|] eqn:E; [|discriminate].
  simpl. intros Ht. inversion Ht; subst t. clear Ht.
  rewrite get_next_queue_task_run. simpl.
  destruct (oldest_pending (set_queue_status (q_id r) processing (now w) (premium_queue (db w))))
    as [r'|] eqn:E'; [|discriminate].
  simpl. intros Ht'. inversion Ht'; subst t'. simpl.
  destruct (oldest_pending_is_pending _ _ E') as [Hin Hp].
  exact (set_queue_status_not_pending _ _ _ _ Hin Hp).
Qed.

(** Two purchases wait in the queue: the first call hands out task 1, the
    second task 2. *)
Lemma get_next_queue_task_claims_once_witness :
  fst (get_next_queue_task (shop true (fun _ => session_down) delivered)
         (world_of (store (milli 50000) [queued; queued_later] [])))
  = Ok (Some (1, 1001, "alice", 3, 0))
  /\ fst (get_next_queue_task (shop true (fun _ => session_down) delivered)
            (snd (get_next_queue_task (shop true (fun _ => session_down) delivered)
                    (world_of (store (milli 50000) [queued; queued_later] [])))))
     = Ok (Some (2, 1002, "bob", 6, 0))
  /\ 2 <> 1.
Proof.
  assert (H1 : fst (get_next_queue_task (shop true (fun _ => session_down) delivered)
                      (world_of (store (milli 50000) [queued; queued_later] [])))
               = Ok (Some (1, 1001, "alice", 3, 0))) by reflexivity.
  assert (H2 : fst (get_next_queue_task (shop true (fun _ => session_down) delivered)
                      (snd (get_next_queue_task (shop true (fun _ => session_down) delivered)
                              (world_of (store (milli 50000) [queued; queued_later] [])))))
               = Ok (Some (2, 1002, "bob", 6, 0))) by reflexivity.
  split; [exact H1|]. split; [exact H2|].
  exact (get_next_queue_task_claims_once (shop true (fun _ => session_down) delivered)
           (world_of (store (milli 50000) [queued; queued_later] []))
           (1, 1001, "alice", 3, 0) (2, 1002, "bob", 6, 0) H1 H2).
Defined.

(** X3.  [add_to_premium_queue] gives the new task an id above every id in
    the queue and commits it as pending with no retry counted, leaving the
    rows already there as they were; when no older task is pending, the next
    [get_next_queue_task] hands out exactly the task just added. *)
Theorem add_to_premium_queue_then_claim (env : Env) (telegram_id : Z) (username : string)
    (duration : Z) (w : World) :
  (forall r, In r (premium_queue (db w)) -> q_status r <> pending) ->
  let added := add_to_premium_queue env telegram_id username duration w in
  let task_id := next_task_id (premium_queue (db w)) in
  fst added = Ok task_id
  /\ (forall r, In r (premium_queue (db w)) -> q_id r < task_id)
  /\ premium_queue (db (snd added))
     = premium_queue (db w)
       ++ [{| q_id := task_id; q_telegram_id := telegram_id; q_username := username;
              q_duration := duration; q_status := pending; q_retry_count := 0;
              q_created_at := now w; q_updated_at := now w; q_error_message := None |}]
  /\ fst (get_next_queue_task env (snd added))
     = Ok (Some (task_id, telegram_id, username, duration, 0)).
Proof.
  intros Hnone added task_id. subst added task_id.
  rewrite add_to_premium_queue_run. simpl. conjs.
  - reflexivity.
  - intros r Hr. apply next_task_id_fresh, Hr.
  - reflexivity.
  - rewrite get_next_queue_task_run. simpl.
    unfold oldest_pending. rewrite fold_left_app.
    rewrite (oldest_pending_keeps _ None Hnone). simpl. reflexivity.
Qed.

(** The queue is empty when the purchase is enqueued. *)
Lemma add_to_premium_queue_then_claim_witness :
  fst (add_to_premium_queue (shop false (fun _ => session_down) delivered) 1001 "alice" 3
         (world_of (store (milli 50000) [] []))) = Ok 1
  /\ fst (get_next_queue_task (shop false (fun _ => session_down) delivered)
            (snd (add_to_premium_queue (shop false (fun _ => session_down) delivered)
                    1001 "alice" 3 (world_of (store (milli 50000) [] [])))))
     = Ok (Some (1, 1001, "alice", 3, 0)).
Proof.
  assert (Hnone : forall r, In r (premium_queue (db (world_of (store (milli 50000) [] [])))) ->
                            q_status r <> pending) by (intros r []).
  destruct (add_to_premium_queue_then_claim (shop false (fun _ => session_down) delivered)
              1001 "alice" 3 (world_of (store (milli 50000) [] [])) Hnone)
    as [H1 [_ [_ H2]]].
  split; [exact H1 | exact H2].
Defined.

(** ** Provider sessions *)

Lemma opens_weaken {A} (k k' : nat) (m : M A) : opens k m -> (k <= k')%nat -> opens k' m.
Proof. intros H Hk w. specialize (H w). lia. Qed.

Lemma opens_ret {A} (a : A) : opens 0 (ret a).
Proof. intros w. simpl. lia. Qed.

Lemma opens_raise {A} (e : exn) : opens 0 (@raise A e).
Proof. intros w. simpl. lia. Qed.

Lemma opens_bind {A B} (k1 k2 : nat) (m : M A) (f : A -> M B) :
  opens k1 m -> (forall a, opens k2 (f a)) -> opens (k1 + k2) (bind m f).
Proof.
  intros Hm Hf w. unfold bind. specialize (Hm w).
  destruct (m w) as [[a|e] w1]; simpl in *.
  - specialize (Hf a w1). lia.
  - lia.
Qed.

Lemma opens_try_except {A} (k1 k2 : nat) (m : M A) (h : exn -> M A) :
  opens k1 m -> (forall e, opens k2 (h e)) -> opens (k1 + k2) (try_except m h).
Proof.
  intros Hm Hh w. unfold try_except. specialize (Hm w).
  destruct (m w) as [[a|e] w1]; simpl in *.
  - lia.
  - specialize (Hh e w1). lia.
Qed.

Lemma opens_try_except_telegram {A} (k1 k2 : nat) (m : M A) (h : string -> option Z -> M A) :
  opens k1 m -> (forall text code, opens k2 (h text code)) ->
  opens (k1 + k2) (try_except_telegram m h).
Proof.
  intros Hm Hh w. unfold try_except_telegram. specialize (Hm w).
  destruct (m w) as [[a|e] w1]; simpl in *.
  - lia.
  - destruct e; simpl; try lia. specialize (Hh msg status_code w1). lia.
Qed.

Lemma opens_get_db (env : Env) {A} (k : nat) (body : connection -> M A) :
  (forall c, opens k (body c)) -> opens k (get_db env body).
Proof.
  intros H w. unfold get_db. specialize (H Conn (set_txn [] w)).
  destruct (body Conn (set_txn [] w)) as [[a|e] w1]; simpl in *.
  - destruct (conn_autocommit env); simpl; lia.
  - lia.
Qed.

Lemma quiet_bind {A B} (m : M A) (f : A -> M B) :
  opens 0 m -> (forall a, opens 0 (f a)) -> opens 0 (bind m f).
Proof. apply (opens_bind 0 0). Qed.

Lemma quiet_try_except {A} (m : M A) (h : exn -> M A) :
  opens 0 m -> (forall e, opens 0 (h e)) -> opens 0 (try_except m h).
Proof. apply (opens_try_except 0 0). Qed.

Lemma quiet_try_except_telegram {A} (m : M A) (h : string -> option Z -> M A) :
  opens 0 m -> (forall text code, opens 0 (h text code)) -> opens 0 (try_except_telegram m h).
Proof. apply (opens_try_except_telegram 0 0). Qed.

Lemma opens_select (c : connection) : opens 0 (select c).
Proof. intros w. simpl. lia. Qed.

Lemma opens_execute (c : connection) (wr : write) : opens 0 (execute c wr).
Proof. intros w. simpl. lia. Qed.

Lemma opens_executemany (c : connection) (ws : list write) : opens 0 (executemany c ws).
Proof. intros w. simpl. lia. Qed.

Lemma opens_commit (c : connection) : opens 0 (commit c).
Proof. intros w. simpl. lia. Qed.

Lemma opens_begin (c : connection) : opens 0 (begin c).
Proof. intros w. simpl. lia. Qed.

Lemma opens_rollback (c : connection) : opens 0 (rollback c).
Proof. intros w. simpl. lia. Qed.

Lemma opens_CURRENT_TIMESTAMP : opens 0 CURRENT_TIMESTAMP.
Proof. intros w. simpl. lia. Qed.

Lemma opens_sleep (seconds : Z) : opens 0 (sleep seconds).
Proof. intros w. simpl. lia. Qed.

Lemma opens_answer {A} (r : res A) : opens 0 (answer r).
Proof. intros w. destruct r; simpl; lia. Qed.

Lemma opens_send_message (env : Env) (chat_id : Z) : opens 0 (send_message env chat_id).
Proof.
  intros w. destruct (send_message_frame env chat_id w) as [_ [_ [H _]]]. lia.
Qed.

Lemma opens_send_to_admin (env : Env) (message : string) : opens 0 (send_to_admin env message).
Proof. intros w. unfold send_to_admin. destruct (ADMIN_IDS env); simpl; lia. Qed.

Lemma opens_generate_order_id (env : Env) : opens 0 (generate_order_id env).
Proof. intros w. simpl. lia. Qed.

Lemma opens_random_uniform (env : Env) : opens 0 (random_uniform env).
Proof. intros w. simpl. lia. Qed.

Lemma opens_payment_service (env : Env) : opens 1 (payment_service env).
Proof. intros w. simpl. lia. Qed.

Lemma opens_check_range (env : Env) (column : string) (place : Z) (rounded : Decimal) :
  opens 0 (check_range env column place rounded).
Proof. intros w. unfold check_range. destruct (_ && _); simpl; lia. Qed.

#[local] Hint Resolve opens_ret opens_raise quiet_bind quiet_try_except
  quiet_try_except_telegram opens_get_db opens_select
  opens_execute opens_executemany opens_commit opens_begin opens_rollback
  opens_CURRENT_TIMESTAMP opens_sleep opens_answer opens_send_message opens_send_to_admin
  opens_generate_order_id opens_random_uniform opens_check_range : frame.
#[local] Hint Extern 1 (opens _ (if ?b then _ else _)) => destruct b : frame.
#[local] Hint Extern 1 (opens _ (match ?x with _ => _ end)) => destruct x : frame.

Lemma opens_get_balance (env : Env) (telegram_id : Z) : opens 0 (get_balance env telegram_id).
Proof. unfold get_balance. auto 10 with frame. Qed.

Lemma opens_set_balance (env : Env) (telegram_id : Z) (amount : Decimal) (c : connection) :
  opens 0 (set_balance env telegram_id amount c).
Proof. unfold set_balance. auto 10 with frame. Qed.

Lemma opens_record_purchase_order (env : Env) (telegram_id : Z) (username : string)
    (duration : Z) (amount : Decimal) (status : purchase_status) (c : connection) :
  opens 0 (record_purchase_order env telegram_id username duration amount status c).
Proof. unfold record_purchase_order. auto 10 with frame. Qed.

Lemma opens_is_order_completed (env : Env) (req_id : string) (conn : option connection) :
  opens 0 (is_order_completed env req_id conn).
Proof. unfold is_order_completed. destruct conn; auto 10 with frame. Qed.

Lemma opens_record_completed_order (req_id : string) (telegram_id : Z) (username : string)
    (duration : Z) (amount : Decimal) (tx_hash : string) (conn : option connection) :
  opens 0 (record_completed_order req_id telegram_id username duration amount tx_hash conn).
Proof. unfold record_completed_order. destruct conn; auto 10 with frame. Qed.

Lemma opens_update_queue_task_status (env : Env) (task_id : Z) (status : task_status)
    (error_message : option string) :
  opens 0 (update_queue_task_status env task_id status error_message).
Proof. unfold update_queue_task_status. auto 10 with frame. Qed.

Lemma opens_get_next_queue_task (env : Env) : opens 0 (get_next_queue_task env).
Proof. unfold get_next_queue_task. auto 10 with frame. Qed.

Lemma opens_to_decimal (x : option Decimal) : opens 0 (to_decimal x).
Proof. unfold to_decimal. auto with frame. Qed.

Lemma opens_price (env : Env) (duration : Z) : opens 0 (price env duration).
Proof. unfold price. auto with frame. Qed.

Lemma opens_parse_req_id (message : string) : opens 0 (parse_req_id message).
Proof. unfold parse_req_id. auto with frame. Qed.

#[local] Hint Resolve opens_get_balance opens_set_balance opens_record_purchase_order
  opens_is_order_completed opens_record_completed_order opens_update_queue_task_status
  opens_get_next_queue_task opens_to_decimal opens_price opens_parse_req_id : frame.

Lemma opens_process_purchase (env : Env) (user_id : Z) (username : string) (duration : Z)
    (actual_amount : option Decimal) (c : connection) :
  opens 0 (process_purchase env user_id username duration actual_amount c).
Proof. unfold process_purchase. auto 20 with frame. Qed.

#[local] Hint Resolve opens_process_purchase : frame.

Lemma opens_settle (env : Env) (t : task) (reply : bool * string * option Decimal)
    (c : connection) :
  opens 0 (settle env t reply c).
Proof.
  destruct t as [[[[task_id telegram_id] username] duration] retry_count].
  destruct reply as [[success message] actual_amount].
  unfold settle. destruct success; auto 20 with frame.
Qed.

Lemma opens_activate_premium (env : Env) (username : string) (duration : Z) (telegram_id : Z) :
  opens 1 (activate_premium env username duration telegram_id).
Proof.
  unfold activate_premium.
  destruct (negb _).
  - apply (opens_weaken 0); [auto with frame | lia].
  - destruct (negb _).
    + apply (opens_weaken 0); [auto with frame | lia].
    + apply (opens_bind 1 0); [apply opens_payment_service|].
      intros ps. apply quiet_try_except.
      * auto 30 with frame.
      * intros e. auto 10 with frame.
Qed.

Lemma opens_process_task (env : Env) (t : task) : opens 1 (process_task env t).
Proof.
  destruct t as [[[[task_id telegram_id] username] duration] retry_count].
  unfold process_task. destruct (max_retries <=? retry_count).
  - apply (opens_weaken 0); [auto with frame | lia].
  - apply (opens_bind 1 0); [|auto with frame].
    apply (opens_try_except 1 0); [|auto with frame].
    apply (opens_bind 0 1); [auto with frame|].
    intros ref_amount. apply opens_get_db. intros c.
    apply (opens_bind 0 1); [auto with frame|].
    intros balance. apply (opens_bind 0 1); [auto with frame|].
    intros _. apply (opens_bind 1 0); [apply opens_activate_premium|].
    intros reply. apply opens_settle.
Qed.

Lemma opens_drain (env : Env) (left : nat) : opens left (drain env left).
Proof.
  induction left as [|k IH]; simpl.
  - apply opens_ret.
  - apply (opens_bind 0 (S k)); [auto with frame|].
    intros [t|].
    + apply (opens_bind 1 k); [apply opens_process_task | intros _; exact IH].
    + apply (opens_weaken 0); [apply opens_ret | lia].
Qed.

(** X4.  One pass of [process_premium_queue] opens at most [max_tasks]
    provider sessions.  With no pending task in the queue, or with
    [max_tasks] not above zero, the pass ends at once and changes nothing. *)
Theorem process_premium_queue_bounded (env : Env) (max_tasks : Z) (w : World) :
  (sessions w <= sessions (snd (process_premium_queue env max_tasks w))
   <= sessions w + Z.to_nat max_tasks)%nat
  /\ ((forall r, In r (premium_queue (db w)) -> q_status r <> pending) ->
      process_premium_queue env max_tasks w = (Ok tt, w))
  /\ (max_tasks <= 0 -> process_premium_queue env max_tasks w = (Ok tt, w)).
Proof.
  unfold process_premium_queue. conjs.
  - apply (opens_drain env (Z.to_nat max_tasks) w).
  - apply (opens_drain env (Z.to_nat max_tasks) w).
  - intros Hnone. destruct (Z.to_nat max_tasks) as [|k]; simpl; [reflexivity|].
    rewrite (bind_ok _ _ w w None); [reflexivity|].
    rewrite get_next_queue_task_run, (oldest_pending_none _ Hnone). reflexivity.
  - intros Hle. replace (Z.to_nat max_tasks) with 0%nat by lia. reflexivity.
Qed.

(** X5.  A claimed task whose retry count has reached [max_retries] is not
    tried again: the turn opens no provider session and changes no table
    but the queue, where the task is marked 'failed' with the message that
    the retries are used up; the owner is sent one message and the turn
    succeeds exactly when that message is delivered. *)
Theorem process_task_at_the_cap (env : Env) (w : World) (task_id telegram_id : Z)
    (username : string) (duration retry_count : Z) :
  max_retries <= retry_count ->
  let outcome := process_task env (task_id, telegram_id, username, duration, retry_count) w in
  sessions (snd outcome) = sessions w
  /\ db (snd outcome)
     = apply_write (FailQueueTask task_id failed (Some "超过最大重试次数") (now w)) (db w)
  /\ txn (snd outcome) = txn w
  /\ user_balances (db (snd outcome)) = user_balances (db w)
  /\ (exists delivered, sent (snd outcome) = sent w ++ [(telegram_id, delivered)]
                        /\ (fst outcome = Ok tt <-> delivered = true)).
Proof.
  intros Hcap outcome. subst outcome. unfold process_task.
  apply Z.leb_le in Hcap. rewrite Hcap.
  erewrite bind_ok by apply update_queue_task_status_spec.
  simpl task_status_eqb. cbv iota.
  set (w1 := set_db _ w).
  destruct (send_message_frame env telegram_id w1) as [Hd [Ht [Hs _]]].
  conjs.
  - rewrite Hs. reflexivity.
  - rewrite Hd. reflexivity.
  - rewrite Ht. reflexivity.
  - rewrite Hd. reflexivity.
  - unfold send_message.
    destruct (telegram env (List.length (sent w1))) as [[text code]|].
    + exists false. simpl. split; [reflexivity|]. split; discriminate.
    + exists true. simpl. split; [reflexivity|]. split; reflexivity.
Qed.

(** Task 1 comes up with three retries counted. *)
Lemma process_task_at_the_cap_witness :
  max_retries <= 3
  /\ sessions (snd (process_task (shop true (fun _ => session_ok "R1" (milli 29800)) delivered)
                      (1, 1001, "alice", 3, 3)
                      (world_of (store (milli 50000) [queued] [])))) = 0%nat
  /\ user_balances
       (db (snd (process_task (shop true (fun _ => session_ok "R1" (milli 29800)) delivered)
                   (1, 1001, "alice", 3, 3)
                   (world_of (store (milli 50000) [queued] [])))))
     = [account (milli 50000)].
Proof.
  assert (Hcap : max_retries <= 3) by (unfold max_retries; lia).
  destruct (process_task_at_the_cap
              (shop true (fun _ => session_ok "R1" (milli 29800)) delivered)
              (world_of (store (milli 50000) [queued] [])) 1 1001 "alice" 3 3 Hcap)
    as [H1 [_ [_ [H2 _]]]].
  split; [exact Hcap|]. split; [exact H1 | exact H2].
Defined.

(** X6.  [activate_premium] never raises: every failure comes back as an
    answer.  It opens at most one provider session, and none at all when a
    parameter or the configuration is missing or the duration is not 3, 6 or
    12 months; it then answers failure with no amount and leaves the tables
    as they were. *)
Theorem activate_premium_answers (env : Env) (username : string) (duration telegram_id : Z)
    (w : World) :
  let outcome := activate_premium env username duration telegram_id w in
  (exists reply, fst outcome = Ok reply)
  /\ (sessions w <= sessions (snd outcome) <= S (sessions w))%nat
  /\ (existsb (Z.eqb duration) VALID_DURATIONS = false
      \/ username = EmptyString \/ credentials_set env = false \/ ADMIN_IDS env = [] ->
      (exists message, fst outcome = Ok (false, message, None))
      /\ sessions (snd outcome) = sessions w
      /\ db (snd outcome) = db w /\ txn (snd outcome) = txn w).
Proof.
  intros outcome. subst outcome. conjs.
  - unfold activate_premium.
    destruct (negb _); [unfold bind, send_to_admin; destruct (ADMIN_IDS env); eexists; reflexivity|].
    destruct (negb _); [unfold bind, send_to_admin; destruct (ADMIN_IDS env); eexists; reflexivity|].
    unfold bind at 1. unfold payment_service at 1. unfold try_except.
    match goal with |- context [match ?b ?x with _ => _ end] =>
      destruct (b x) as [[reply|e] w1] end.
    + eexists. reflexivity.
    + destruct (prefix _ _); unfold bind, send_to_admin; destruct (ADMIN_IDS env);
        eexists; reflexivity.
  - apply (opens_activate_premium env username duration telegram_id w).
  - pose proof (opens_activate_premium env username duration telegram_id w). lia.
  - intros Hbad. unfold activate_premium.
    destruct (negb (negb (String.eqb username EmptyString) && negb (duration =? 0)
                    && credentials_set env && negb (List.length (ADMIN_IDS env) =? 0)%nat))
      eqn:Hmissing.
    + unfold bind, send_to_admin, ret. destruct (ADMIN_IDS env); simpl;
        (split; [eexists; reflexivity | repeat split]).
    + destruct (negb (existsb (Z.eqb duration) VALID_DURATIONS)) eqn:Hdur.
      * unfold bind, send_to_admin, ret. destruct (ADMIN_IDS env); simpl;
          (split; [eexists; reflexivity | repeat split]).
      * exfalso. apply negb_false_iff in Hmissing, Hdur.
        repeat (apply andb_true_iff in Hmissing; destruct Hmissing as [Hmissing ?]).
        destruct Hbad as [Hbad | [Hbad | [Hbad | Hbad]]].
        -- congruence.
        -- subst username. discriminate.
        -- congruence.
        -- rewrite Hbad in *. discriminate.
Qed.

(** ** Code that only reads the tables *)

Lemma reads_ret {A} (a : A) : reads (ret a).
Proof. intros w. split; reflexivity. Qed.

Lemma reads_raise {A} (e : exn) : reads (@raise A e).
Proof. intros w. split; reflexivity. Qed.

Lemma reads_bind {A B} (m : M A) (f : A -> M B) :
  reads m -> (forall a, reads (f a)) -> reads (bind m f).
Proof.
  intros Hm Hf w. unfold bind. destruct (Hm w) as [Hd Ht].
  destruct (m w) as [[a|e] w1]; simpl in *.
  - destruct (Hf a w1) as [Hd' Ht']. split; congruence.
  - split; assumption.
Qed.

Lemma reads_try_except {A} (m : M A) (h : exn -> M A) :
  reads m -> (forall e, reads (h e)) -> reads (try_except m h).
Proof.
  intros Hm Hh w. unfold try_except. destruct (Hm w) as [Hd Ht].
  destruct (m w) as [[a|e] w1]; simpl in *.
  - split; assumption.
  - destruct (Hh e w1) as [Hd' Ht']. split; congruence.
Qed.

Lemma reads_try_except_telegram {A} (m : M A) (h : string -> option Z -> M A) :
  reads m -> (forall text code, reads (h text code)) -> reads (try_except_telegram m h).
Proof.
  intros Hm Hh w. unfold try_except_telegram. destruct (Hm w) as [Hd Ht].
  destruct (m w) as [[a|e] w1]; simpl in *.
  - split; assumption.
  - destruct e; simpl; try (split; assumption).
    destruct (Hh msg status_code w1) as [Hd' Ht']. split; congruence.
Qed.

Lemma reads_get_db (env : Env) {A} (body : connection -> M A) :
  (forall c, reads (body c)) -> reads (get_db env body).
Proof.
  intros H w. unfold get_db. destruct (H Conn (set_txn [] w)) as [Hd Ht].
  destruct (body Conn (set_txn [] w)) as [[a|e] w1]; simpl in *.
  - destruct (conn_autocommit env); simpl; [|split; [exact Hd | reflexivity]].
    unfold view. rewrite Ht, Hd. split; reflexivity.
  - split; [exact Hd | reflexivity].
Qed.

Lemma reads_select (c : connection) : reads (select c).
Proof. intros w. split; reflexivity. Qed.

Lemma reads_CURRENT_TIMESTAMP : reads CURRENT_TIMESTAMP.
Proof. intros w. split; reflexivity. Qed.

Lemma reads_sleep (seconds : Z) : reads (sleep seconds).
Proof. intros w. split; reflexivity. Qed.

Lemma reads_answer {A} (r : res A) : reads (answer r).
Proof. intros w. destruct r; split; reflexivity. Qed.

Lemma reads_send_message (env : Env) (chat_id : Z) : reads (send_message env chat_id).
Proof.
  intros w. destruct (send_message_frame env chat_id w) as [Hd [Ht _]]. split; assumption.
Qed.

Lemma reads_send_to_admin (env : Env) (message : string) : reads (send_to_admin env message).
Proof. intros w. unfold send_to_admin. destruct (ADMIN_IDS env); split; reflexivity. Qed.

Lemma reads_generate_order_id (env : Env) : reads (generate_order_id env).
Proof. intros w. split; reflexivity. Qed.

Lemma reads_random_uniform (env : Env) : reads (random_uniform env).
Proof. intros w. split; reflexivity. Qed.

#[local] Hint Resolve reads_ret reads_raise reads_bind reads_try_except
  reads_try_except_telegram reads_get_db reads_select reads_CURRENT_TIMESTAMP reads_sleep
  reads_answer reads_send_message reads_send_to_admin reads_generate_order_id
  reads_random_uniform : frame.
#[local] Hint Extern 1 (reads (if ?b then _ else _)) => destruct b : frame.
#[local] Hint Extern 1 (reads (match ?x with _ => _ end)) => destruct x : frame.

Lemma reads_generate_unique_usdt_amount (env : Env) (fuel : nat) (base_amount : Q) :
  reads (generate_unique_usdt_amount env fuel base_amount).
Proof. induction fuel as [|k IH]; simpl; auto 10 with frame. Qed.

Lemma reads_notify_admins (env : Env) (admins : list Z) : reads (notify_admins env admins).
Proof. induction admins as [|x admins IH]; simpl; auto 10 with frame. Qed.

#[local] Hint Resolve reads_generate_unique_usdt_amount reads_notify_admins : frame.

Lemma get_db_txn (env : Env) {A} (body : connection -> M A) (w : World) :
  txn (snd (get_db env body w)) = txn w.
Proof.
  unfold get_db. destruct (body Conn (set_txn [] w)) as [[a|e] w1]; reflexivity.
Qed.

(** Writes to other tables do not reach the balances. *)
Lemma user_balances_apply_writes (ws : list write) :
  forall d d', user_balances d = user_balances d' ->
               user_balances (apply_writes ws d) = user_balances (apply_writes ws d').
Proof.
  unfold apply_writes. induction ws as [|wr ws IH]; simpl; intros d d' H.
  - exact H.
  - apply IH. destruct wr; simpl; congruence.
Qed.

(** ** Settlement records (database.py, [record_completed_order]) *)

Lemma record_completed_order_run (req_id : string) (telegram_id : Z) (username : string)
    (duration : Z) (amount : Decimal) (tx_hash : string) (w : World) :
  record_completed_order req_id telegram_id username duration amount tx_hash (Some Conn) w
  = if has_completed req_id (view w)
    then (Ok false, w)
    else (Ok true,
          set_txn (txn w ++ [InsertCompletedOrder
                               {| co_req_id := req_id; co_telegram_id := telegram_id;
                                  co_username := username; co_duration := duration;
                                  co_amount := amount; co_created_at := now w;
                                  co_tx_hash := tx_hash |}]) w).
Proof.
  unfold record_completed_order, bind, select.
  destruct (has_completed req_id (view w)); reflexivity.
Qed.

(** X7.  [record_completed_order] on a connection answers True exactly when
    the settlement id was not yet recorded there.  After the call the id
    reads as completed on that connection, while [is_order_completed] on a
    connection of its own still answers from the committed table: nothing is
    committed by the call.  A second call for the same id answers False and
    writes nothing, whatever its other arguments, and ids that were pairwise
    distinct still are. *)
Theorem record_completed_order_once (env : Env) (req_id : string) (telegram_id : Z)
    (username : string) (duration : Z) (amount : Decimal) (tx_hash : string)
    (telegram_id' : Z) (username' : string) (duration' : Z) (amount' : Decimal)
    (tx_hash' : string) (w : World) :
  let first :=
    record_completed_order req_id telegram_id username duration amount tx_hash (Some Conn) w in
  fst first = Ok (negb (has_completed req_id (view w)))
  /\ is_order_completed env req_id (Some Conn) (snd first) = (Ok true, snd first)
  /\ is_order_completed env req_id None (snd first)
     = (Ok (has_completed req_id (db w)), snd first)
  /\ record_completed_order req_id telegram_id' username' duration' amount' tx_hash'
       (Some Conn) (snd first)
     = (Ok false, snd first)
  /\ db (snd first) = db w
  /\ (NoDup (map co_req_id (completed_orders (view w))) ->
      NoDup (map co_req_id (completed_orders (view (snd first))))).
Proof.
  intros first. subst first. rewrite record_completed_order_run.
  destruct (has_completed req_id (view w)) eqn:E.
  - cbn [fst snd negb]. conjs.
    + reflexivity.
    + unfold is_order_completed, bind, select. rewrite E. reflexivity.
    + unfold is_order_completed. rewrite (get_db_query env (has_completed req_id)).
      reflexivity.
    + rewrite record_completed_order_run, E. reflexivity.
    + reflexivity.
    + intros H. exact H.
  - cbn [fst snd negb].
    set (row := {| co_req_id := req_id; co_telegram_id := telegram_id;
                   co_username := username; co_duration := duration;
                   co_amount := amount; co_created_at := now w; co_tx_hash := tx_hash |}).
    assert (Hnow : has_completed req_id (view (set_txn (txn w ++ [InsertCompletedOrder row]) w))
                   = true).
    { rewrite view_execute. unfold has_completed. simpl.
      rewrite existsb_app. simpl. rewrite String.eqb_refl, orb_true_r. reflexivity. }
    conjs.
    + reflexivity.
    + unfold is_order_completed, bind, select. rewrite Hnow. reflexivity.
    + unfold is_order_completed. rewrite (get_db_query env (has_completed req_id)).
      reflexivity.
    + rewrite record_completed_order_run, Hnow. reflexivity.
    + reflexivity.
    + intros H. rewrite view_execute. simpl. rewrite map_app. simpl.
      apply NoDup_app; [exact H | repeat constructor; intros [] |].
      intros x Hx [Hv | []]. subst x.
      apply in_map_iff in Hx. destruct Hx as [r [Hr Hin]].
      assert (Hex : has_completed req_id (view w) = true).
      { unfold has_completed. apply existsb_exists. exists r.
        split; [exact Hin | apply String.eqb_eq; exact Hr]. }
      congruence.
Qed.

(** ** Deposits (usdtpay.py) *)

(** X8.  [handle_usdt_payment] never raises and leaves the uncommitted
    writes of the caller's connection alone.  When an open order has the
    amount but its number is already in [okusdt], the flip of the order and
    the credit are rolled back with the refused insert: the world is as it
    was, and nobody is notified. *)
Theorem handle_usdt_payment_all_or_nothing (env : Env) (a : Decimal) (w : World) :
  fst (handle_usdt_payment env a w) = Ok tt
  /\ txn (snd (handle_usdt_payment env a w)) = txn w
  /\ (forall order,
        find (open_with_amount a) (usdtpay (db w)) = Some order ->
        existsb (fun k => String.eqb (ok_out_trade_no k) (up_out_trade_no order))
          (okusdt (db w)) = true ->
        handle_usdt_payment env a w = (Ok tt, w)).
Proof.
  conjs.
  - unfold handle_usdt_payment, try_except.
    match goal with |- context [get_db env ?b w] => destruct (get_db env b w) as [[[]|e] w1] end;
      reflexivity.
  - unfold handle_usdt_payment, try_except.
    match goal with |- context [get_db env ?b w] =>
      pose proof (get_db_txn env b w) as Ht; destruct (get_db env b w) as [[[]|e] w1] end;
      exact Ht.
  - intros order Hfind Hdup.
    destruct (credit_accepted env (up_telegram_id order) a (db w)) eqn:Hacc.
    + unfold handle_usdt_payment.
      erewrite try_except_raise.
      2:{ eapply get_db_raise.
          erewrite bind_ok by reflexivity. unfold view; simpl. rewrite Hfind. cbv zeta.
          erewrite bind_ok by reflexivity.
          erewrite bind_ok by reflexivity.
          erewrite bind_ok.
          2:{ unfold credit_accepted in Hacc.
              destruct (find_balance (up_telegram_id order) (user_balances (db w))) as [r|].
              - unfold check_range. apply negb_true_iff in Hacc. rewrite Hacc. reflexivity.
              - reflexivity. }
          erewrite bind_ok by reflexivity.
          rewrite Hdup. reflexivity. }
      destruct w; reflexivity.
    + apply (handle_usdt_payment_refused env a w order Hfind Hacc).
Qed.

Lemma save_usdt_order_to_db_run (env : Env) (telegram_id : Z) (no : string)
    (created_at expires_at : Z) (v : Decimal) (w : World) :
  save_usdt_order_to_db env telegram_id no created_at expires_at v w
  = if strict_sql_mode env && (column_max 100 <? Z.abs (round_half_up 100 v))
    then (Raise (DataError ("(1264, " +++ DQ +++ "Out of range value for column 'amount' at row 1"
                            +++ DQ +++ ")")), w)
    else if existsb (fun r => String.eqb (up_out_trade_no r) no) (usdtpay (db w))
    then (Raise (IntegrityError "Duplicate entry for key 'PRIMARY'"), w)
    else (Ok tt,
          set_db (apply_write
                    (InsertUsdtpay
                       {| up_out_trade_no := no; up_telegram_id := telegram_id;
                          up_created_at := created_at; up_expires_at := Some expires_at;
                          up_status := 0; up_amount := v |})
                    (db w)) w).
Proof.
  destruct w as [d tx t n s u dr al].
  unfold save_usdt_order_to_db, get_db, bind, select, execute, commit, raise, check_range, view;
    simpl.
  destruct (strict_sql_mode env && (column_max 100 <? Z.abs (round_half_up 100 v)));
    destruct (existsb (fun r => String.eqb (up_out_trade_no r) no) (usdtpay d));
    destruct (conn_autocommit env); reflexivity.
Qed.

Lemma cancel_usdt_order_run (env : Env) (no : string) (w : World) :
  cancel_usdt_order env no w
  = if existsb (fun r => String.eqb (up_out_trade_no r) no && (up_status r =? 0))
         (usdtpay (db w))
    then (Ok true, set_db (apply_write (SetUsdtpayStatus no 2) (db w)) w)
    else (Ok false, w).
Proof.
  destruct w as [d tx t n s u dr al].
  unfold cancel_usdt_order, try_except, get_db, bind, select, execute, commit, ret, view; simpl.
  destruct (existsb (fun r => String.eqb (up_out_trade_no r) no && (up_status r =? 0))
              (usdtpay d));
    destruct (conn_autocommit env); reflexivity.
Qed.

Lemma set_usdtpay_status_closed (no : string) (s : Z) (rows : list usdtpay_row)
    (x : usdtpay_row) :
  s <> 0 -> In x (set_usdtpay_status no s rows) -> up_status x = 0 ->
  up_out_trade_no x <> no /\ In x rows.
Proof.
  unfold set_usdtpay_status. intros Hs Hin Hopen. apply in_map_iff in Hin.
  destruct Hin as [y [Hy Hiny]].
  destruct (String.eqb (up_out_trade_no y) no) eqn:E.
  - subst x. simpl in Hopen. congruence.
  - subst x. split; [apply String.eqb_neq; exact E | exact Hiny].
Qed.

Lemma find_none_iff {A} (f : A -> bool) (l : list A) :
  find f l = None <-> forall x, In x l -> f x = false.
Proof.
  split.
  - intros H x Hx. exact (find_none f l H x Hx).
  - intros H. destruct (find f l) as [y|] eqn:E; [|reflexivity].
    apply find_some in E. destruct E as [Hin Hf]. rewrite (H y Hin) in Hf. discriminate.
Qed.

(** X9.  [cancel_usdt_order] never raises and answers True exactly when the
    order of that number was open.  Afterwards no open order carries the
    number, a second cancel answers False and changes nothing, the balances
    are untouched, and a transfer whose amount only that order was waiting
    for credits nobody. *)
Theorem cancel_usdt_order_closes (env : Env) (out_trade_no : string) (w : World) :
  let outcome := cancel_usdt_order env out_trade_no w in
  fst outcome
  = Ok (existsb (fun r => String.eqb (up_out_trade_no r) out_trade_no && (up_status r =? 0))
          (usdtpay (db w)))
  /\ (forall r, In r (usdtpay (db (snd outcome))) -> up_status r = 0 ->
                up_out_trade_no r <> out_trade_no)
  /\ cancel_usdt_order env out_trade_no (snd outcome) = (Ok false, snd outcome)
  /\ user_balances (db (snd outcome)) = user_balances (db w)
  /\ txn (snd outcome) = txn w
  /\ (forall a,
        (forall r, In r (usdtpay (db w)) -> open_with_amount a r = true ->
                   up_out_trade_no r = out_trade_no) ->
        handle_usdt_payment env a (snd outcome) = (Ok tt, snd outcome)).
Proof.
  intros outcome. subst outcome.
  assert (Hclosed : forall r, In r (usdtpay (db (snd (cancel_usdt_order env out_trade_no w)))) ->
                              up_status r = 0 -> up_out_trade_no r <> out_trade_no).
  { rewrite cancel_usdt_order_run.
    destruct (existsb _ (usdtpay (db w))) eqn:E; simpl.
    - intros r Hr Hopen.
      apply (set_usdtpay_status_closed out_trade_no 2 (usdtpay (db w)) r);
        [lia | exact Hr | exact Hopen].
    - intros r Hr Hopen Hno.
      assert (Hex : existsb (fun r => String.eqb (up_out_trade_no r) out_trade_no
                                      && (up_status r =? 0)) (usdtpay (db w)) = true).
      { apply existsb_exists. exists r. split; [exact Hr|].
        rewrite Hno, String.eqb_refl, Hopen. reflexivity. }
      congruence. }
  assert (Hagain : existsb (fun r => String.eqb (up_out_trade_no r) out_trade_no
                                     && (up_status r =? 0))
                     (usdtpay (db (snd (cancel_usdt_order env out_trade_no w)))) = false).
  { destruct (existsb _ (usdtpay (db (snd (cancel_usdt_order env out_trade_no w))))) eqn:E;
      [|reflexivity].
    apply existsb_exists in E. destruct E as [r [Hr Hb]].
    apply andb_true_iff in Hb. destruct Hb as [Hno Hopen].
    apply String.eqb_eq in Hno. apply Z.eqb_eq in Hopen.
    exfalso. exact (Hclosed r Hr Hopen Hno). }
  conjs.
  - rewrite cancel_usdt_order_run. destruct (existsb _ (usdtpay (db w))); reflexivity.
  - exact Hclosed.
  - rewrite (cancel_usdt_order_run env out_trade_no (snd (cancel_usdt_order env out_trade_no w))).
    rewrite Hagain. reflexivity.
  - rewrite cancel_usdt_order_run. destruct (existsb _ (usdtpay (db w))); reflexivity.
  - rewrite cancel_usdt_order_run.
    destruct (existsb _ (usdtpay (db w))); destruct w; reflexivity.
  - intros a Honly. apply handle_usdt_payment_no_match.
    apply find_none_iff. intros x Hx.
    destruct (open_with_amount a x) eqn:Hopen; [|reflexivity].
    exfalso.
    assert (Hst : up_status x = 0).
    { unfold open_with_amount in Hopen. apply andb_true_iff in Hopen.
      apply Z.eqb_eq. exact (proj2 Hopen). }
    apply (Hclosed x Hx Hst).
    revert Hx. rewrite cancel_usdt_order_run.
    destruct (existsb _ (usdtpay (db w))) eqn:E; simpl; intros Hx.
    + destruct (set_usdtpay_status_closed out_trade_no 2 (usdtpay (db w)) x) as [_ Hin];
        [lia | exact Hx | exact Hst |].
      exact (Honly x Hin Hopen).
    + exact (Honly x Hx Hopen).
Qed.

Lemma pending_orders_count_insert (other : Z) (row : usdtpay_row) (d : DB) :
  pending_orders_count other (apply_write (InsertUsdtpay row) d)
  = Nat.add (pending_orders_count other d)
      (if (up_telegram_id row =? other) && (up_status row =? 0) then 1%nat else 0%nat).
Proof.
  unfold pending_orders_count. simpl. rewrite filter_app, length_app. simpl.
  destruct ((up_telegram_id row =? other) && (up_status row =? 0)); reflexivity.
Qed.

(** Where a call of [handle_deposit] can leave the tables: as they were, or
    with one more open order of the user, who had fewer than three. *)
Lemma handle_deposit_tables (env : Env) (fuel : nat) (user_id message_date : Z) (amount : Q)
    (payment_address : res string) (w : World) :
  let outcome := handle_deposit env fuel user_id message_date amount payment_address w in
  (exists reply, fst outcome = Ok reply)
  /\ txn (snd outcome) = txn w
  /\ ((db (snd outcome) = db w /\ forall text, fst outcome <> Ok (Some (true, text)))
      \/ ((pending_orders_count user_id (db w) < 3)%nat
          /\ exists row,
               up_telegram_id row = user_id /\ up_status row = 0
               /\ db (snd outcome) = apply_write (InsertUsdtpay row) (db w))).
Proof.
  intros outcome. subst outcome.
  destruct (handle_deposit env fuel user_id message_date amount payment_address w)
    as [reply w'] eqn:H.
  cbn [fst snd]. unfold handle_deposit, try_except in H.
  destruct (Qle_bool amount 0).
  { inversion H; subst. conjs; [eexists; reflexivity | reflexivity |].
    left. split; [reflexivity | intros text H0; discriminate H0]. }
  assert (Hq := get_db_query env (fun d => (3 <=? pending_orders_count user_id d)%nat) w).
  cbv beta in Hq. rewrite (bind_ok _ _ _ _ _ Hq) in H. clear Hq.
  destruct (3 <=? pending_orders_count user_id (db w))%nat eqn:Hcount.
  { inversion H; subst. conjs; [eexists; reflexivity | reflexivity |].
    left. split; [reflexivity | intros text H0; discriminate H0]. }
  apply Nat.leb_gt in Hcount.
  destruct payment_address as [address|e].
  2:{ inversion H; subst. conjs; [eexists; reflexivity | reflexivity |].
      left. split; [reflexivity | intros text H0; discriminate H0]. }
  erewrite bind_ok in H by reflexivity.
  destruct (reads_generate_unique_usdt_amount env fuel amount w) as [Hd1 Ht1].
  destruct (generate_unique_usdt_amount env fuel amount w) as [[[v|]|e] w1] eqn:G;
    simpl in Hd1, Ht1.
  - rewrite (bind_ok _ _ _ _ _ G) in H.
    erewrite bind_ok in H by reflexivity.
    unfold bind at 1 in H. rewrite save_usdt_order_to_db_run in H.
    destruct (strict_sql_mode env && (column_max 100 <? Z.abs (round_half_up 100 v))).
    + inversion H; subst. conjs; [eexists; reflexivity | exact Ht1 |].
      left. split; [exact Hd1 | intros text H0; discriminate H0].
    + destruct (existsb _ (usdtpay (db w1))).
      * inversion H; subst. conjs; [eexists; reflexivity | exact Ht1 |].
        left. split; [exact Hd1 | intros text H0; discriminate H0].
      * unfold bind at 1 in H.
        match type of H with context [send_message env user_id ?w2] =>
          destruct (send_message_frame env user_id w2) as [Hd2 [Ht2 _]];
          destruct (send_message env user_id w2) as [[[]|e] w3] end;
          simpl in Hd2, Ht2; inversion H; subst;
          (conjs; [eexists; reflexivity | congruence |]);
          right; (split; [exact Hcount|]); eexists;
          (split; [|split; [|rewrite Hd2, Hd1; reflexivity]]); reflexivity.
  - rewrite (bind_ok _ _ _ _ _ G) in H.
    inversion H; subst. conjs; [eexists; reflexivity | exact Ht1 |].
    left. split; [exact Hd1 | intros text H0; discriminate H0].
  - rewrite (bind_raise _ _ _ _ _ G) in H.
    inversion H; subst. conjs; [eexists; reflexivity | exact Ht1 |].
    left. split; [exact Hd1 | intros text H0; discriminate H0].
Qed.

(** X10.  [handle_deposit] never raises.  A user who already has three open
    orders is refused and nothing changes; otherwise the call creates at most
    one order, for that user and open, and creates it whenever it answers
    True.  So an account that has at most three open orders still has at most
    three afterwards, and the open orders of other accounts are not
    touched. *)
Theorem handle_deposit_limits_open_orders (env : Env) (fuel : nat) (user_id message_date : Z)
    (amount : Q) (payment_address : res string) (w : World) :
  let outcome := handle_deposit env fuel user_id message_date amount payment_address w in
  (exists reply, fst outcome = Ok reply)
  /\ (Qle_bool amount 0 = false -> (3 <= pending_orders_count user_id (db w))%nat ->
      outcome
      = (Ok (Some (false, "❗ 你有超过3条未处理的充值订单，请先完成或取消这些订单！")), w))
  /\ (forall account, (pending_orders_count account (db w) <= 3)%nat ->
        (pending_orders_count account (db (snd outcome)) <= 3)%nat)
  /\ (forall account, account <> user_id ->
        pending_orders_count account (db (snd outcome)) = pending_orders_count account (db w))
  /\ (pending_orders_count user_id (db w) <= pending_orders_count user_id (db (snd outcome))
      <= S (pending_orders_count user_id (db w)))%nat
  /\ (forall text, fst outcome = Ok (Some (true, text)) ->
        pending_orders_count user_id (db (snd outcome))
        = S (pending_orders_count user_id (db w))).
Proof.
  intros outcome.
  destruct (handle_deposit_tables env fuel user_id message_date amount payment_address w)
    as [Hok [_ Hdb]].
  fold outcome in Hok, Hdb.
  assert (Hcount : forall account,
             pending_orders_count account (db (snd outcome))
             = pending_orders_count account (db w)
             \/ (account = user_id /\ (pending_orders_count user_id (db w) < 3)%nat
                 /\ pending_orders_count account (db (snd outcome))
                    = S (pending_orders_count account (db w)))).
  { intros account. destruct Hdb as [[Hdb _] | [Hlt [row [Hu [Hs Hdb]]]]].
    - left. rewrite Hdb. reflexivity.
    - rewrite Hdb, pending_orders_count_insert, Hu, Hs. simpl. rewrite andb_true_r.
      destruct (user_id =? account) eqn:E.
      + apply Z.eqb_eq in E. right. subst account. repeat split; [exact Hlt | lia].
      + left. lia. }
  conjs.
  - exact Hok.
  - intros Hpos Hmany. subst outcome. unfold handle_deposit, try_except. rewrite Hpos.
    assert (Hq := get_db_query env (fun d => (3 <=? pending_orders_count user_id d)%nat) w).
    cbv beta in Hq. rewrite (bind_ok _ _ _ _ _ Hq).
    apply Nat.leb_le in Hmany. rewrite Hmany. reflexivity.
  - intros account Hle. destruct (Hcount account) as [H | [-> [Hlt H]]]; lia.
  - intros account Hne. destruct (Hcount account) as [H | [Heq _]]; [exact H | congruence].
  - destruct (Hcount user_id) as [H | [_ [_ H]]]; lia.
  - destruct (Hcount user_id) as [H | [_ [_ H]]]; lia.
  - intros text Htrue. destruct Hdb as [[_ Hnot] | [Hlt [row [Hu [Hs Hdb]]]]].
    + exfalso. exact (Hnot text Htrue).
    + rewrite Hdb, pending_orders_count_insert, Hu, Hs, Z.eqb_refl. simpl. lia.
Qed.

Lemma gather_one (m : M unit) (w : World) :
  fst (m w) = Ok tt -> gather [m] w = m w.
Proof.
  intros H. simpl. unfold bind, ret. destruct (m w) as [[[]|e] w1]; [reflexivity | discriminate H].
Qed.

Lemma reads_handle_usdt_payment_txn (env : Env) (a : Decimal) (w : World) :
  fst (handle_usdt_payment env a w) = Ok tt /\ txn (snd (handle_usdt_payment env a w)) = txn w.
Proof.
  unfold handle_usdt_payment, try_except.
  match goal with |- context [get_db env ?b w] =>
    pose proof (get_db_txn env b w) as Ht; destruct (get_db env b w) as [[[]|e] w1] end;
    split; try reflexivity; exact Ht.
Qed.

Lemma gather_payments (env : Env) (amounts : list Decimal) :
  forall w,
    fst (gather (map (handle_usdt_payment env) amounts) w) = Ok tt
    /\ txn (snd (gather (map (handle_usdt_payment env) amounts) w)) = txn w.
Proof.
  induction amounts as [|a amounts IH]; intros w; simpl.
  - split; reflexivity.
  - unfold bind. destruct (reads_handle_usdt_payment_txn env a w) as [Hok Ht].
    destruct (handle_usdt_payment env a w) as [[[]|e] w1]; [|discriminate Hok].
    simpl in Ht. destruct (IH w1) as [H1 H2]. split; congruence.
Qed.

(** X11.  [check_input_usdt] never raises.  When the address cannot be read,
    the request fails, the status is not 200 or no listed event is a transfer
    to the payment address, the poll changes nothing, whatever the state.
    When exactly one listed event is a transfer to the payment address, the
    poll does what [handle_usdt_payment] does with its amount; so, when one
    open order waits for that amount and the credit keeps the owner's balance
    within the column (the owner has a balance row and the order number is
    new to [okusdt]), the first poll leaves the owner with the sum of the old
    balance and the amount at the scale of the column, a multiple of 0.001
    within 0.0005 of the sum, and a second poll that lists the transfer
    changes nothing. *)
Theorem check_input_usdt_credits_once (env : Env) (address : string) :
  (forall payment_address response w,
      fst (check_input_usdt env payment_address response w) = Ok tt)
  /\ (forall e response w, check_input_usdt env (Raise e) response w = (Ok tt, w))
  /\ (forall e w, check_input_usdt env (Ok address) (Raise e) w = (Ok tt, w))
  /\ (forall status_code data w, status_code <> 200 ->
        check_input_usdt env (Ok address) (Ok (status_code, data)) w = (Ok tt, w))
  /\ (forall others w,
        filter (fun e => String.eqb (transferToAddress e) address) others = [] ->
        check_input_usdt env (Ok address) (Ok (200, others)) w = (Ok tt, w))
  /\ (forall data event w,
        filter (fun e => String.eqb (transferToAddress e) address) data = [event] ->
        check_input_usdt env (Ok address) (Ok (200, data)) w
        = handle_usdt_payment env (event_amount event) w)
  /\ (forall data event w order r,
        filter (fun e => String.eqb (transferToAddress e) address) data = [event] ->
        filter (open_with_amount (event_amount event)) (usdtpay (db w)) = [order] ->
        find_balance (up_telegram_id order) (user_balances (db w)) = Some r ->
        existsb (fun k => String.eqb (ok_out_trade_no k) (up_out_trade_no order))
          (okusdt (db w)) = false ->
        0 <= ub_balance r -> 0 <= event_amount event ->
        ub_balance r + event_amount event <= column_max 1000 ->
        let poll := check_input_usdt env (Ok address) (Ok (200, data)) in
        let balance := balance_of (up_telegram_id order) (db (snd (poll w))) in
        balance
        = round_float_sum 1000 (double_halfway_up env) (ub_balance r + event_amount event)
        /\ balance mod 1000 = 0
        /\ 2 * Z.abs (balance - (ub_balance r + event_amount event)) <= 1000
        /\ poll (snd (poll w)) = (Ok tt, snd (poll w))).
Proof.
  assert (Hpoll : forall data event w,
             filter (fun e => String.eqb (transferToAddress e) address) data = [event] ->
             check_input_usdt env (Ok address) (Ok (200, data)) w
             = handle_usdt_payment env (event_amount event) w).
  { intros data event w Hone.
    assert (Hdata : (0 <? List.length data)%nat = true).
    { destruct data as [|x data]; [discriminate Hone | reflexivity]. }
    unfold check_input_usdt, try_except.
    erewrite bind_ok by reflexivity.
    erewrite bind_ok by reflexivity.
    cbv beta iota. change (200 =? 200) with true. rewrite Hdata. cbn [andb].
    rewrite Hone. cbn [map].
    destruct (reads_handle_usdt_payment_txn env (event_amount event) w) as [Hok _].
    rewrite (gather_one _ _ Hok).
    destruct (handle_usdt_payment env (event_amount event) w) as [[[]|e] w1];
      [reflexivity | discriminate Hok]. }
  conjs.
  - intros payment_address response w. unfold check_input_usdt, try_except.
    match goal with |- context [match ?m w with _ => _ end] =>
      destruct (m w) as [[[]|e] w1] end; reflexivity.
  - intros e response w. reflexivity.
  - intros e w. reflexivity.
  - intros status_code data w Hne. unfold check_input_usdt, try_except, answer, bind, ret.
    apply Z.eqb_neq in Hne. rewrite Hne. reflexivity.
  - intros others w Hnone. unfold check_input_usdt, try_except, answer, bind, ret.
    rewrite Hnone. simpl. destruct (0 <? List.length others)%nat; reflexivity.
  - exact Hpoll.
  - intros data event w order r Hone Hopen Hrow Hnew Hb Ha Hfit poll balance.
    subst balance poll.
    destruct (handle_usdt_payment_first env (event_amount event) w order r Hopen Hrow Hnew
                ltac:(lia) Hfit) as [_ [Hbal Hgone]].
    rewrite (Hpoll data event w Hone).
    conjs.
    + exact Hbal.
    + rewrite Hbal. apply round_float_sum_step.
    + rewrite Hbal. apply round_float_sum_close. lia.
    + rewrite (Hpoll data event _ Hone).
      apply handle_usdt_payment_no_match, Hgone.
Qed.

(** Two polls list the transfer of 10.0043 that the open order of account
    1001 waits for: the balance of 50.000 becomes 60.004 and stays. *)
Lemma check_input_usdt_credits_once_witness :
  filter (fun e => String.eqb (transferToAddress e) shop_address) explorer_data
  = [{| transferToAddress := shop_address; event_amount := 10004300 |}]
  /\ filter (open_with_amount 10004300) (usdtpay (db deposit_world)) = [open_order]
  /\ balance_of 1001
       (db (snd (check_input_usdt (shop true (fun _ => session_down) delivered)
                   (Ok shop_address) (Ok (200, explorer_data)) deposit_world)))
     = 60004000
  /\ balance_of 1001
       (db (snd (check_input_usdt (shop true (fun _ => session_down) delivered)
                   (Ok shop_address) (Ok (200, explorer_data))
                   (snd (check_input_usdt (shop true (fun _ => session_down) delivered)
                           (Ok shop_address) (Ok (200, explorer_data)) deposit_world)))))
     = 60004000.
Proof.
  assert (H0 : filter (fun e => String.eqb (transferToAddress e) shop_address) explorer_data
               = [{| transferToAddress := shop_address; event_amount := 10004300 |}])
    by reflexivity.
  assert (H1 : filter (open_with_amount
                         (event_amount {| transferToAddress := shop_address;
                                          event_amount := 10004300 |}))
                 (usdtpay (db deposit_world)) = [open_order]) by reflexivity.
  assert (H2 : find_balance (up_telegram_id open_order) (user_balances (db deposit_world))
               = Some (account (milli 50000))) by reflexivity.
  assert (H3 : existsb (fun k => String.eqb (ok_out_trade_no k) (up_out_trade_no open_order))
                 (okusdt (db deposit_world)) = false) by reflexivity.
  assert (H4 : 0 <= ub_balance (account (milli 50000))) by (vm_compute; discriminate).
  assert (H5 : 0 <= event_amount {| transferToAddress := shop_address;
                                     event_amount := 10004300 |}) by (vm_compute; discriminate).
  assert (H6 : ub_balance (account (milli 50000))
               + event_amount {| transferToAddress := shop_address; event_amount := 10004300 |}
               <= column_max 1000) by (vm_compute; discriminate).
  destruct (check_input_usdt_credits_once (shop true (fun _ => session_down) delivered)
              shop_address) as [_ [_ [_ [_ [_ [_ Hcredit]]]]]].
  destruct (Hcredit explorer_data
              {| transferToAddress := shop_address; event_amount := 10004300 |}
              deposit_world open_order (account (milli 50000)) H0 H1 H2 H3 H4 H5 H6)
    as [Hb [_ [_ Hagain]]].
  split; [exact H0|]. split; [exact H1|].
  split; [exact (eq_trans Hb eq_refl)|].
  rewrite Hagain. exact (eq_trans Hb eq_refl).
Defined.

(** ** What the drain does with a refusal (bot.py) *)

Lemma record_purchase_order_run (env : Env) (telegram_id : Z) (username : string)
    (duration : Z) (amount : Decimal) (status : purchase_status) (w : World) :
  record_purchase_order env telegram_id username duration amount status Conn w
  = let w0 := set_uuids (S (uuids w)) w in
    if existsb (fun r => String.eqb (po_order_id r) (uuid4 env (uuids w)))
         (purchase_orders (view w))
    then (Raise (IntegrityError "Duplicate entry for key 'PRIMARY'"), w0)
    else (Ok (uuid4 env (uuids w)),
          set_txn (txn w ++ [InsertPurchaseOrder
                               {| po_order_id := uuid4 env (uuids w);
                                  po_telegram_id := telegram_id; po_username := username;
                                  po_duration := duration; po_amount := amount;
                                  po_status := status; po_created_at := now w |}]) w0).
Proof.
  destruct w as [d tx t n s u dr al].
  unfold record_purchase_order, bind, generate_order_id, select, view; simpl.
  destruct (existsb _ (purchase_orders (apply_writes tx d))); reflexivity.
Qed.

(** X12.  When [activate_premium] has answered failure, the drain charges
    nothing: after [settle] the balances are what they were, in the committed
    tables and as the drain's connection reads them, no settlement record is
    written and no provider session is opened.  Unless the drawn order id is
    taken, the task is committed as 'failed' with the provider's message and
    one more retry counted, and the purchase order written for it carries the
    amount 0. *)
Theorem settle_refusal_charges_nothing (env : Env) (task_id telegram_id : Z)
    (username : string) (duration retry_count : Z) (message : string)
    (actual_amount : option Decimal) (w : World) :
  let outcome :=
    settle env (task_id, telegram_id, username, duration, retry_count)
      (false, message, actual_amount) Conn w in
  user_balances (db (snd outcome)) = user_balances (db w)
  /\ user_balances (view (snd outcome)) = user_balances (view w)
  /\ completed_orders (db (snd outcome)) = completed_orders (db w)
  /\ sessions (snd outcome) = sessions w
  /\ (existsb (fun r => String.eqb (po_order_id r) (uuid4 env (uuids w)))
        (purchase_orders (view w)) = false ->
      db (snd outcome) = apply_write (FailQueueTask task_id failed (Some message) (now w)) (db w)
      /\ txn (snd outcome)
         = txn w ++ [InsertPurchaseOrder
                       {| po_order_id := uuid4 env (uuids w); po_telegram_id := telegram_id;
                          po_username := username; po_duration := duration; po_amount := 0;
                          po_status := Failed; po_created_at := now w |}]).
Proof.
  intros outcome. subst outcome.
  destruct (settle env (task_id, telegram_id, username, duration, retry_count)
              (false, message, actual_amount) Conn w) as [result w'] eqn:H.
  cbn [fst snd]. unfold settle in H.
  unfold bind at 1 in H. rewrite record_purchase_order_run in H. cbv zeta in H.
  destruct (existsb _ (purchase_orders (view w))) eqn:E.
  - inversion H; subst. conjs; try (destruct w; reflexivity).
    intros H0. discriminate H0.
  - erewrite bind_ok in H by apply update_queue_task_status_spec.
    simpl task_status_eqb in H. cbv iota in H.
    match type of H with send_message env telegram_id ?w2 = _ =>
      destruct (send_message_frame env telegram_id w2) as [Hd [Ht [Hs _]]] end.
    rewrite H in Hd, Ht, Hs.
    cbn [fst snd db txn sessions set_db set_txn set_uuids] in Hd, Ht, Hs.
    conjs.
    + rewrite Hd. reflexivity.
    + unfold view. rewrite Hd, Ht. rewrite apply_writes_app. simpl.
      apply user_balances_apply_writes. reflexivity.
    + rewrite Hd. reflexivity.
    + exact Hs.
    + intros _. split; [exact Hd | exact Ht].
Qed.

(** ** The administrator's balance adjustment (bot.py) *)

(** Whether the server takes the balance [sum] that [set_balance] writes. *)
Lemma update_admin_config_balance_tables (env : Env) (user_id target_id : Z)
    (amount : Decimal) (w : World) :
  existsb (Z.eqb user_id) (ADMIN_IDS env) = true ->
  let outcome := update_admin_config_balance env user_id target_id amount w in
  let sum := balance_of target_id (db w) + amount in
  txn (snd outcome) = txn w
  /\ db (snd outcome)
     = if (sum <? 0)
          || (strict_sql_mode env && (column_max 1000 <? Z.abs (round_half_up 1000 sum)))
       then db w
       else apply_write
              (UpsertBalance target_id ("User" +++ show_Z target_id) sum (now w))
              (db w).
Proof.
  intros Hadmin outcome sum. subst outcome sum.
  destruct (update_admin_config_balance env user_id target_id amount w) as [result w'] eqn:H.
  cbn [fst snd]. unfold update_admin_config_balance in H.
  rewrite Hadmin in H. cbn [negb] in H.
  assert (Hbegin : begin Conn (set_txn [] w) = (Ok tt, set_txn [] w))
    by (destruct w; reflexivity).
  assert (Hview : view (set_txn [] w) = db w) by reflexivity.
  unfold bind at 1 in H. unfold get_db in H.
  rewrite (bind_ok _ _ _ _ _ Hbegin) in H.
  assert (Hraise : forall e,
            set_balance env target_id amount Conn (set_txn [] w) = (Raise e, set_txn [] w) ->
            txn w' = txn w /\ db w' = db w).
  { intros e Hset.
    erewrite try_except_raise in H by (erewrite bind_raise by exact Hset; reflexivity).
    unfold bind at 1 in H. unfold rollback at 1 in H. rewrite set_txn_twice in H.
    unfold bind at 1 in H.
    destruct (send_message_frame env user_id (set_txn [] w)) as [Hd [Ht _]].
    destruct (send_message env user_id (set_txn [] w)) as [[[]|e'] w1]; simpl in Hd, Ht.
    - unfold ret at 1 in H. destruct (conn_autocommit env); inversion H; subst; simpl;
        unfold view; rewrite ?Ht, ?Hd; simpl; split; reflexivity.
    - inversion H; subst. simpl. split; [reflexivity | exact Hd]. }
  destruct (balance_of target_id (db w) + amount <? 0) eqn:Hneg.
  - apply Z.ltb_lt in Hneg. cbn [orb].
    assert (Hset := set_balance_raises env target_id amount (set_txn [] w)).
    rewrite Hview in Hset. exact (Hraise _ (Hset Hneg)).
  - apply Z.ltb_ge in Hneg. cbn [orb].
    destruct (strict_sql_mode env
              && (column_max 1000 <? Z.abs (round_half_up 1000
                                             (balance_of target_id (db w) + amount))))
      eqn:Hfit.
    + assert (Hset := set_balance_refused env target_id amount (set_txn [] w)).
      rewrite Hview in Hset. exact (Hraise _ (Hset Hneg Hfit)).
    + clear Hraise.
      assert (Hset := set_balance_returns env target_id amount (set_txn [] w)).
      rewrite Hview in Hset. specialize (Hset Hneg Hfit).
      erewrite try_except_ok in H
        by (erewrite bind_ok by exact Hset; erewrite bind_ok by reflexivity; reflexivity).
      set (newdb := apply_write
                      (UpsertBalance target_id ("User" +++ show_Z target_id)
                         (balance_of target_id (db w) + amount) (now w)) (db w)).
      match type of H with context [set_txn (txn w) ?x] => set (w1 := set_txn (txn w) x) in H end.
      assert (Hw1 : db w1 = newdb /\ txn w1 = txn w).
      { subst w1. destruct (conn_autocommit env); split; reflexivity. }
      clearbody w1. destruct Hw1 as [Hd1 Ht1].
      assert (Htail : reads (send_message env user_id ;;
                             try_except_telegram (send_message env target_id)
                               (fun text code => ret tt) ;;
                             ret true)) by auto 10 with frame.
      destruct (Htail w1) as [Hd Ht]. rewrite H in Hd, Ht. simpl in Hd, Ht.
      split; congruence.
Qed.

(** X13.  Only an administrator adjusts a balance: for any other sender
    [update_admin_config] answers False and changes nothing.  For an
    administrator the adjustment is all or nothing, whether or not the
    replies go through, and leaves every other account alone.  An adjustment
    that would make the balance negative commits nothing, and so does one
    that a server in strict mode refuses because the rounded sum is beyond
    the column.  Any other adjustment whose sum fits the column commits, for
    the target account (creating its row if there was none), the sum rounded
    to three places, a half going up: within 0.0005 of the sum, and the sum
    itself when it has three places.  Adding an amount of at most three
    places to a balance of three places and then deducting it restores the
    balance. *)
Theorem update_admin_config_balance_adjusts (env : Env) (user_id target_id : Z)
    (amount : Decimal) (w : World) :
  let outcome := update_admin_config_balance env user_id target_id amount w in
  let sum := balance_of target_id (db w) + amount in
  let balance := balance_of target_id (db (snd outcome)) in
  (existsb (Z.eqb user_id) (ADMIN_IDS env) = false -> outcome = (Ok false, w))
  /\ (existsb (Z.eqb user_id) (ADMIN_IDS env) = true ->
      txn (snd outcome) = txn w
      /\ (forall other, other <> target_id ->
            balance_of other (db (snd outcome)) = balance_of other (db w))
      /\ (sum < 0 -> db (snd outcome) = db w)
      /\ (0 <= sum -> column_max 1000 < round_half_up 1000 sum ->
          strict_sql_mode env = true -> db (snd outcome) = db w)
      /\ (0 <= sum -> sum <= column_max 1000 ->
          balance = round_half_up 1000 sum
          /\ balance mod 1000 = 0
          /\ 2 * Z.abs (balance - sum) <= 1000
          /\ (sum mod 1000 = 0 -> balance = sum))
      /\ (0 <= balance_of target_id (db w) -> 0 <= amount ->
          balance_of target_id (db w) mod 1000 = 0 -> amount mod 1000 = 0 ->
          sum <= column_max 1000 ->
          balance_of target_id
            (db (snd (update_admin_config_balance env user_id target_id (- amount)
                        (snd outcome))))
          = balance_of target_id (db w))).
Proof.
  intros outcome sum balance. split.
  - intros Hnot. subst outcome. unfold update_admin_config_balance. rewrite Hnot. reflexivity.
  - intros Hadmin.
    destruct (update_admin_config_balance_tables env user_id target_id amount w Hadmin)
      as [Ht Hdb].
    fold outcome in Ht, Hdb. fold sum in Hdb.
    pose proof (round_half_up_close 1000 sum ltac:(lia)) as Hclose.
    pose proof (round_half_up_step 1000 sum) as Hstep.
    assert (Hok : 0 <= sum -> sum <= column_max 1000 -> balance = round_half_up 1000 sum).
    { intros Hge Hle. subst balance. rewrite Hdb.
      replace (sum <? 0) with false by (symmetry; apply Z.ltb_ge; lia).
      pose proof (round_half_up_nonneg 1000 sum ltac:(lia) Hge) as Hnn.
      assert (Hin : round_half_up 1000 sum <= (10 ^ 10 - 1) * 1000).
      { apply (rounded_le_multiple 1000 sum); [lia | exact Hstep | exact Hclose | exact Hle]. }
      replace (column_max 1000 <? Z.abs (round_half_up 1000 sum)) with false
        by (symmetry; apply Z.ltb_ge; unfold column_max; lia).
      rewrite andb_false_r. cbn [orb].
      rewrite balance_of_upsert, Z.eqb_refl.
      unfold to_column. apply clip_fits. unfold column_max. lia. }
    conjs.
    + exact Ht.
    + intros other Hother. rewrite Hdb.
      destruct ((sum <? 0) || _); [reflexivity|].
      rewrite balance_of_upsert.
      destruct (other =? target_id) eqn:E; [apply Z.eqb_eq in E; congruence | reflexivity].
    + intros Hneg. rewrite Hdb. apply Z.ltb_lt in Hneg. rewrite Hneg. reflexivity.
    + intros Hge Hover Hstrict. rewrite Hdb, Hstrict.
      pose proof (round_half_up_nonneg 1000 sum ltac:(lia) Hge) as Hnn.
      replace (column_max 1000 <? Z.abs (round_half_up 1000 sum)) with true
        by (symmetry; apply Z.ltb_lt; lia).
      rewrite orb_true_r. reflexivity.
    + intros Hge Hle. pose proof (Hok Hge Hle) as Hb. conjs.
      * exact Hb.
      * rewrite Hb. exact Hstep.
      * rewrite Hb. exact Hclose.
      * intros Hexact. rewrite Hb. apply round_half_up_exact; [lia | exact Hexact].
    + intros Hbal Hamount Hb3 Ha3 Hle.
      assert (Hsum3 : sum mod 1000 = 0).
      { subst sum. rewrite Z.add_mod by lia. rewrite Hb3, Ha3. reflexivity. }
      assert (Hfirst : balance = sum).
      { rewrite (Hok ltac:(subst sum; lia) Hle).
        apply round_half_up_exact; [lia | exact Hsum3]. }
      destruct (update_admin_config_balance_tables env user_id target_id (- amount)
                  (snd outcome) Hadmin) as [_ Hdb2].
      cbv zeta in Hdb2. fold balance in Hdb2. rewrite Hfirst in Hdb2.
      rewrite Hdb2.
      replace (sum + - amount) with (balance_of target_id (db w)) by (subst sum; lia).
      replace (balance_of target_id (db w) <? 0) with false
        by (symmetry; apply Z.ltb_ge; lia).
      rewrite (round_half_up_exact 1000 (balance_of target_id (db w))) by (lia || assumption).
      replace (column_max 1000 <? Z.abs (balance_of target_id (db w))) with false
        by (symmetry; apply Z.ltb_ge; subst sum; lia).
      rewrite andb_false_r. cbn [orb].
      rewrite balance_of_upsert, Z.eqb_refl.
      unfold to_column. rewrite round_half_up_exact by (lia || assumption).
      apply clip_fits. subst sum. lia.
Qed.

(** An administrator adds 0.0005 to the empty account 2002 and deducts it
    again: the column keeps 0.001 both times. *)
Example update_admin_config_balance_half_thousandth :
  balance_of 2002
    (db (snd (update_admin_config_balance (shop true (fun _ => session_down) delivered)
                7 2002 500 (world_of (store (milli 50000) [] [])))))
  = 1000
  /\ balance_of 2002
       (db (snd (update_admin_config_balance (shop true (fun _ => session_down) delivered)
                   7 2002 (-500)
                   (snd (update_admin_config_balance
                           (shop true (fun _ => session_down) delivered)
                           7 2002 500 (world_of (store (milli 50000) [] [])))))))
     = 1000.
Proof. vm_compute. split; reflexivity. Qed.

(** ** The amount to pay (usdtpay.py, [generate_unique_usdt_amount]) *)

(** Whatever the loop returns is the float sum of the base amount and a
    drawn offset, rounded. *)
Lemma generate_unique_usdt_amount_result (env : Env) (base_amount : Q) (fuel : nat) :
  forall (w : World) (v : Decimal),
    fst (generate_unique_usdt_amount env fuel base_amount w) = Ok (Some v) ->
    exists k, v = round4 (to_float (base_amount + uniform env k)).
Proof.
  induction fuel as [|fuel IH]; intros w v H.
  - discriminate H.
  - simpl generate_unique_usdt_amount in H.
    erewrite bind_ok in H by reflexivity.
    erewrite bind_ok in H by (apply (get_db_query env
      (fun d => existsb (open_with_amount
                           (round4 (to_float (base_amount + uniform env (draws w)))))
                  (usdtpay d)))).
    destruct (existsb _ _).
    + apply IH in H. exact H.
    + inversion H. eexists. reflexivity.
Qed.

(** X14.  For a requested amount between 0 and 1000000, with draws between
    the floats 0.001 and 0.01, the amount that [generate_unique_usdt_amount]
    asks the payer for is a multiple of 0.0001 that exceeds the requested
    amount by at least 0.00094 and at most 0.01006: the payer is never asked
    for less than they want to deposit. *)
Theorem generate_unique_usdt_amount_near_base (env : Env) (fuel : nat) (base_amount : Q)
    (w : World) (unique_amount : Decimal) :
  (0 <= base_amount)%Q -> (base_amount <= 1000000 # 1)%Q ->
  (forall n, (to_float (1 # 1000) <= uniform env n)%Q
             /\ (uniform env n <= to_float (1 # 100))%Q) ->
  fst (generate_unique_usdt_amount env fuel base_amount w) = Ok (Some unique_amount) ->
  (base_amount + (94 # 100000) <= unique_amount # 1000000)%Q
  /\ (unique_amount # 1000000 <= base_amount + (1006 # 100000))%Q
  /\ (base_amount < unique_amount # 1000000)%Q
  /\ unique_amount mod 100 = 0.
Proof.
  intros Hbase Hmax Hrange H.
  destruct (generate_unique_usdt_amount_result env base_amount fuel w unique_amount H)
    as [k ->].
  destruct (Hrange k) as [Hlo Hhi].
  assert (Hlo' : (1 # 1000 <= to_float (1 # 1000))%Q) by (vm_compute; discriminate).
  assert (Hhi' : (to_float (1 # 100) <= 100001 # 10000000)%Q) by (vm_compute; discriminate).
  set (o := uniform env k) in *.
  set (lo := to_float (1 # 1000)) in *. set (hi := to_float (1 # 100)) in *.
  destruct (round4_to_float_close (base_amount + o) ltac:(lra)) as [H1 H2].
  set (v := (round4 (to_float (base_amount + o)) # 1000000)%Q) in *.
  unfold float_error in H1, H2.
  conjs.
  - lra.
  - lra.
  - lra.
  - apply round4_step.
Qed.

(** A request of 10 against [taken_world]: the payer is asked for 10.0020. *)
Lemma generate_unique_usdt_amount_near_base_witness :
  (0 <= 10 # 1)%Q /\ (10 # 1 <= 1000000 # 1)%Q
  /\ fst (generate_unique_usdt_amount (shop true (fun _ => session_down) delivered)
            5 (10 # 1) taken_world) = Ok (Some 10002000)
  /\ ((10 # 1) + (94 # 100000) <= 10002000 # 1000000)%Q
  /\ (10002000 # 1000000 <= (10 # 1) + (1006 # 100000))%Q.
Proof.
  assert (H0 : (0 <= 10 # 1)%Q) by (vm_compute; discriminate).
  assert (H1 : (10 # 1 <= 1000000 # 1)%Q) by (vm_compute; discriminate).
  assert (Hgen : fst (generate_unique_usdt_amount (shop true (fun _ => session_down) delivered)
                        5 (10 # 1) taken_world) = Ok (Some 10002000))
    by (vm_compute; reflexivity).
  destruct (generate_unique_usdt_amount_near_base
              (shop true (fun _ => session_down) delivered) 5 (10 # 1) taken_world 10002000
              H0 H1 (shop_uniform_range true (fun _ => session_down) delivered) Hgen)
    as [Hlo [Hhi _]].
  split; [exact H0|]. split; [exact H1|]. split; [exact Hgen|].
  split; [exact Hlo | exact Hhi].
Defined.

(** ** Payment addresses (usdtpay.py, [validate_trc20_address]) *)

Lemma alnum_run_spec (n : nat) :
  forall s tail,
    alnum_run n s = Some tail
    <-> exists body, s = body +++ tail /\ String.length body = n
                     /\ forallb is_ascii_alnum (list_ascii_of_string body) = true.
Proof.
  induction n as [|n IH]; intros s tail; simpl.
  - split.
    + intros H. inversion H. exists EmptyString. repeat split.
    + intros [body [Hs [Hlen _]]]. destruct body; [|discriminate Hlen].
      simpl in Hs. congruence.
  - destruct s as [|c rest].
    + split; [discriminate|].
      intros [body [Hs [Hlen _]]]. destruct body; [discriminate Hlen | discriminate Hs].
    + destruct (is_ascii_alnum c) eqn:Hc.
      * rewrite IH. split.
        -- intros [body [Hs [Hlen Hall]]]. exists (String c body). simpl.
           rewrite Hc, Hall, Hlen, Hs. repeat split.
        -- intros [body [Hs [Hlen Hall]]]. destruct body as [|c' body]; [discriminate Hlen|].
           simpl in Hs, Hlen, Hall. inversion Hs; subst c'.
           apply andb_true_iff in Hall. exists body. repeat split; [lia | apply Hall].
      * split; [discriminate|].
        intros [body [Hs [Hlen Hall]]]. destruct body as [|c' body]; [discriminate Hlen|].
        simpl in Hs, Hall. inversion Hs; subst c'. rewrite Hc in Hall. discriminate Hall.
Qed.

Lemma append_empty (s : string) : s +++ EmptyString = s.
Proof. induction s as [|c s IH]; simpl; [reflexivity | rewrite IH; reflexivity]. Qed.

Lemma length_append (s1 s2 : string) :
  String.length (s1 +++ s2) = (String.length s1 + String.length s2)%nat.
Proof. induction s1 as [|c s1 IH]; simpl; [reflexivity | rewrite IH; reflexivity]. Qed.

Lemma validate_trc20_address_iff (address : string) :
  validate_trc20_address address = true
  <-> exists body tail,
        address = String "T" (body +++ tail)
        /\ String.length body = 33%nat
        /\ forallb is_ascii_alnum (list_ascii_of_string body) = true
        /\ (tail = EmptyString \/ tail = LF).
Proof.
  unfold validate_trc20_address. destruct address as [|c rest].
  - split; [discriminate|]. intros [body [tail [H _]]]. discriminate H.
  - split.
    + intros H. apply andb_true_iff in H. destruct H as [Hc Hrun].
      apply Ascii.eqb_eq in Hc. subst c.
      destruct (alnum_run 33 rest) as [tail|] eqn:E; [|discriminate Hrun].
      apply alnum_run_spec in E. destruct E as [body [Hs [Hlen Hall]]].
      exists body, tail. subst rest. repeat split; try assumption.
      apply orb_true_iff in Hrun. destruct Hrun as [Ht | Ht];
        apply String.eqb_eq in Ht; [left | right]; exact Ht.
    + intros [body [tail [Hs [Hlen [Hall Htail]]]]]. inversion Hs; subst c rest.
      rewrite Ascii.eqb_refl. cbn [andb].
      assert (E : alnum_run 33 (body +++ tail) = Some tail).
      { apply alnum_run_spec. exists body. repeat split; assumption. }
      rewrite E. destruct Htail as [-> | ->]; reflexivity.
Qed.

(** X15.  [validate_trc20_address] accepts exactly the strings made of a
    'T', then 33 ASCII letters or digits, then nothing or one final line
    feed: an accepted address has 34 characters, or 35 with the line feed
    that [$] lets through. *)
Theorem validate_trc20_address_shape (address : string) :
  (validate_trc20_address address = true
   <-> exists body tail,
         address = String "T" (body +++ tail)
         /\ String.length body = 33%nat
         /\ forallb is_ascii_alnum (list_ascii_of_string body) = true
         /\ (tail = EmptyString \/ tail = LF))
  /\ (validate_trc20_address address = true ->
      String.length address = 34%nat \/ String.length address = 35%nat)
  /\ (validate_trc20_address address = true -> String.length address = 34%nat ->
      validate_trc20_address (address +++ LF) = true).
Proof.
  conjs.
  - apply validate_trc20_address_iff.
  - intros H. apply validate_trc20_address_iff in H.
    destruct H as [body [tail [Hs [Hlen [_ Htail]]]]].
    subst address. simpl. rewrite length_append, Hlen.
    destruct Htail as [-> | ->]; [left | right]; reflexivity.
  - intros H Hlen34. apply validate_trc20_address_iff in H.
    destruct H as [body [tail [Hs [Hlen [Hall Htail]]]]].
    apply validate_trc20_address_iff. exists body, LF. subst address.
    simpl in Hlen34. rewrite length_append, Hlen in Hlen34.
    destruct Htail as [-> | ->]; [|discriminate Hlen34].
    rewrite append_empty. repeat split; try assumption. right; reflexivity.
Qed.

(** ** Enqueueing a purchase (bot.py, [handle_duration_selection]) *)

(** X16.  [handle_duration_selection] never touches a balance: nothing is
    reserved when a purchase is enqueued.  For a duration without a price it
    raises KeyError and changes nothing.  Otherwise it enqueues the purchase
    exactly when the account's balance covers the nominal price: the
    committed tables then differ by the one new pending task, and with a
    smaller balance they do not change at all. *)
Theorem handle_duration_selection_enqueues (env : Env) (user_id duration : Z)
    (username : string) (w : World) :
  let outcome := handle_duration_selection env user_id duration username w in
  txn (snd outcome) = txn w
  /\ user_balances (db (snd outcome)) = user_balances (db w)
  /\ (find (fun kv => fst kv =? duration) (PRICES env) = None ->
      outcome = (Raise (KeyError (show_Z duration)), w))
  /\ (forall kv, find (fun kv => fst kv =? duration) (PRICES env) = Some kv ->
        (balance_of user_id (db w) < snd kv -> db (snd outcome) = db w)
        /\ (snd kv <= balance_of user_id (db w) ->
            db (snd outcome)
            = apply_write
                (InsertQueueTask
                   {| q_id := next_task_id (premium_queue (db w)); q_telegram_id := user_id;
                      q_username := username; q_duration := duration; q_status := pending;
                      q_retry_count := 0; q_created_at := now w; q_updated_at := now w;
                      q_error_message := None |})
                (db w))).
Proof.
  intros outcome. subst outcome.
  assert (Hsay : reads (send_message env user_id ;; send_message env user_id))
    by auto with frame.
  destruct (handle_duration_selection env user_id duration username w) as [result w'] eqn:H.
  cbn [fst snd]. unfold handle_duration_selection in H.
  unfold bind at 1 in H. unfold price in H.
  destruct (find (fun kv => fst kv =? duration) (PRICES env)) as [kv|] eqn:Hprice.
  2:{ inversion H; subst. conjs; try reflexivity. intros kv Hkv. discriminate Hkv. }
  cbn [ret] in H.
  rewrite (bind_ok _ _ _ _ _ (get_balance_spec env user_id w)) in H.
  destruct (snd kv <=? balance_of user_id (db w)) eqn:Hcover.
  - apply Z.leb_le in Hcover. unfold try_except in H.
    rewrite (bind_ok _ _ _ _ _ (add_to_premium_queue_run env user_id username duration w)) in H.
    match type of H with context [set_db ?d w] =>
      set (w1 := set_db d w) in H;
      assert (Hw1 : db w1 = d /\ txn w1 = txn w) by (split; reflexivity) end.
    clearbody w1. destruct Hw1 as [Hd1 Ht1].
    destruct (Hsay w1) as [Hd Ht].
    assert (Hend : db w' = db w1 /\ txn w' = txn w1).
    { destruct ((send_message env user_id ;; send_message env user_id) w1) as [[[]|e] w2];
        simpl in Hd, Ht.
      - inversion H; subst. split; assumption.
      - destruct (Hsay w2) as [Hd2 Ht2]. rewrite H in Hd2, Ht2. simpl in Hd2, Ht2.
        split; congruence. }
    destruct Hend as [Hd' Ht']. conjs.
    + rewrite Ht'. exact Ht1.
    + rewrite Hd', Hd1. reflexivity.
    + intros Hnone. discriminate Hnone.
    + intros kv' Hkv'. inversion Hkv'; subst kv'.
      split; [lia | intros _; rewrite Hd'; exact Hd1].
  - apply Z.leb_gt in Hcover.
    destruct (Hsay w) as [Hd Ht]. rewrite H in Hd, Ht. simpl in Hd, Ht. conjs.
    + exact Ht.
    + rewrite Hd. reflexivity.
    + intros Hnone. discriminate Hnone.
    + intros kv' Hkv'. inversion Hkv'; subst kv'. split; [intros _; exact Hd | lia].
Qed.

(** ** The provider client (premium_service.py, [send_request]) *)

(** X17.  [send_request] posts at most three times: it never looks at a
    fourth answer.  It returns the first answer that is not an error, after
    waiting 2 seconds before the second attempt and 4 more before the third;
    when all three attempts fail it raises the error of the third.  Nothing
    but the clock changes. *)
Theorem send_request_retries {A : Type} (attempt : nat -> res A) (w : World) :
  let outcome := send_request attempt w in
  (forall result, attempt 0%nat = Ok result -> outcome = (Ok result, w))
  /\ (forall e result, attempt 0%nat = Raise e -> attempt 1%nat = Ok result ->
        outcome = (Ok result, set_now (now w + 2) w))
  /\ (forall e e', attempt 0%nat = Raise e -> attempt 1%nat = Raise e' ->
        outcome = (attempt 2%nat, set_now (now w + 6) w))
  /\ (forall other : nat -> res A,
        (forall n, (n < 3)%nat -> other n = attempt n) ->
        send_request other w = outcome)
  /\ now w <= now (snd outcome) <= now w + 6
  /\ set_now (now w) (snd outcome) = w.
Proof.
  intros outcome. subst outcome. unfold send_request.
  split; [|split; [|split; [|split; [|split]]]].
  - intros result H0. simpl. rewrite H0. reflexivity.
  - intros e result H0 H1. simpl. rewrite H0. unfold bind, sleep. simpl. rewrite H1.
    reflexivity.
  - intros e e' H0 H1. simpl. rewrite H0. unfold bind, sleep. simpl. rewrite H1.
    destruct w as [d tx t n s u dr al].
    simpl. destruct (attempt 2%nat); simpl; unfold ret, raise, set_now; simpl;
      rewrite <- Z.add_assoc; reflexivity.
  - intros other Hsame. simpl.
    rewrite (Hsame 0%nat) by lia. destruct (attempt 0%nat); [reflexivity|].
    unfold bind, sleep. simpl.
    rewrite (Hsame 1%nat) by lia. destruct (attempt 1%nat); [reflexivity|].
    simpl. rewrite (Hsame 2%nat) by lia. reflexivity.
  - simpl. destruct (attempt 0%nat); [simpl; lia|].
    unfold bind, sleep. simpl. destruct (attempt 1%nat); [simpl; lia|].
    simpl. destruct (attempt 2%nat); simpl; lia.
  - simpl. destruct (attempt 0%nat); [destruct w; reflexivity|].
    unfold bind, sleep. simpl. destruct (attempt 1%nat); [destruct w; reflexivity|].
    simpl. destruct (attempt 2%nat); destruct w; reflexivity.
Qed.

(** * The charge of a fulfilment (bot.py, [process_premium_queue]) *)

(** ** Answers without an order number *)

Lemma has_byte_append (c : ascii) (s1 s2 : string) :
  has_byte c (s1 +++ s2) = has_byte c s1 || has_byte c s2.
Proof.
  unfold has_byte. induction s1 as [|a s1 IH]; simpl.
  - reflexivity.
  - rewrite IH. apply orb_assoc.
Qed.

(** A prefix of [s] has its bytes in [s]. *)
Lemma prefix_has_byte (c : ascii) (p : string) :
  forall s, prefix p s = true -> has_byte c p = true -> has_byte c s = true.
Proof.
  unfold has_byte. induction p as [|a p IH]; intros s Hp Hc.
  - discriminate Hc.
  - destruct s as [|b s]; [discriminate Hp|].
    simpl in Hp. destruct (ascii_dec a b) as [-> | Hne]; [|discriminate Hp].
    simpl in Hc |- *. apply orb_true_iff in Hc. apply orb_true_iff.
    destruct Hc as [Hc | Hc]; [left; exact Hc | right; exact (IH s Hp Hc)].
Qed.

Lemma append_assoc (s1 s2 s3 : string) : (s1 +++ s2) +++ s3 = s1 +++ (s2 +++ s3).
Proof. induction s1 as [|c s1 IH]; simpl; [reflexivity | rewrite IH; reflexivity]. Qed.

Lemma append_nil_r (s : string) : s +++ EmptyString = s.
Proof. induction s as [|c s IH]; simpl; [reflexivity | rewrite IH; reflexivity]. Qed.

(** A text without a byte of the separator is one piece. *)
Lemma split_from_without (c : ascii) (sep : string) :
  has_byte c sep = true ->
  forall s cur, has_byte c s = false -> split_from sep s 0 cur = [cur +++ s].
Proof.
  intros Hsep. induction s as [|a s IH]; intros cur Hs.
  - simpl. rewrite append_nil_r. reflexivity.
  - assert (Hp : prefix sep (String a s) = false).
    { destruct (prefix sep (String a s)) eqn:E; [|reflexivity].
      rewrite (prefix_has_byte c sep _ E Hsep) in Hs. discriminate Hs. }
    cbn [split_from]. rewrite Hp.
    unfold has_byte in Hs. simpl in Hs. apply orb_false_iff in Hs.
    rewrite (IH _ (proj2 Hs)). rewrite append_assoc. reflexivity.
Qed.

Lemma is_word_byte_not_colon (c : ascii) : is_word_byte c = true -> Ascii.eqb ":" c = false.
Proof.
  intros H. destruct (Ascii.eqb ":" c) eqn:E; [|reflexivity].
  apply Ascii.eqb_eq in E. subst c. discriminate H.
Qed.

Lemma is_username_no_colon (s : string) : is_username s = true -> has_byte ":" s = false.
Proof.
  unfold is_username, has_byte. intros H. apply andb_true_iff in H. destruct H as [_ H].
  induction (list_ascii_of_string s) as [|c l IH]; cbn [existsb forallb] in *.
  - reflexivity.
  - apply andb_true_iff in H. destruct H as [Hc Hl].
    rewrite (is_word_byte_not_colon c Hc). exact (IH Hl).
Qed.

(** The answer of [activate_premium] for a settled order carries no order
    number: the drain's [message.split("订单号: ")[1]] raises IndexError. *)
Lemma parse_req_id_duplicate_answer (username : string) (duration : Z) (w : World) :
  is_username username = true ->
  existsb (Z.eqb duration) VALID_DURATIONS = true ->
  parse_req_id ("用户 " +++ username +++ " 的 " +++ duration_text duration
                +++ " Premium 已激活，无需重复操作") w
  = (Raise (IndexError "list index out of range"), w).
Proof.
  intros Hname Hdur. unfold parse_req_id, split.
  rewrite (split_from_without ":" "订单号: " eq_refl).
  - reflexivity.
  - rewrite !has_byte_append. rewrite (is_username_no_colon _ Hname).
    assert (Htext : has_byte ":" (duration_text duration) = false).
    { unfold VALID_DURATIONS in Hdur. simpl in Hdur.
      repeat (apply orb_true_iff in Hdur; destruct Hdur as [Hdur | Hdur]);
        try discriminate Hdur; apply Z.eqb_eq in Hdur; subst duration; reflexivity. }
    rewrite Htext. reflexivity.
Qed.

(** ** Code that leaves the books alone *)

Lemma map_q_username_set (f : queue_row -> queue_row) (p : queue_row -> bool)
    (rows : list queue_row) :
  (forall r, q_username (f r) = q_username r) ->
  map q_username (map (fun r => if p r then f r else r) rows) = map q_username rows.
Proof.
  intros Hf. induction rows as [|r rows IH]; simpl.
  - reflexivity.
  - rewrite IH. destruct (p r); [rewrite Hf|]; reflexivity.
Qed.

Lemma books_apply_write (wr : write) (d : DB) :
  charge_free wr -> books (apply_write wr d) = books d.
Proof.
  destruct wr; simpl; intros H; try contradiction; unfold books; simpl; try reflexivity.
  - rewrite filter_app. simpl. unfold succeeded in *. simpl. rewrite H, app_nil_r. reflexivity.
  - unfold set_queue_status.
    rewrite (map_q_username_set _ (fun r => q_id r =? task_id)); [reflexivity|].
    intros r. reflexivity.
  - unfold fail_queue_task.
    rewrite (map_q_username_set _ (fun r => q_id r =? task_id)); [reflexivity|].
    intros r. reflexivity.
Qed.

Lemma books_apply_writes (ws : list write) :
  forall d, Forall charge_free ws -> books (apply_writes ws d) = books d.
Proof.
  unfold apply_writes. induction ws as [|wr ws IH]; simpl; intros d H.
  - reflexivity.
  - inversion H; subst. rewrite IH by assumption. apply books_apply_write. assumption.
Qed.

Lemma cn_ret {A} (post : A -> Prop) (a : A) : post a -> charges_nothing post (ret a).
Proof. intros H w Hw. simpl. conjs; [reflexivity | exact Hw | exact H]. Qed.

Lemma cn_raise {A} (post : A -> Prop) (e : exn) : charges_nothing post (raise e).
Proof. intros w Hw. simpl. conjs; [reflexivity | exact Hw | exact I]. Qed.

Lemma cn_bind {A B} (pre : A -> Prop) (post : B -> Prop) (m : M A) (f : A -> M B) :
  charges_nothing pre m -> (forall a, pre a -> charges_nothing post (f a)) ->
  charges_nothing post (bind m f).
Proof.
  intros Hm Hf w Hw. unfold bind. destruct (Hm w Hw) as [Hb [Ht Hp]].
  destruct (m w) as [[a|e] w1]; simpl in *.
  - destruct (Hf a Hp w1 Ht) as [Hb' [Ht' Hp']]. conjs; [congruence | exact Ht' | exact Hp'].
  - conjs; [exact Hb | exact Ht | exact I].
Qed.

Lemma cn_then {A B} (post : B -> Prop) (m : M A) (f : A -> M B) :
  charges_nothing (fun _ => True) m -> (forall a, charges_nothing post (f a)) ->
  charges_nothing post (bind m f).
Proof. intros Hm Hf. apply (cn_bind (fun _ => True)); [exact Hm | intros a _; apply Hf]. Qed.

Lemma cn_never {A B} (post : B -> Prop) (m : M A) (f : A -> M B) :
  charges_nothing (fun _ => False) m -> charges_nothing post (bind m f).
Proof. intros Hm. apply (cn_bind (fun _ => False)); [exact Hm | intros a []]. Qed.

Lemma cn_weaken {A} (pre post : A -> Prop) (m : M A) :
  charges_nothing pre m -> (forall a, pre a -> post a) -> charges_nothing post m.
Proof.
  intros Hm Himp w Hw. destruct (Hm w Hw) as [Hb [Ht Hp]].
  conjs; [exact Hb | exact Ht|]. destruct (fst (m w)); [apply Himp; exact Hp | exact I].
Qed.

Lemma cn_try_except {A} (post : A -> Prop) (m : M A) (h : exn -> M A) :
  charges_nothing post m -> (forall e, charges_nothing post (h e)) ->
  charges_nothing post (try_except m h).
Proof.
  intros Hm Hh w Hw. unfold try_except. destruct (Hm w Hw) as [Hb [Ht Hp]].
  destruct (m w) as [[a|e] w1]; simpl in *.
  - conjs; assumption.
  - destruct (Hh e w1 Ht) as [Hb' [Ht' Hp']]. conjs; [congruence | exact Ht' | exact Hp'].
Qed.

Lemma cn_get_db (env : Env) {A} (post : A -> Prop) (body : connection -> M A) :
  (forall c, charges_nothing post (body c)) -> charges_nothing post (get_db env body).
Proof.
  intros H w Hw. unfold get_db.
  destruct (H Conn (set_txn [] w) (Forall_nil _)) as [Hb [Ht Hp]].
  destruct (body Conn (set_txn [] w)) as [[a|e] w1]; simpl in *.
  - destruct (conn_autocommit env); simpl.
    + conjs; [|exact Hw | exact Hp].
      unfold view. rewrite (books_apply_writes _ _ Ht). exact Hb.
    + conjs; [exact Hb | exact Hw | exact Hp].
  - conjs; [exact Hb | exact Hw | exact I].
Qed.

(** Code that only reads charges nothing. *)
Lemma cn_reads {A} (m : M A) : reads m -> charges_nothing (fun _ => True) m.
Proof.
  intros H w Hw. destruct (H w) as [Hd Ht]. rewrite Hd, Ht.
  conjs; [reflexivity | exact Hw|]. destruct (fst (m w)); exact I.
Qed.

Lemma cn_execute (c : connection) (wr : write) :
  charge_free wr -> charges_nothing (fun _ => True) (execute c wr).
Proof.
  intros H w Hw. simpl. conjs; [reflexivity | | exact I].
  apply Forall_app. split; [exact Hw | repeat constructor; exact H].
Qed.

Lemma cn_commit (c : connection) : charges_nothing (fun _ => True) (commit c).
Proof.
  intros w Hw. simpl. conjs; [|constructor | exact I].
  unfold view. apply books_apply_writes, Hw.
Qed.

Lemma cn_update_queue_task_status (env : Env) (task_id : Z) (status : task_status)
    (error_message : option string) :
  charges_nothing (fun _ => True) (update_queue_task_status env task_id status error_message).
Proof.
  unfold update_queue_task_status. apply cn_get_db. intros c.
  apply cn_then; [apply cn_reads, reads_CURRENT_TIMESTAMP|]. intros t.
  apply cn_then; [|intros _; apply cn_commit].
  destruct (task_status_eqb status failed); apply cn_execute; exact I.
Qed.

Lemma cn_send_message (env : Env) (chat_id : Z) :
  charges_nothing (fun _ => True) (send_message env chat_id).
Proof. apply cn_reads, reads_send_message. Qed.

Lemma cn_record_purchase_order (env : Env) (telegram_id : Z) (username : string)
    (duration : Z) (amount : Decimal) (status : purchase_status) (c : connection) :
  status <> Succeeded ->
  charges_nothing (fun _ => True)
    (record_purchase_order env telegram_id username duration amount status c).
Proof.
  intros Hstatus. unfold record_purchase_order.
  apply cn_then; [apply cn_reads, reads_generate_order_id|]. intros order_id.
  apply cn_then; [apply cn_reads, reads_select|]. intros d.
  destruct (existsb _ _); [apply cn_raise|].
  apply cn_then; [apply cn_reads, reads_CURRENT_TIMESTAMP|]. intros t.
  apply cn_then; [|intros _; apply cn_ret; exact I].
  apply cn_execute. unfold charge_free, succeeded. simpl.
  destruct status; [contradiction | reflexivity | reflexivity].
Qed.

Lemma reads_get_balance (env : Env) (telegram_id : Z) : reads (get_balance env telegram_id).
Proof. unfold get_balance. auto 10 with frame. Qed.

Lemma reads_is_order_completed (env : Env) (req_id : string) (conn : option connection) :
  reads (is_order_completed env req_id conn).
Proof. unfold is_order_completed. destruct conn; auto 10 with frame. Qed.

Lemma reads_payment_service (env : Env) : reads (payment_service env).
Proof. intros w. split; reflexivity. Qed.

Lemma reads_price (env : Env) (duration : Z) : reads (price env duration).
Proof. unfold price. auto with frame. Qed.

(** The only success answer that [activate_premium] returns is the one for
    an order settled before, for a duration of 3, 6 or 12 months: the call
    of [record_completed_order] on line 481 raises before the other one is
    returned.  Nothing is charged meanwhile. *)
Lemma cn_activate_premium (env : Env) (username : string) (duration telegram_id : Z) :
  charges_nothing
    (fun reply =>
       fst (fst reply) = true ->
       existsb (Z.eqb duration) VALID_DURATIONS = true
       /\ snd (fst reply) = "用户 " +++ username +++ " 的 " +++ duration_text duration
                             +++ " Premium 已激活，无需重复操作")
    (activate_premium env username duration telegram_id).
Proof.
  unfold activate_premium.
  destruct (negb (negb (String.eqb username EmptyString) && _ && _ && _)).
  { apply cn_then; [apply cn_reads, reads_send_to_admin|]. intros _.
    apply cn_ret. intros H. discriminate H. }
  destruct (negb (existsb (Z.eqb duration) VALID_DURATIONS)) eqn:Hdur.
  { apply cn_then; [apply cn_reads, reads_send_to_admin|]. intros _.
    apply cn_ret. intros H. discriminate H. }
  apply negb_false_iff in Hdur.
  apply cn_then; [apply cn_reads, reads_payment_service|]. intros ps.
  apply cn_try_except.
  - apply cn_then; [apply cn_reads, reads_answer|]. intros recipient.
    apply cn_then; [apply cn_reads, reads_sleep|]. intros _.
    apply cn_then; [apply cn_reads, reads_answer|]. intros estimated_amount.
    apply cn_then; [apply cn_reads, reads_answer|]. intros balance.
    apply cn_then; [apply cn_reads; auto 10 with frame|]. intros _.
    apply cn_then; [apply cn_reads, reads_answer|]. intros [req_id amount].
    apply cn_then; [apply cn_reads, reads_is_order_completed|]. intros done.
    destruct done.
    + apply cn_ret. intros _. split; [exact Hdur | reflexivity].
    + apply cn_then; [apply cn_reads, reads_sleep|]. intros _.
      apply cn_then; [apply cn_reads, reads_answer|]. intros _.
      apply cn_then; [apply cn_reads, reads_sleep|]. intros _.
      apply cn_then; [apply cn_reads, reads_answer|]. intros _.
      apply cn_then; [apply cn_reads, reads_answer|]. intros [payload pay_amount].
      apply cn_then; [apply cn_reads; auto 10 with frame|]. intros _.
      apply cn_then; [apply cn_reads, reads_answer|]. intros tx_hash.
      apply cn_never. apply cn_raise.
  - intros e. destruct (prefix _ _);
      (apply cn_then; [apply cn_reads, reads_send_to_admin|]; intros _;
       apply cn_ret; intros H; discriminate H).
Qed.

(** What the drain does with an answer of [activate_premium] charges
    nothing: a success answer has no order number, and the failure branch
    writes a 'Failed' purchase order. *)
Lemma cn_settle (env : Env) (task_id telegram_id : Z) (username : string)
    (duration retry_count : Z) (reply : bool * string * option Decimal) (c : connection) :
  is_username username = true ->
  (fst (fst reply) = true ->
   existsb (Z.eqb duration) VALID_DURATIONS = true
   /\ snd (fst reply) = "用户 " +++ username +++ " 的 " +++ duration_text duration
                         +++ " Premium 已激活，无需重复操作") ->
  charges_nothing (fun _ => True)
    (settle env (task_id, telegram_id, username, duration, retry_count) reply c).
Proof.
  intros Hname Hreply. destruct reply as [[success message] actual_amount].
  unfold settle. destruct success.
  - destruct (Hreply eq_refl) as [Hdur Hmsg]. cbn [fst snd] in Hmsg. subst message.
    apply cn_never. intros w Hw.
    rewrite (parse_req_id_duplicate_answer username duration w Hname Hdur).
    simpl. conjs; [reflexivity | exact Hw | exact I].
  - apply cn_then; [apply cn_record_purchase_order; discriminate|]. intros order_id.
    apply cn_then; [apply cn_update_queue_task_status|]. intros _.
    apply cn_send_message.
Qed.

(** One turn of the drain for a task with a username charges nothing. *)
Lemma cn_process_task (env : Env) (task_id telegram_id : Z) (username : string)
    (duration retry_count : Z) :
  is_username username = true ->
  charges_nothing (fun _ => True)
    (process_task env (task_id, telegram_id, username, duration, retry_count)).
Proof.
  intros Hname. unfold process_task. destruct (max_retries <=? retry_count).
  - apply cn_then; [apply cn_update_queue_task_status | intros _; apply cn_send_message].
  - apply cn_then; [|intros _; apply cn_reads, reads_sleep].
    apply cn_try_except.
    + apply cn_then; [apply cn_reads, reads_price|]. intros ref_amount.
      apply cn_get_db. intros c.
      apply cn_then; [apply cn_reads, reads_get_balance|]. intros balance.
      apply cn_then; [apply cn_reads; auto 10 with frame|]. intros _.
      apply (cn_bind _ _ _ _ (cn_activate_premium env username duration telegram_id)).
      intros reply Hreply. apply cn_settle; assumption.
    + intros e.
      apply cn_then; [apply cn_update_queue_task_status | intros _; apply cn_send_message].
Qed.

(** Claiming a task charges nothing, and the task claimed is one of the
    queue. *)
Lemma get_next_queue_task_books (env : Env) (w : World) :
  books (db (snd (get_next_queue_task env w))) = books (db w)
  /\ txn (snd (get_next_queue_task env w)) = txn w
  /\ match fst (get_next_queue_task env w) with
     | Ok (Some (task_id, telegram_id, username, duration, retry_count)) =>
         In username (map q_username (premium_queue (db w)))
     | _ => True
     end.
Proof.
  rewrite get_next_queue_task_run.
  destruct (oldest_pending (premium_queue (db w))) as [r|] eqn:E.
  - cbn [fst snd]. conjs.
    + exact (books_apply_write (SetQueueStatus (q_id r) processing (now w)) (db w) I).
    + reflexivity.
    + apply in_map. exact (proj1 (oldest_pending_is_pending _ _ E)).
  - cbn [fst snd]. conjs; [reflexivity | reflexivity | exact I].
Qed.

(** The loop of the drain, on a queue of tasks with usernames. *)
Lemma drain_books (env : Env) (left : nat) :
  forall w,
    Forall charge_free (txn w) ->
    (forall username, In username (map q_username (premium_queue (db w))) ->
                      is_username username = true) ->
    books (db (snd (drain env left w))) = books (db w)
    /\ Forall charge_free (txn (snd (drain env left w))).
Proof.
  induction left as [|k IH]; intros w Hw Hq.
  - simpl. split; [reflexivity | exact Hw].
  - destruct (drain env (S k) w) as [res w'] eqn:Hrun. cbn [snd].
    simpl drain in Hrun. unfold bind at 1 in Hrun.
    destruct (get_next_queue_task_books env w) as [Hb [Ht Hin]].
    destruct (get_next_queue_task env w) as [[[t|]|e] w1]; simpl in Hb, Ht, Hin.
    + destruct t as [[[[task_id telegram_id] username] duration] retry_count].
      assert (Hw1 : Forall charge_free (txn w1)) by (rewrite Ht; exact Hw).
      destruct (cn_process_task env task_id telegram_id username duration retry_count
                  (Hq username Hin) w1 Hw1) as [Hb2 [Ht2 _]].
      unfold bind at 1 in Hrun.
      destruct (process_task env (task_id, telegram_id, username, duration, retry_count) w1)
        as [[[]|e] w2]; simpl in Hb2, Ht2.
      * destruct (IH w2 Ht2) as [Hb3 Ht3].
        { intros u Hu. apply Hq.
          assert (Hsame : map q_username (premium_queue (db w2))
                          = map q_username (premium_queue (db w))).
          { assert (Hbooks : books (db w2) = books (db w)) by congruence.
            unfold books in Hbooks. inversion Hbooks. reflexivity. }
          rewrite <- Hsame. exact Hu. }
        rewrite Hrun in Hb3, Ht3. cbn [snd] in Hb3, Ht3.
        split; [congruence | exact Ht3].
      * inversion Hrun; subst. split; [congruence | exact Ht2].
    + inversion Hrun; subst. split; [exact Hb | rewrite Ht; exact Hw].
    + inversion Hrun; subst. split; [exact Hb | rewrite Ht; exact Hw].
Qed.


